(** * Notes application: request handlers, validation, store operations,
      client adapter and client cache.

    A shallow embedding of the backend (controllers/notesController.js,
    middleware/validation.js, middleware/errorHandler.js, models/Note.js,
    index.js) and of the frontend data layer (services/api.ts,
    hooks/useNotes.ts), followed by the properties proved about them.

    Conventions.
    - JavaScript strings are sequences of 8-bit code units ([string]); only
      ASCII white space is recognised by [trim].
    - Time stamps are epoch milliseconds ([Z]); a JSON date stands for the
      ISO-8601 text of that instant.
    - The document store is the list of the collection's documents in
      natural order.  The ODM primitives the handlers call (find, sort, skip,
      limit, countDocuments, save, findById...) are written out as list
      functions; the full-text matcher and its relevance score belong to the
      database engine and are taken as parameters. *)

From Stdlib Require Import ZArith NArith List String Ascii Bool Lia.
From Stdlib Require Import Sorted Permutation.
Import ListNotations.

Open Scope string_scope.
Open Scope list_scope.
Open Scope Z_scope.

(* ------------------------------------------------------------------ *)
(** ** JavaScript strings *)

Module JS.

(** White space removed by [String.prototype.trim] (ASCII part): TAB, LF,
    VT, FF, CR and SPACE. *)
Definition isSpace (c : ascii) : bool :=
  let n := nat_of_ascii c in
  ((9 <=? n)%nat && (n <=? 13)%nat) || (n =? 32)%nat.

Fixpoint trimStart (s : string) : string :=
  match s with
  | EmptyString => EmptyString
  | String c r => if isSpace c then trimStart r else s
  end.

Fixpoint trimEnd (s : string) : string :=
  match s with
  | EmptyString => EmptyString
  | String c r =>
      match trimEnd r with
      | EmptyString => if isSpace c then EmptyString else String c EmptyString
      | r' => String c r'
      end
  end.

Definition trim (s : string) : string := trimEnd (trimStart s).

(** [s.length] *)
Definition length (s : string) : Z := Z.of_nat (String.length s).

(** Truthiness of a string value: the empty string is falsy. *)
Definition truthy (s : string) : bool :=
  match s with EmptyString => false | _ => true end.

(** [haystack.includes(needle)]. *)
Fixpoint includes (needle haystack : string) : bool :=
  String.prefix needle haystack
  || match haystack with
     | EmptyString => false
     | String _ r => includes needle r
     end.

(** validator.js [escape]: the eight replaced characters. *)
Definition escapeChar (c : ascii) : string :=
  let n := nat_of_ascii c in
  if (n =? 38)%nat then "&amp;"
  else if (n =? 34)%nat then "&quot;"
  else if (n =? 39)%nat then "&#x27;"
  else if (n =? 60)%nat then "&lt;"
  else if (n =? 62)%nat then "&gt;"
  else if (n =? 47)%nat then "&#x2F;"
  else if (n =? 92)%nat then "&#x5C;"
  else if (n =? 96)%nat then "&#96;"
  else String c EmptyString.

Fixpoint escape (s : string) : string :=
  match s with
  | EmptyString => EmptyString
  | String c r => (escapeChar c ++ escape r)%string
  end.

Definition isHexDigit (c : ascii) : bool :=
  let n := nat_of_ascii c in
  ((48 <=? n)%nat && (n <=? 57)%nat)
  || ((97 <=? n)%nat && (n <=? 102)%nat)
  || ((65 <=? n)%nat && (n <=? 70)%nat).

Fixpoint allHex (s : string) : bool :=
  match s with
  | EmptyString => true
  | String c r => isHexDigit c && allHex r
  end.

(** validator.js [isHexadecimal]: /^(0x|0h)?[0-9A-F]+$/i. *)
Definition isHexadecimal (s : string) : bool :=
  let digits :=
    match s with
    | String z (String p r) =>
        let k := nat_of_ascii p in
        if (nat_of_ascii z =? 48)%nat
           && ((k =? 120)%nat || (k =? 88)%nat || (k =? 104)%nat || (k =? 72)%nat)
        then r else s
    | _ => s
    end in
  truthy digits && allHex digits.

(** validator.js [isMongoId]. *)
Definition isMongoId (s : string) : bool :=
  isHexadecimal s && (String.length s =? 24)%nat.

End JS.

(* ------------------------------------------------------------------ *)
(** ** JSON values, as sent by [res.json] *)

Module Json.

#[warnings="-register-all"]
Inductive t : Type :=
| JNull
| JBool (b : bool)
| JNum (n : Z)
| JStr (s : string)
| JDate (ms : Z)
| JArr (xs : list t)
| JObj (fields : list (string * t)).

Definition obj : Type := list (string * t).

(** [o[k]] *)
Fixpoint get (k : string) (o : obj) : option t :=
  match o with
  | [] => None
  | (k', v) :: o' => if String.eqb k k' then Some v else get k o'
  end.

(** [k in o] *)
Definition has (k : string) (o : obj) : bool :=
  match get k o with Some _ => true | None => false end.

(** [o[k] = v]: an existing property keeps its place, a new one goes last. *)
Fixpoint set (k : string) (v : t) (o : obj) : obj :=
  match o with
  | [] => [(k, v)]
  | (k', v') :: o' =>
      if String.eqb k k' then (k, v) :: o' else (k', v') :: set k v o'
  end.

(** [delete o[k]] *)
Definition del (k : string) (o : obj) : obj :=
  filter (fun kv => negb (String.eqb k (fst kv))) o.

Definition keys (o : obj) : list string := map fst o.

(** A property whose value is [undefined] is left out by JSON.stringify. *)
Definition optField (k : string) (v : option t) : obj :=
  match v with Some x => [(k, x)] | None => [] end.

Definition strings (l : list string) : t := JArr (map JStr l).

End Json.

Import Json.

(* ------------------------------------------------------------------ *)
(** ** config/constants.js *)

Module HTTP_STATUS.
Definition OK := 200.
Definition CREATED := 201.
Definition BAD_REQUEST := 400.
Definition UNAUTHORIZED := 401.
Definition NOT_FOUND := 404.
Definition CONFLICT := 409.
Definition INTERNAL_SERVER_ERROR := 500.
Definition SERVICE_UNAVAILABLE := 503.
End HTTP_STATUS.

Module ERROR_MESSAGES.
Definition DATABASE_NOT_AVAILABLE := "Database service is not available".
Definition NOTE_NOT_FOUND := "Note not found".
Definition INVALID_ID_FORMAT := "Invalid ID format provided".
Definition VALIDATION_ERROR := "Validation error occurred".
Definition INTERNAL_SERVER_ERROR := "Internal server error occurred".
End ERROR_MESSAGES.

Module SUCCESS_MESSAGES.
Definition NOTE_CREATED := "Note created successfully".
Definition NOTE_UPDATED := "Note updated successfully".
Definition NOTE_DELETED := "Note deleted successfully".
End SUCCESS_MESSAGES.

Module VALIDATION.
Definition TITLE_MIN_LENGTH := 1.
Definition TITLE_MAX_LENGTH := 200.
Definition CONTENT_MIN_LENGTH := 1.
Definition CONTENT_MAX_LENGTH := 10000.
End VALIDATION.

(* ------------------------------------------------------------------ *)
(** ** Errors raised by the store layer and handed to [next(err)] *)

Record FieldError : Type := mkFieldError {
  fe_path : string;
  fe_message : string;
  fe_value : option Json.t
}.

Inductive ErrCode : Type :=
| NoCode
| NumCode (n : Z)
| StrCode (s : string).

Inductive Error : Type :=
| ValidationError (errors : list FieldError)
| CastError (path : string) (value : Json.t)
| DocumentNotFoundError
| PlainError (name message : string) (code : ErrCode)
             (keyValue : Json.obj) (stack : string).

(** [new Error(message)] *)
Definition newError (message : string) : Error :=
  PlainError "Error" message NoCode [] EmptyString.

(* ------------------------------------------------------------------ *)
(** ** models/Note.js *)

(** A 96-bit store identifier.  Only values below 2^96 arise. *)
Definition ObjectId : Type := N.

Module ObjectId.

Definition hexDigit (n : N) : ascii :=
  nth (N.to_nat n) (list_ascii_of_string "0123456789abcdef") "0"%char.

Fixpoint toHexAcc (digits : nat) (n : N) (acc : string) : string :=
  match digits with
  | O => acc
  | S k => toHexAcc k (n / 16)%N (String (hexDigit (n mod 16)%N) acc)
  end.

(** [_id.toString()]: 24 lower-case hexadecimal digits. *)
Definition toString (o : ObjectId) : string := toHexAcc 24 o EmptyString.

Definition hexVal (c : ascii) : option N :=
  let n := N_of_ascii c in
  if ((48 <=? n) && (n <=? 57))%N then Some (n - 48)%N
  else if ((97 <=? n) && (n <=? 102))%N then Some (n - 87)%N
  else if ((65 <=? n) && (n <=? 70))%N then Some (n - 55)%N
  else None.

Fixpoint fromHexAcc (s : string) (acc : N) : option N :=
  match s with
  | EmptyString => Some acc
  | String c r =>
      match hexVal c with
      | Some v => fromHexAcc r (16 * acc + v)%N
      | None => None
      end
  end.

(** The ODM's cast of a route parameter to an identifier: a string of 24
    hexadecimal digits.  Any other string raises a CastError.  (Routes
    that validate the id only let strings of length 24 through.) *)
Definition cast (s : string) : option ObjectId :=
  if (String.length s =? 24)%nat then fromHexAcc s 0%N else None.

End ObjectId.

Module Note.

(** A stored document: the schema's paths, the timestamps added by
    [timestamps: true], the identifier and the version key. *)
Record t : Type := mk {
  _id : ObjectId;
  title : string;
  content : string;
  isArchived : bool;
  tags : list string;
  createdAt : Z;
  updatedAt : Z;
  __v : Z
}.

(** The plain object of a document, as [.lean()] hands it out and as
    [toObject] starts from before any transform. *)
Definition lean (d : t) : Json.obj :=
  [ ("_id", JStr (ObjectId.toString (_id d)));
    ("title", JStr (title d));
    ("content", JStr (content d));
    ("isArchived", JBool (isArchived d));
    ("tags", Json.strings (tags d));
    ("createdAt", JDate (createdAt d));
    ("updatedAt", JDate (updatedAt d));
    ("__v", JNum (__v d)) ].

(** Schema option [toJSON.transform]:
    ret.id = ret._id?.toString(); delete ret._id; delete ret.__v. *)
Definition transform (ret : Json.obj) : Json.obj :=
  let ret :=
    match Json.get "_id" ret with
    | Some i => Json.set "id" i ret
    | None => ret
    end in
  let ret := Json.del "_id" ret in
  Json.del "__v" ret.

(** What JSON.stringify sees of a hydrated document. *)
Definition toJSON (d : t) : Json.obj := transform (lean d).

(** Schema validators of the path [title] (required, minlength,
    maxlength), run on the value after the [trim] setter. *)
Definition validateTitle (v : option string) : list FieldError :=
  match v with
  | None => [mkFieldError "title" "Title is required" None]
  | Some s =>
      if negb (JS.truthy s)
      then [mkFieldError "title" "Title is required" (Some (JStr s))]
      else if JS.length s <? VALIDATION.TITLE_MIN_LENGTH
      then [mkFieldError "title" "Title must be at least 1 character long"
              (Some (JStr s))]
      else if VALIDATION.TITLE_MAX_LENGTH <? JS.length s
      then [mkFieldError "title" "Title cannot exceed 200 characters"
              (Some (JStr s))]
      else []
  end.

Definition validateContent (v : option string) : list FieldError :=
  match v with
  | None => [mkFieldError "content" "Content is required" None]
  | Some s =>
      if negb (JS.truthy s)
      then [mkFieldError "content" "Content is required" (Some (JStr s))]
      else if JS.length s <? VALIDATION.CONTENT_MIN_LENGTH
      then [mkFieldError "content" "Content must be at least 1 character long"
              (Some (JStr s))]
      else if VALIDATION.CONTENT_MAX_LENGTH <? JS.length s
      then [mkFieldError "content" "Content cannot exceed 10000 characters"
              (Some (JStr s))]
      else []
  end.

(** Schema validator of [tags]: tags.length <= 10. *)
Definition validateTags (v : list string) : list FieldError :=
  if (List.length v <=? 10)%nat then []
  else [mkFieldError "tags" "A note cannot have more than 10 tags"
          (Some (Json.strings v))].

(** [noteSchema.pre("save")]: title and content must not be white space
    only. *)
Definition preSave (d : t) : option Error :=
  if JS.truthy (title d) && (JS.length (JS.trim (title d)) =? 0)
  then Some (newError "Title cannot be empty or just whitespace")
  else if JS.truthy (content d) && (JS.length (JS.trim (content d)) =? 0)
  then Some (newError "Content cannot be empty or just whitespace")
  else None.

End Note.

(* ------------------------------------------------------------------ *)
(** ** The ODM operations used by the handlers *)

Module Mongoose.

(** The collection, in natural order. *)
Definition Store : Type := list Note.t.

(** Query filter: { isArchived, $text?: { $search } }. *)
Record Filter : Type := mkFilter {
  f_isArchived : option bool;
  f_text : option string
}.

(** Order of sort keys: integer sequences compared lexicographically.  The
    engine's comparison of two values of one field (numbers, dates and
    booleans by value, strings by code units) is carried over by
    [sortKey]. *)
Fixpoint lexLeb (a b : list Z) : bool :=
  match a, b with
  | [], _ => true
  | _ :: _, [] => false
  | x :: a', y :: b' => (x <? y) || ((x =? y) && lexLeb a' b')
  end.

Definition codes (s : string) : list Z :=
  map (fun c => Z.of_nat (nat_of_ascii c)) (list_ascii_of_string s).

(** Smallest (ascending sort) or largest (descending sort) element of an
    array value; the empty array sorts first. *)
Definition arrayKey (dir : Z) (l : list string) : list Z :=
  match l with
  | [] => [0]
  | x :: r =>
      1 :: fold_left
             (fun best y =>
                if dir <? 0
                then (if lexLeb best (codes y) then codes y else best)
                else (if lexLeb (codes y) best then codes y else best))
             r (codes x)
  end.

Definition sortKey (field : string) (dir : Z) (d : Note.t) : list Z :=
  if String.eqb field "createdAt" then [Note.createdAt d]
  else if String.eqb field "updatedAt" then [Note.updatedAt d]
  else if String.eqb field "title" then codes (Note.title d)
  else if String.eqb field "content" then codes (Note.content d)
  else if String.eqb field "isArchived" then [if Note.isArchived d then 1 else 0]
  else if String.eqb field "tags" then arrayKey dir (Note.tags d)
  else if String.eqb field "_id" then [Z.of_N (Note._id d)]
  else if String.eqb field "__v" then [Note.__v d]
  else [].

(** [a] may stand before [b] under the sort { field: dir }. *)
Definition docLeb (field : string) (dir : Z) (a b : Note.t) : bool :=
  if dir <? 0
  then lexLeb (sortKey field dir b) (sortKey field dir a)
  else lexLeb (sortKey field dir a) (sortKey field dir b).

Section Sorting.
Context {A : Type} (leb : A -> A -> bool).

Fixpoint insert (x : A) (l : list A) : list A :=
  match l with
  | [] => [x]
  | y :: l' => if leb x y then x :: l else y :: insert x l'
  end.

(** A stable sort: documents with equal keys keep their natural order. *)
Definition sortWith (l : list A) : list A := fold_right insert [] l.

End Sorting.

(** [.sort({ [field]: dir })] *)
Definition sort (field : string) (dir : Z) (l : list Note.t) : list Note.t :=
  sortWith (docLeb field dir) l.

(** [.skip(n)] and [.limit(n)] for n >= 0. *)
Definition skip (n : Z) (l : list Note.t) : list Note.t := skipn (Z.to_nat n) l.
Definition limit (n : Z) (l : list Note.t) : list Note.t := firstn (Z.to_nat n) l.

Section Engine.
(** The engine's full-text matcher over the text index on title and
    content, and the relevance score it assigns (only the order of scores
    matters). *)
Variable textMatch : string -> Note.t -> bool.
Variable textScore : string -> Note.t -> Z.

Definition matches (f : Filter) (d : Note.t) : bool :=
  match f_isArchived f with
  | Some b => Bool.eqb (Note.isArchived d) b
  | None => true
  end
  && match f_text f with
     | Some q => textMatch q d
     | None => true
     end.

(** [Note.find(filter)] *)
Definition find (f : Filter) (s : Store) : list Note.t := filter (matches f) s.

(** [Note.countDocuments(filter)] *)
Definition countDocuments (f : Filter) (s : Store) : Z :=
  Z.of_nat (List.length (find f s)).

(** [.sort({ score: { $meta: "textScore" } })]: best score first. *)
Definition sortByScore (q : string) (l : list Note.t) : list Note.t :=
  sortWith (fun a b => textScore q b <=? textScore q a) l.

(** [noteSchema.statics.searchNotes]: text match among the notes that are
    not archived, best score first. *)
Definition searchNotes (q : string) (s : Store) : list Note.t :=
  sortByScore q (find (mkFilter (Some false) (Some q)) s).

(** The plain object of a search result: the projection
    { score: { $meta: "textScore" } } adds the score. *)
Definition leanScored (q : string) (d : Note.t) : Json.obj :=
  (Note.lean d ++ [("score", JNum (textScore q d))])%list.

End Engine.

Definition sameId (oid : ObjectId) (d : Note.t) : bool := N.eqb (Note._id d) oid.

(** [Note.findById(id)] on a cast identifier. *)
Definition findById (oid : ObjectId) (s : Store) : option Note.t :=
  List.find (sameId oid) s.

(** Write a document back in place of the stored one with its id. *)
Definition replace (d : Note.t) (s : Store) : Store :=
  map (fun x => if sameId (Note._id d) x then d else x) s.

Definition remove (oid : ObjectId) (s : Store) : Store :=
  filter (fun x => negb (sameId oid x)) s.

(** Constructor argument of [new Note(noteData)]. *)
Record NoteData : Type := mkNoteData {
  nd_title : option string;
  nd_content : option string;
  nd_tags : list string
}.

(** [new Note(noteData).save()]: setters ([trim]) and defaults are applied,
    the schema validators run, then the pre-save hook; the timestamps
    plugin gives createdAt and updatedAt the same instant. *)
Definition create (now : Z) (newId : ObjectId) (data : NoteData) (s : Store)
  : Store * (Error + Note.t) :=
  let title := option_map JS.trim (nd_title data) in
  let content := option_map JS.trim (nd_content data) in
  match (Note.validateTitle title ++ Note.validateContent content
         ++ Note.validateTags (nd_tags data))%list with
  | [] =>
      let d := Note.mk newId
                 (match title with Some t => t | None => EmptyString end)
                 (match content with Some c => c | None => EmptyString end)
                 false (nd_tags data) now now 0 in
      match Note.preSave d with
      | Some e => (s, inl e)
      | None => (s ++ [d], inr d)
      end
  | errs => (s, inl (ValidationError errs))
  end.

(** The schema validators on the paths of a document as it stands. *)
Definition validate (d : Note.t) : list FieldError :=
  (Note.validateTitle (Some (Note.title d))
   ++ Note.validateContent (Some (Note.content d))
   ++ Note.validateTags (Note.tags d))%list.

(** [doc.save()] on a document loaded from the store and then modified:
    the schema validators run on the document (save validates all its
    paths, not only the modified ones), then the pre-save hook; updatedAt
    is refreshed. *)
Definition saveModified (now : Z) (d : Note.t) (s : Store)
  : Store * (Error + Note.t) :=
  match validate d with
  | [] =>
      match Note.preSave d with
      | Some e => (s, inl e)
      | None =>
          let d' := Note.mk (Note._id d) (Note.title d) (Note.content d)
                      (Note.isArchived d) (Note.tags d) (Note.createdAt d) now
                      (Note.__v d) in
          (replace d' s, inr d')
      end
  | errs => (s, inl (ValidationError errs))
  end.

(** The update object built by the handler: only the provided fields. *)
Record UpdateData : Type := mkUpdateData {
  u_title : option string;
  u_content : option string;
  u_tags : option (list string);
  u_isArchived : option bool
}.

Definition orElse {A : Type} (o : option A) (d : A) : A :=
  match o with Some x => x | None => d end.

(** Validators run on the paths present in the update
    ([runValidators: true]). *)
Definition updateValidators (u : UpdateData) : list FieldError :=
  (match u_title u with Some t => Note.validateTitle (Some (JS.trim t)) | None => [] end
   ++ match u_content u with Some c => Note.validateContent (Some (JS.trim c)) | None => [] end
   ++ match u_tags u with Some l => Note.validateTags l | None => [] end)%list.

(** The document after $set of the provided paths; updatedAt is refreshed
    by the timestamps plugin. *)
Definition applyUpdate (now : Z) (u : UpdateData) (d : Note.t) : Note.t :=
  Note.mk (Note._id d)
    (orElse (option_map JS.trim (u_title u)) (Note.title d))
    (orElse (option_map JS.trim (u_content u)) (Note.content d))
    (orElse (u_isArchived u) (Note.isArchived d))
    (orElse (u_tags u) (Note.tags d))
    (Note.createdAt d) now (Note.__v d).

(** [Note.findByIdAndUpdate(id, updateData,
      { new: true, runValidators: true, lean: false })]:
    the id is cast, the update is validated, the document (if any) is
    updated and returned in its new state. *)
Definition findByIdAndUpdate (now : Z) (id : string) (u : UpdateData) (s : Store)
  : Store * (Error + option Note.t) :=
  match ObjectId.cast id with
  | None => (s, inl (CastError "_id" (JStr id)))
  | Some oid =>
      match updateValidators u with
      | [] =>
          match findById oid s with
          | None => (s, inr None)
          | Some d =>
              let d' := applyUpdate now u d in
              (replace d' s, inr (Some d'))
          end
      | errs => (s, inl (ValidationError errs))
      end
  end.

(** [Note.findByIdAndDelete(id)] *)
Definition findByIdAndDelete (id : string) (s : Store)
  : Store * (Error + option Note.t) :=
  match ObjectId.cast id with
  | None => (s, inl (CastError "_id" (JStr id)))
  | Some oid =>
      match findById oid s with
      | None => (s, inr None)
      | Some d => (remove oid s, inr (Some d))
      end
  end.

(** [Note.findById(id)] on a route parameter. *)
Definition findByIdParam (id : string) (s : Store) : Error + option Note.t :=
  match ObjectId.cast id with
  | None => inl (CastError "_id" (JStr id))
  | Some oid => inr (findById oid s)
  end.

End Mongoose.

(* ------------------------------------------------------------------ *)
(** ** Requests and responses *)

(** [req.body] of the note routes. *)
Record Body : Type := mkBody {
  title : option string;
  content : option string;
  tags : option (list string);
  isArchived : option bool
}.

Definition bodyJson (b : Body) : Json.t :=
  JObj (Json.optField "title" (option_map JStr (title b))
        ++ Json.optField "content" (option_map JStr (content b))
        ++ Json.optField "tags" (option_map Json.strings (tags b))
        ++ Json.optField "isArchived" (option_map JBool (isArchived b))).

(** [res.status(status).json(body)] *)
Record Response : Type := mkResponse {
  status : Z;
  body : Json.obj
}.

(** What a handler does with a request: answer it, or hand an error to
    [next]. *)
Inductive Outcome : Type :=
| Responded (r : Response)
| Next (e : Error).

Definition fieldErrorJson (e : FieldError) : Json.t :=
  JObj ([("field", JStr (fe_path e)); ("message", JStr (fe_message e))]
        ++ Json.optField "value" (fe_value e)).

(* ------------------------------------------------------------------ *)
(** ** middleware/validation.js *)

Module Validation.

(** [sanitizeRequestBody]: every string-valued field of the body is
    trimmed. *)
Definition sanitizeRequestBody (b : Body) : Body :=
  mkBody (option_map JS.trim (title b)) (option_map JS.trim (content b))
         (tags b) (isArchived b).

(** A chain .trim().notEmpty().isLength({min, max}).escape() run on a
    field value: the sanitised value written back to the request and the
    errors recorded.  Each failing validator records its own error. *)
Definition textChain (path emptyMsg lengthMsg : string) (lo hi : Z) (v : string)
  : string * list FieldError :=
  let v1 := JS.trim v in
  let e1 := if JS.truthy v1 then []
            else [mkFieldError path emptyMsg (Some (JStr v1))] in
  let e2 := if (lo <=? JS.length v1) && (JS.length v1 <=? hi) then []
            else [mkFieldError path lengthMsg (Some (JStr v1))] in
  (JS.escape v1, e1 ++ e2).

Definition titleLengthMsg := "Title must be between 1 and 200 characters".
Definition contentLengthMsg := "Content must be between 1 and 10000 characters".

Definition titleChain (emptyMsg : string) (v : string) :=
  textChain "title" emptyMsg titleLengthMsg
    VALIDATION.TITLE_MIN_LENGTH VALIDATION.TITLE_MAX_LENGTH v.

Definition contentChain (emptyMsg : string) (v : string) :=
  textChain "content" emptyMsg contentLengthMsg
    VALIDATION.CONTENT_MIN_LENGTH VALIDATION.CONTENT_MAX_LENGTH v.

(** [handleValidationErrors] *)
Definition handleValidationErrors (errors : list FieldError) : option Response :=
  match errors with
  | [] => None
  | _ =>
      Some (mkResponse HTTP_STATUS.BAD_REQUEST
              [("success", JBool false);
               ("message", JStr ERROR_MESSAGES.VALIDATION_ERROR);
               ("errors", JArr (map fieldErrorJson errors))])
  end.

(** The chains of [validateCreateNote] on title and content; the last
    element of the array is [handleValidationErrors].  A missing field is
    validated as the empty string. *)
Definition validateCreateNote (b : Body) : Body * list FieldError :=
  let '(t, et) := titleChain "Title is required"
                    (Mongoose.orElse (title b) EmptyString) in
  let '(c, ec) := contentChain "Content is required"
                    (Mongoose.orElse (content b) EmptyString) in
  (mkBody (Some t) (Some c) (tags b) (isArchived b), et ++ ec).

(** The chains of [validateUpdateNote]: the id check, the optional chains
    on title and content (skipped when the field is undefined) and the
    custom rule on the whole body, which reads the sanitised fields; the
    last element of the array is [handleValidationErrors]. *)
Definition validateUpdateNote (id : string) (b : Body) : Body * list FieldError :=
  let eid := if JS.isMongoId id then []
             else [mkFieldError "id" "Invalid note ID format" (Some (JStr id))] in
  let '(t, et) :=
    match title b with
    | Some v => let '(v', e) := titleChain "Title cannot be empty if provided" v in
                (Some v', e)
    | None => (None, [])
    end in
  let '(c, ec) :=
    match content b with
    | Some v => let '(v', e) := contentChain "Content cannot be empty if provided" v in
                (Some v', e)
    | None => (None, [])
    end in
  let b' := mkBody t c (tags b) (isArchived b) in
  let ecustom :=
    if negb (JS.truthy (Mongoose.orElse t EmptyString))
       && negb (JS.truthy (Mongoose.orElse c EmptyString))
    then [mkFieldError EmptyString
            "At least one field (title or content) must be provided for update"
            (Some (bodyJson b'))]
    else [] in
  (b', eid ++ et ++ ec ++ ecustom).

(** The chain of [validateNoteId]; the last element of the array is
    [handleValidationErrors]. *)
Definition validateNoteId (id : string) : list FieldError :=
  if JS.isMongoId id then []
  else [mkFieldError "id" "Invalid note ID format" (Some (JStr id))].

End Validation.

(* ------------------------------------------------------------------ *)
(** ** controllers/notesController.js *)

(** What a handler reads besides the request and the store. *)
Record Env : Type := mkEnv {
  now : Z;                    (* the clock, epoch milliseconds *)
  newId : ObjectId;           (* the identifier the driver generates next *)
  NODE_ENV : option string;   (* process.env.NODE_ENV *)
  uptime : Z                  (* process.uptime() *)
}.

Module Controller.

Import Mongoose.

(** [req.query] of GET /api/notes.  [page] and [limit] are decimal numerals
    of positive integers, given by their value: on those, [parseInt] and the
    numeric reading of [page] in [page < totalPages] agree. *)
Record ListQuery : Type := mkListQuery {
  page : positive;
  limit : positive;
  sortBy : string;
  sortOrder : string;
  archived : string;
  search : string
}.

(** The destructuring defaults. *)
Definition defaultListQuery : ListQuery :=
  mkListQuery 1 50 "createdAt" "desc" "false" EmptyString.

(** [Math.ceil(a / b)] for integers [a] and [b > 0]. *)
Definition ceilQuot (a b : Z) : Z := - ((- a) / b).

Section Handlers.
Variable textMatch : string -> Note.t -> bool.
Variable textScore : string -> Note.t -> Z.

(** The query filter built by [getNotes]. *)
Definition listFilter (q : ListQuery) : Filter :=
  mkFilter (Some (String.eqb (archived q) "true"))
           (if JS.truthy (JS.trim (search q)) then Some (search q) else None).

(** sortOptions[sortBy] = sortOrder === "desc" ? -1 : 1 *)
Definition sortDir (q : ListQuery) : Z :=
  if String.eqb (sortOrder q) "desc" then -1 else 1.

(** The documents of the requested page, before [.lean()]. *)
Definition listPage (q : ListQuery) (s : Store) : list Note.t :=
  let skip := (Z.pos (page q) - 1) * Z.pos (limit q) in
  Mongoose.limit (Z.pos (limit q))
    (Mongoose.skip skip
       (Mongoose.sort (sortBy q) (sortDir q)
          (find textMatch (listFilter q) s))).

Definition getNotes (q : ListQuery) (s : Store) : Outcome :=
  let filter := listFilter q in
  let notes := map Note.lean (listPage q s) in
  let totalCount := countDocuments textMatch filter s in
  let totalPages := ceilQuot totalCount (Z.pos (limit q)) in
  let hasNextPage := Z.pos (page q) <? totalPages in
  let hasPrevPage := 1 <? Z.pos (page q) in
  Responded (mkResponse HTTP_STATUS.OK
    [("success", JBool true);
     ("data", JArr (map JObj notes));
     ("pagination",
      JObj [("currentPage", JNum (Z.pos (page q)));
            ("totalPages", JNum totalPages);
            ("totalCount", JNum totalCount);
            ("hasNextPage", JBool hasNextPage);
            ("hasPrevPage", JBool hasPrevPage);
            ("limit", JNum (Z.pos (limit q)))])]).

Definition notFound : Response :=
  mkResponse HTTP_STATUS.NOT_FOUND
    [("success", JBool false);
     ("message", JStr ERROR_MESSAGES.NOTE_NOT_FOUND)].

(** tags.map((tag) => tag.trim()).filter(Boolean) *)
Definition cleanTags (l : list string) : list string :=
  filter JS.truthy (map JS.trim l).

Definition createNote (env : Env) (b : Body) (s : Store) : Store * Outcome :=
  let noteData :=
    mkNoteData (option_map JS.trim (title b)) (option_map JS.trim (content b))
               (cleanTags (orElse (tags b) [])) in
  match create (now env) (newId env) noteData s with
  | (s', inr savedNote) =>
      (s', Responded (mkResponse HTTP_STATUS.CREATED
             [("success", JBool true);
              ("message", JStr SUCCESS_MESSAGES.NOTE_CREATED);
              ("data", JObj (Note.toJSON savedNote))]))
  | (s', inl err) => (s', Next err)
  end.

(** The update object: only the provided fields. *)
Definition updateDataOf (b : Body) : UpdateData :=
  mkUpdateData (option_map JS.trim (title b)) (option_map JS.trim (content b))
               (option_map cleanTags (tags b)) (isArchived b).

Definition updateNote (env : Env) (id : string) (b : Body) (s : Store)
  : Store * Outcome :=
  match findByIdAndUpdate (now env) id (updateDataOf b) s with
  | (s', inr None) => (s', Responded notFound)
  | (s', inr (Some updatedNote)) =>
      (s', Responded (mkResponse HTTP_STATUS.OK
             [("success", JBool true);
              ("message", JStr SUCCESS_MESSAGES.NOTE_UPDATED);
              ("data", JObj (Note.toJSON updatedNote))]))
  | (s', inl err) => (s', Next err)
  end.

Definition deleteNote (id : string) (s : Store) : Store * Outcome :=
  match findByIdAndDelete id s with
  | (s', inr None) => (s', Responded notFound)
  | (s', inr (Some deletedNote)) =>
      (s', Responded (mkResponse HTTP_STATUS.OK
             [("success", JBool true);
              ("message", JStr SUCCESS_MESSAGES.NOTE_DELETED);
              ("data",
               JObj [("id", JStr (ObjectId.toString (Note._id deletedNote)));
                     ("title", JStr (Note.title deletedNote))])]))
  | (s', inl err) => (s', Next err)
  end.

Definition getNoteById (id : string) (s : Store) : Outcome :=
  match findByIdParam id s with
  | inr None => Responded notFound
  | inr (Some note) =>
      Responded (mkResponse HTTP_STATUS.OK
        [("success", JBool true); ("data", JObj (Note.lean note))])
  | inl err => Next err
  end.

Definition toggleArchiveNote (env : Env) (id : string) (s : Store)
  : Store * Outcome :=
  match findByIdParam id s with
  | inr None => (s, Responded notFound)
  | inr (Some note) =>
      (* note.isArchived = !note.isArchived *)
      let note := Note.mk (Note._id note) (Note.title note) (Note.content note)
                    (negb (Note.isArchived note)) (Note.tags note)
                    (Note.createdAt note) (Note.updatedAt note)
                    (Note.__v note) in
      match saveModified (now env) note s with
      | (s', inr updatedNote) =>
          let action :=
            if Note.isArchived updatedNote then "archived" else "unarchived" in
          (s', Responded (mkResponse HTTP_STATUS.OK
                 [("success", JBool true);
                  ("message", JStr ("Note " ++ action ++ " successfully")%string);
                  ("data", JObj (Note.toJSON updatedNote))]))
      | (s', inl err) => (s', Next err)
      end
  | inl err => (s, Next err)
  end.

(** [req.query] of GET /api/notes/search; [limit] as in [ListQuery]. *)
Record SearchQuery : Type := mkSearchQuery {
  q : option string;
  searchLimit : positive
}.

Definition searchNotes (sq : SearchQuery) (s : Store) : Outcome :=
  let query := orElse (q sq) EmptyString in
  if negb (JS.truthy query) || (JS.length (JS.trim query) =? 0)
  then Responded (mkResponse HTTP_STATUS.BAD_REQUEST
         [("success", JBool false);
          ("message", JStr "Search query is required")])
  else
    let notes :=
      map (leanScored textScore (JS.trim query))
        (Mongoose.limit (Z.pos (searchLimit sq))
           (Mongoose.searchNotes textMatch textScore (JS.trim query) s)) in
    Responded (mkResponse HTTP_STATUS.OK
      [("success", JBool true);
       ("data", JArr (map JObj notes));
       ("meta",
        JObj [("query", JStr (JS.trim query));
              ("resultsCount", JNum (Z.of_nat (List.length notes)))])]).

End Handlers.

End Controller.

(* ------------------------------------------------------------------ *)
(** ** middleware/errorHandler.js *)

Module ErrorHandler.

Definition handleValidationError (errors : list FieldError) : Response :=
  mkResponse HTTP_STATUS.BAD_REQUEST
    [("success", JBool false);
     ("message", JStr ERROR_MESSAGES.VALIDATION_ERROR);
     ("errors", JArr (map fieldErrorJson errors))].

Definition handleCastError (path : string) (value : Json.t) : Response :=
  mkResponse HTTP_STATUS.BAD_REQUEST
    [("success", JBool false);
     ("message", JStr ERROR_MESSAGES.INVALID_ID_FORMAT);
     ("field", JStr path);
     ("value", value)].

Definition handleNotFoundError : Response :=
  mkResponse HTTP_STATUS.NOT_FOUND
    [("success", JBool false);
     ("message", JStr ERROR_MESSAGES.NOTE_NOT_FOUND)].

Definition handleDatabaseConnectionError : Response :=
  mkResponse HTTP_STATUS.SERVICE_UNAVAILABLE
    [("success", JBool false);
     ("message", JStr ERROR_MESSAGES.DATABASE_NOT_AVAILABLE)].

(** field = Object.keys(err.keyValue)[0]; value = err.keyValue[field] *)
Definition handleDuplicateKeyError (keyValue : Json.obj) : Response :=
  match keyValue with
  | (field, value) :: _ =>
      mkResponse HTTP_STATUS.CONFLICT
        [("success", JBool false);
         ("message", JStr ("Duplicate value for field: " ++ field)%string);
         ("field", JStr field);
         ("value", value)]
  | [] =>
      mkResponse HTTP_STATUS.CONFLICT
        [("success", JBool false);
         ("message", JStr "Duplicate value for field: undefined")]
  end.

Definition handleJWTError : Response :=
  mkResponse HTTP_STATUS.UNAUTHORIZED
    [("success", JBool false);
     ("message", JStr "Invalid authentication token")].

Definition handleTokenExpiredError : Response :=
  mkResponse HTTP_STATUS.UNAUTHORIZED
    [("success", JBool false);
     ("message", JStr "Authentication token has expired")].

Definition isDevelopment (env : Env) : bool :=
  match NODE_ENV env with
  | Some e => String.eqb e "development"
  | None => false
  end.

Definition handleGenericError (env : Env) (message stack : string) : Response :=
  mkResponse HTTP_STATUS.INTERNAL_SERVER_ERROR
    ([("success", JBool false);
      ("message", JStr ERROR_MESSAGES.INTERNAL_SERVER_ERROR)]
     ++ (if isDevelopment env
         then [("error", JStr message); ("stack", JStr stack)]
         else [])).

Definition isDatabaseConnectionError (name message : string) (code : ErrCode)
  : bool :=
  String.eqb name "MongooseServerSelectionError"
  || String.eqb name "MongoNetworkError"
  || JS.includes "ECONNREFUSED" message
  || JS.includes "ETIMEDOUT" message
  || JS.includes "connection" message
  || match code with StrCode c => String.eqb c "ENOTFOUND" | _ => false end.

Definition errorHandler (env : Env) (err : Error) : Response :=
  match err with
  | ValidationError errors => handleValidationError errors
  | CastError path value => handleCastError path value
  | DocumentNotFoundError => handleNotFoundError
  | PlainError name message code keyValue stack =>
      if isDatabaseConnectionError name message code
      then handleDatabaseConnectionError
      else if match code with NumCode n => n =? 11000 | _ => false end
      then handleDuplicateKeyError keyValue
      else if String.eqb name "JsonWebTokenError" then handleJWTError
      else if String.eqb name "TokenExpiredError" then handleTokenExpiredError
      else handleGenericError env message stack
  end.

End ErrorHandler.

(* ------------------------------------------------------------------ *)
(** ** index.js and routes/notes.js *)

Module App.

Inductive Request : Type :=
| GetHealth                                        (* GET /health *)
| GetNotes (query : Controller.ListQuery)          (* GET /api/notes *)
| SearchNotes (query : Controller.SearchQuery)     (* GET /api/notes/search *)
| GetNoteById (id : string)                        (* GET /api/notes/:id *)
| PostNote (b : Body)                              (* POST /api/notes *)
| PutNote (id : string) (b : Body)                 (* PUT /api/notes/:id *)
| PatchArchive (id : string)                       (* PATCH /api/notes/:id/archive *)
| DeleteNote (id : string)                         (* DELETE /api/notes/:id *)
| Unrouted (method originalUrl : string).

(** [Unrouted] carries the method and the URL of a request that matches
    none of the note routes.  Some of these are still answered before the
    fallback: an OPTIONS request by the cors middleware, a GET request
    for /health by the health route, and a HEAD request like the GET
    request, without the body. *)

(** [config.nodeEnv]: process.env.NODE_ENV || "development" *)
Definition nodeEnv (env : Env) : string :=
  match NODE_ENV env with
  | Some e => if JS.truthy e then e else "development"
  | None => "development"
  end.

(** The path of a URL: what stands before the query string. *)
Fixpoint pathname (url : string) : string :=
  match url with
  | EmptyString => EmptyString
  | String c r =>
      if (nat_of_ascii c =? 63)%nat then EmptyString else String c (pathname r)
  end.

Definition lowerChar (c : ascii) : ascii :=
  let n := nat_of_ascii c in
  if ((65 <=? n) && (n <=? 90))%nat then ascii_of_nat (n + 32) else c.

Fixpoint toLowerCase (s : string) : string :=
  match s with
  | EmptyString => EmptyString
  | String c r => String (lowerChar c) (toLowerCase r)
  end.

(** app.get("/health", ...) under the router's defaults: letter case is
    ignored and one trailing slash is allowed. *)
Definition isHealthPath (originalUrl : string) : bool :=
  let p := toLowerCase (pathname originalUrl) in
  String.eqb p "/health" || String.eqb p "/health/".

(** The answer of the cors middleware to an OPTIONS request:
    res.statusCode = 204; res.end().  A response without a body has no
    fields. *)
Definition preflight : Response := mkResponse 204 [].

(** The answer to a HEAD request: that of the GET request, body left
    out. *)
Definition headOf (r : Response) : Response := mkResponse (status r) [].



Section Routes.
Variable textMatch : string -> Note.t -> bool.
Variable textScore : string -> Note.t -> Z.

Definition health (env : Env) : Response :=
  mkResponse HTTP_STATUS.OK
    [("status", JStr "healthy");
     ("timestamp", JDate (now env));
     ("environment", JStr (nodeEnv env));
     ("uptime", JNum (uptime env))].

Definition routeNotFound (method originalUrl : string) : Response :=
  mkResponse HTTP_STATUS.NOT_FOUND
    [("success", JBool false);
     ("message",
      JStr ("Route " ++ method ++ " " ++ originalUrl ++ " not found")%string)].

(** A route: the middlewares in order; the first that answers ends it. *)
Definition route (env : Env) (req : Request) (s : Mongoose.Store)
  : Mongoose.Store * Outcome :=
  match req with
  | GetHealth => (s, Responded (health env))
  | GetNotes query => (s, Controller.getNotes textMatch query s)
  | SearchNotes query => (s, Controller.searchNotes textMatch textScore query s)
  | GetNoteById id =>
      match Validation.handleValidationErrors (Validation.validateNoteId id) with
      | Some r => (s, Responded r)
      | None => (s, Controller.getNoteById id s)
      end
  | PostNote b =>
      let '(b, errors) :=
        Validation.validateCreateNote (Validation.sanitizeRequestBody b) in
      match Validation.handleValidationErrors errors with
      | Some r => (s, Responded r)
      | None => Controller.createNote env b s
      end
  | PutNote id b =>
      let '(b, errors) :=
        Validation.validateUpdateNote id (Validation.sanitizeRequestBody b) in
      match Validation.handleValidationErrors errors with
      | Some r => (s, Responded r)
      | None => Controller.updateNote env id b s
      end
  | PatchArchive id =>
      match Validation.handleValidationErrors (Validation.validateNoteId id) with
      | Some r => (s, Responded r)
      | None => Controller.toggleArchiveNote env id s
      end
  | DeleteNote id =>
      match Validation.handleValidationErrors (Validation.validateNoteId id) with
      | Some r => (s, Responded r)
      | None => Controller.deleteNote id s
      end
  | Unrouted method originalUrl =>
      if String.eqb method "OPTIONS" then (s, Responded preflight)
      else if String.eqb method "GET" && isHealthPath originalUrl
      then (s, Responded (health env))
      else if String.eqb method "HEAD"
      then (s, Responded
                 (headOf (if isHealthPath originalUrl then health env
                          else routeNotFound method originalUrl)))
      else (s, Responded (routeNotFound method originalUrl))
  end.

(** The application: a route's error goes to the global error handler. *)
Definition handle (env : Env) (req : Request) (s : Mongoose.Store)
  : Mongoose.Store * Response :=
  match route env req s with
  | (s', Responded r) => (s', r)
  | (s', Next err) => (s', ErrorHandler.errorHandler env err)
  end.

End Routes.

End App.

(* ------------------------------------------------------------------ *)
(** ** Frontend: types/index.ts and config/constants.ts *)

Module Client.

(** interface Note *)
Record Note : Type := mkNote {
  id : string;
  title : string;
  content : string;
  createdAt : string;
  updatedAt : string;
  isArchived : option bool;
  tags : option (list string)
}.

Record Pagination : Type := mkPagination {
  currentPage : Z;
  totalPages : Z;
  totalCount : Z;
  hasNextPage : bool;
  hasPrevPage : bool;
  limit : Z
}.

(** interface PaginatedResponse<T> *)
Record PaginatedResponse (T : Type) : Type := mkPaginated {
  pr_data : T;
  pr_pagination : Pagination
}.
Arguments mkPaginated {T}.
Arguments pr_data {T}.
Arguments pr_pagination {T}.

Record ErrorDetail : Type := mkErrorDetail {
  ed_field : string;
  ed_message : string
}.

(** interface ApiError (the timestamp of its creation is left out) *)
Record ApiError : Type := mkApiError {
  message : string;
  code : string;
  status : Z;
  details : list ErrorDetail
}.

Module API_CONFIG.
Definition RETRY_ATTEMPTS : nat := 3.
Definition RETRY_DELAY : Z := 1000.
End API_CONFIG.

Module ERROR_MESSAGES.
Definition NETWORK_ERROR := "Network error. Please check your connection.".
Definition SERVER_ERROR := "Server error. Please try again later.".
Definition VALIDATION_ERROR := "Please check your input and try again.".
Definition NOT_FOUND := "The requested item was not found.".
Definition UNAUTHORIZED := "You are not authorized to perform this action.".
Definition FETCH_NOTES_ERROR := "Failed to load notes. Please refresh the page.".
Definition CREATE_NOTE_ERROR := "Failed to create note. Please try again.".
Definition UPDATE_NOTE_ERROR := "Failed to update note. Please try again.".
Definition DELETE_NOTE_ERROR := "Failed to delete note. Please try again.".
End ERROR_MESSAGES.

End Client.

(* ------------------------------------------------------------------ *)
(** ** Frontend: services/api.ts *)

Module Api.

Import Client.

(** interface BackendResponse<T> *)
Record BackendResponse (T : Type) : Type := mkBackendResponse {
  br_success : bool;
  br_data : option T;
  br_message : option string;
  br_errors : option (list ErrorDetail);
  br_pagination : option Pagination
}.
Arguments mkBackendResponse {T}.
Arguments br_success {T}.
Arguments br_data {T}.
Arguments br_message {T}.
Arguments br_errors {T}.
Arguments br_pagination {T}.

(** What a rejected request carries: an AxiosError, with the server's
    response when there was one, or any other thrown value. *)
Inductive Failure : Type :=
| AxiosError (response : option (Z * BackendResponse unit))
| Thrown (msg : string).

(** How one call of the request function ends. *)
Inductive Attempt (T : Type) : Type :=
| Resolved (v : T)
| Rejected (e : Failure).
Arguments Resolved {T}.
Arguments Rejected {T}.

(** What the adapter does on the wire and on the clock. *)
Inductive Event : Type :=
| Sent (attempt : nat)      (* the request function is called *)
| Waited (ms : Z).          (* setTimeout(resolve, ms) *)

(** axios.isAxiosError(error) && error.response?.status
    && error.response.status >= 400 && error.response.status < 500 *)
Definition isClientError (e : Failure) : bool :=
  match e with
  | AxiosError (Some (st, _)) => negb (st =? 0) && (400 <=? st) && (st <? 500)
  | _ => false
  end.

Section Retry.
Context {T : Type}.
(** [requestFn i]: how the call number [i] (from 0) of the request function
    ends. *)
Variable requestFn : nat -> Attempt T.
Variable attempts : nat.

(** The loop [for (let i = 0; i < attempts; i++)], from index [i] with
    [fuel = attempts - i] rounds to go. *)
Fixpoint retryLoop (fuel i : nat) : list Event * (Failure + T) :=
  match fuel with
  | O => ([], inl (Thrown "Max retry attempts reached"))
  | S fuel' =>
      match requestFn i with
      | Resolved v => ([Sent i], inr v)
      | Rejected e =>
          if (i =? attempts - 1)%nat then ([Sent i], inl e)
          else if isClientError e then ([Sent i], inl e)
          else
            let delay := API_CONFIG.RETRY_DELAY * 2 ^ Z.of_nat i in
            let '(events, r) := retryLoop fuel' (S i) in
            (Sent i :: Waited delay :: events, r)
      end
  end.

Definition retryRequest : list Event * (Failure + T) := retryLoop attempts 0%nat.

End Retry.

Definition getErrorCode (status : Z) : string :=
  if status =? 400 then "BAD_REQUEST"
  else if status =? 401 then "UNAUTHORIZED"
  else if status =? 403 then "FORBIDDEN"
  else if status =? 404 then "NOT_FOUND"
  else if status =? 409 then "CONFLICT"
  else if status =? 422 then "VALIDATION_ERROR"
  else if status =? 500 then "SERVER_ERROR"
  else if status =? 503 then "SERVICE_UNAVAILABLE"
  else "HTTP_ERROR".

Definition getStatusMessage (status : Z) : string :=
  if status =? 400 then ERROR_MESSAGES.VALIDATION_ERROR
  else if status =? 401 then ERROR_MESSAGES.UNAUTHORIZED
  else if status =? 404 then ERROR_MESSAGES.NOT_FOUND
  else ERROR_MESSAGES.SERVER_ERROR.

(** [a || b] on optional strings: the first truthy one. *)
Definition firstTruthy (a : option string) (b : string) : string :=
  match a with
  | Some s => if JS.truthy s then s else b
  | None => b
  end.

Definition handleError (error : Failure) : ApiError :=
  match error with
  | AxiosError None =>
      mkApiError ERROR_MESSAGES.NETWORK_ERROR "NETWORK_ERROR" 0 []
  | AxiosError (Some (st, data)) =>
      let fromErrors :=
        match br_errors data with
        | Some (e :: _) => Some (ed_message e)
        | _ => None
        end in
      let message :=
        firstTruthy (br_message data)
          (firstTruthy fromErrors
             (firstTruthy (Some (getStatusMessage st)) ERROR_MESSAGES.SERVER_ERROR)) in
      mkApiError message (getErrorCode st) st
        (Mongoose.orElse (br_errors data) [])
  | Thrown msg => mkApiError msg "UNKNOWN_ERROR" 0 []
  end.

(** The calls of the adapter. *)
Inductive Operation : Type :=
| GetNotes | GetNoteById | SearchNotes
| CreateNote | UpdateNote | DeleteNote | ToggleArchiveNote.

(** The reads are the GET calls; the others change the store. *)
Definition isRead (op : Operation) : bool :=
  match op with
  | GetNotes | GetNoteById | SearchNotes => true
  | _ => false
  end.

(** The axios method each call uses. *)
Definition method (op : Operation) : string :=
  match op with
  | GetNotes | GetNoteById | SearchNotes => "get"
  | CreateNote => "post"
  | UpdateNote => "put"
  | DeleteNote => "delete"
  | ToggleArchiveNote => "patch"
  end.

(** A call that needs an entity back: the request goes through
    [retryRequest]; a response without [data] throws [missing]; whatever is
    thrown goes through [handleError]. *)
Definition entityCall {T : Type} (missing : string)
  (requestFn : nat -> Attempt (BackendResponse T))
  : list Event * (ApiError + T) :=
  match retryRequest requestFn API_CONFIG.RETRY_ATTEMPTS with
  | (events, inr response) =>
      match br_data response with
      | Some d => (events, inr d)
      | None => (events, inl (handleError (Thrown missing)))
      end
  | (events, inl error) => (events, inl (handleError error))
  end.

Definition getNotes (requestFn : nat -> Attempt (BackendResponse (list Note)))
  : list Event * (ApiError + PaginatedResponse (list Note)) :=
  match retryRequest requestFn API_CONFIG.RETRY_ATTEMPTS with
  | (events, inr response) =>
      let data := br_data response in
      (events,
       inr (mkPaginated (Mongoose.orElse data [])
              (Mongoose.orElse (br_pagination response)
                 (mkPagination 1 1
                    (match data with
                     | Some l => Z.of_nat (List.length l)
                     | None => 0
                     end)
                    false false 20))))
  | (events, inl error) => (events, inl (handleError error))
  end.

Definition getNoteById := @entityCall Note ERROR_MESSAGES.NOT_FOUND.
Definition createNote := @entityCall Note ERROR_MESSAGES.CREATE_NOTE_ERROR.
Definition updateNote := @entityCall Note ERROR_MESSAGES.UPDATE_NOTE_ERROR.
Definition toggleArchiveNote := @entityCall Note ERROR_MESSAGES.UPDATE_NOTE_ERROR.

Definition deleteNote (requestFn : nat -> Attempt (BackendResponse unit))
  : list Event * (ApiError + unit) :=
  match retryRequest requestFn API_CONFIG.RETRY_ATTEMPTS with
  | (events, inr _) => (events, inr tt)
  | (events, inl error) => (events, inl (handleError error))
  end.

Definition searchNotes (requestFn : nat -> Attempt (BackendResponse (list Note)))
  : list Event * (ApiError + list Note) :=
  match retryRequest requestFn API_CONFIG.RETRY_ATTEMPTS with
  | (events, inr response) => (events, inr (Mongoose.orElse (br_data response) []))
  | (events, inl error) => (events, inl (handleError error))
  end.

(** What the server sends back for each call, and what the call returns. *)
Definition Payload (op : Operation) : Type :=
  match op with
  | GetNotes | SearchNotes => list Note
  | DeleteNote => unit
  | GetNoteById | CreateNote | UpdateNote | ToggleArchiveNote => Note
  end.

Definition Result (op : Operation) : Type :=
  match op with
  | GetNotes => PaginatedResponse (list Note)
  | SearchNotes => list Note
  | DeleteNote => unit
  | GetNoteById | CreateNote | UpdateNote | ToggleArchiveNote => Note
  end.

(** The exported function of each call. *)
Definition call (op : Operation)
  : (nat -> Attempt (BackendResponse (Payload op)))
    -> list Event * (ApiError + Result op) :=
  match op with
  | GetNotes => getNotes
  | GetNoteById => getNoteById
  | SearchNotes => searchNotes
  | CreateNote => createNote
  | UpdateNote => updateNote
  | DeleteNote => deleteNote
  | ToggleArchiveNote => toggleArchiveNote
  end.

(** How many times the request was sent. *)
Definition sentCount (events : list Event) : nat :=
  List.length (filter (fun e => match e with Sent _ => true | _ => false end) events).

End Api.

(* ------------------------------------------------------------------ *)
(** ** Frontend: hooks/useNotes.ts *)

Module UseNotes.

Import Client.

(** The hook's state: the cached list and its pagination. *)
Record State : Type := mkState {
  notes : list Note;
  pagination : Pagination
}.

(** useState initial values *)
Definition initialState : State :=
  mkState [] (mkPagination 1 1 0 false false 20).

(** { ...prev, totalCount: n } *)
Definition withTotalCount (n : Z) (prev : Pagination) : Pagination :=
  mkPagination (currentPage prev) (totalPages prev) n
    (hasNextPage prev) (hasPrevPage prev) (limit prev).

(** throw new Error(apiError.message || fallback) *)
Definition rethrow (apiError : ApiError) (fallback : string) : string :=
  if JS.truthy (message apiError) then message apiError else fallback.

(** A callback of the hook: the new state, and the value returned or the
    message of the Error thrown to the caller. *)
Definition Step (T : Type) : Type := State * (string + T).

Definition createNote (requestFn : nat -> Api.Attempt (Api.BackendResponse Note))
  (st : State) : Step Note :=
  match snd (Api.createNote requestFn) with
  | inr newNote =>
      (mkState (newNote :: notes st) (withTotalCount (totalCount (pagination st) + 1) (pagination st)),
       inr newNote)
  | inl apiError => (st, inl (rethrow apiError ERROR_MESSAGES.CREATE_NOTE_ERROR))
  end.

(** prevNotes.map((note) => note.id === id ? updatedNote : note) *)
Definition replaceById (noteId : string) (updatedNote : Note) (prevNotes : list Note)
  : list Note :=
  map (fun note => if String.eqb (id note) noteId then updatedNote else note)
      prevNotes.

Definition updateNote (requestFn : nat -> Api.Attempt (Api.BackendResponse Note))
  (noteId : string) (st : State) : Step Note :=
  match snd (Api.updateNote requestFn) with
  | inr updatedNote =>
      (mkState (replaceById noteId updatedNote (notes st)) (pagination st),
       inr updatedNote)
  | inl apiError => (st, inl (rethrow apiError ERROR_MESSAGES.UPDATE_NOTE_ERROR))
  end.

(** prevNotes.filter((note) => note.id !== id) *)
Definition removeById (noteId : string) (prevNotes : list Note) : list Note :=
  filter (fun note => negb (String.eqb (id note) noteId)) prevNotes.

Definition deleteNote (requestFn : nat -> Api.Attempt (Api.BackendResponse unit))
  (noteId : string) (st : State) : Step unit :=
  match snd (Api.deleteNote requestFn) with
  | inr _ =>
      (mkState (removeById noteId (notes st))
         (withTotalCount (totalCount (pagination st) - 1) (pagination st)),
       inr tt)
  | inl apiError => (st, inl (rethrow apiError ERROR_MESSAGES.DELETE_NOTE_ERROR))
  end.

Definition archiveNote (requestFn : nat -> Api.Attempt (Api.BackendResponse Note))
  (noteId : string) (st : State) : Step Note :=
  match snd (Api.toggleArchiveNote requestFn) with
  | inr updatedNote =>
      (mkState (replaceById noteId updatedNote (notes st)) (pagination st),
       inr updatedNote)
  | inl apiError => (st, inl (rethrow apiError ERROR_MESSAGES.UPDATE_NOTE_ERROR))
  end.

End UseNotes.

(* ------------------------------------------------------------------ *)
(** ** Reading responses, and the predicates the properties speak of *)

Module Observe.

(** The entity under [data]. *)
Definition dataObj (r : Response) : option Json.obj :=
  match Json.get "data" (body r) with
  | Some (JObj o) => Some o
  | _ => None
  end.

(** The items under [data] of a list response. *)
Definition dataItems (r : Response) : list Json.t :=
  match Json.get "data" (body r) with
  | Some (JArr xs) => xs
  | _ => []
  end.

(** A field of the [pagination] object. *)
Definition paginationField (k : string) (r : Response) : option Json.t :=
  match Json.get "pagination" (body r) with
  | Some (JObj o) => Json.get k o
  | _ => None
  end.


(** No white space at the front, resp. at the back. *)
Definition startsClean (s : string) : bool :=
  match s with
  | EmptyString => true
  | String c _ => negb (JS.isSpace c)
  end.

Fixpoint endsClean (s : string) : bool :=
  match s with
  | EmptyString => true
  | String c EmptyString => negb (JS.isSpace c)
  | String _ r => endsClean r
  end.


(** The public field set of a note. *)
Definition publicFields : list string :=
  ["id"; "title"; "content"; "tags"; "isArchived"; "createdAt"; "updatedAt"].

(** An item exposes every public field and no store-internal one. *)
Definition isProjection (item : Json.t) : bool :=
  match item with
  | JObj o =>
      forallb (fun k => Json.has k o) publicFields
      && negb (Json.has "_id" o) && negb (Json.has "__v" o)
  | _ => false
  end.

(** What an outcome becomes once errors have gone through the error
    handler. *)
Definition settle (env : Env) (o : Outcome) : Response :=
  match o with
  | Responded r => r
  | Next err => ErrorHandler.errorHandler env err
  end.

(** A provided text field is acceptable: not empty after trimming and at
    most [hi] characters long. *)
Definition textOk (hi : Z) (v : option string) : bool :=
  match v with
  | Some t => JS.truthy (JS.trim t) && (JS.length (JS.trim t) <=? hi)
  | None => true
  end.

Definition provided {A : Type} (v : option A) : bool :=
  match v with Some _ => true | None => false end.

(** A create payload is valid: title and content are present, not empty
    and within their length bounds after trimming; at most 10 tags. *)
Definition validCreate (b : Body) : bool :=
  provided (title b) && textOk VALIDATION.TITLE_MAX_LENGTH (title b)
  && provided (content b) && textOk VALIDATION.CONTENT_MAX_LENGTH (content b)
  && (List.length (Mongoose.orElse (tags b) []) <=? 10)%nat.

(** The text fields of a body still fit the store's bounds once escaped by
    the request validators. *)
Definition escapedFits (b : Body) : bool :=
  match title b with
  | Some t => JS.length (JS.escape (JS.trim t)) <=? VALIDATION.TITLE_MAX_LENGTH
  | None => true
  end
  && match content b with
     | Some c => JS.length (JS.escape (JS.trim c)) <=? VALIDATION.CONTENT_MAX_LENGTH
     | None => true
     end.

(** A save of the document goes through: the schema validators and the
    pre-save hook accept it. *)
Definition saves (d : Note.t) : bool :=
  match Mongoose.validate d, Note.preSave d with
  | [], None => true
  | _, _ => false
  end.

(** Every document of the store can be saved again. *)
Definition storeValid (s : Mongoose.Store) : bool := forallb saves s.

(** The PUT route lets the request through to the handler. *)
Definition updatePasses (id : string) (b : Body) : bool :=
  match Validation.handleValidationErrors
          (snd (Validation.validateUpdateNote id (Validation.sanitizeRequestBody b))) with
  | None => true
  | Some _ => false
  end.

(** Number of items on page [p] of a list request. *)
Definition pageSize (textMatch : string -> Note.t -> bool)
  (q : Controller.ListQuery) (s : Mongoose.Store) (p : positive) : nat :=
  List.length
    (Controller.listPage textMatch
       (Controller.mkListQuery p (Controller.limit q) (Controller.sortBy q)
          (Controller.sortOrder q) (Controller.archived q) (Controller.search q))
       s).

(** The page numbers 1, ..., n. *)
Definition pageNumbers (n : Z) : list positive :=
  map Pos.of_nat (seq 1 (Z.to_nat n)).

End Observe.

(* ------------------------------------------------------------------ *)
(** ** Sample data used in the examples *)

Module Samples.

(** A stand-in for the engine's matcher: the query occurs in the title or
    in the content. *)
Definition textMatch (query : string) (d : Note.t) : bool :=
  JS.includes query (Note.title d) || JS.includes query (Note.content d).

(** A stand-in for the relevance score: 2 for a hit in the title, 1
    otherwise. *)
Definition textScore (query : string) (d : Note.t) : Z :=
  if JS.includes query (Note.title d) then 2 else 1.

Definition env0 : Env := mkEnv 1700000000000 4096%N (Some "production") 12.

Definition groceries : Note.t :=
  Note.mk 1%N "Groceries" "Milk, eggs" false ["home"] 1690000000000 1690000000000 0.

Definition oldList : Note.t :=
  Note.mk 2%N "Old list" "Milk and bread" true [] 1680000000000 1685000000000 0.

Definition store0 : Mongoose.Store := [groceries; oldList].

(** The route parameters of the two notes, and one that resolves to
    nothing. *)
Definition id1 : string := "000000000000000000000001".
Definition id2 : string := "000000000000000000000002".
Definition id9 : string := "507f1f77bcf86cd799439011".

(** GET /api/notes?archived=true&search=Milk *)
Definition archivedMilk : Controller.ListQuery :=
  Controller.mkListQuery 1 50 "createdAt" "desc" "true" "Milk".

(** Two notes that are not archived: the older one has the better score
    for the query Milk. *)
Definition milkTitle : Note.t :=
  Note.mk 3%N "Milk" "Buy two bottles" false [] 1600000000000 1600000000000 0.

Definition milkContent : Note.t :=
  Note.mk 4%N "Breakfast" "Milk and cereals" false [] 1650000000000 1650000000000 0.

(** GET /api/notes?search=Milk *)
Definition searchMilk : Controller.ListQuery :=
  Controller.mkListQuery 1 50 "createdAt" "desc" "false" "Milk".

(** A store of [n] notes that are not archived. *)
Definition manyNotes (n : nat) : Mongoose.Store :=
  map (fun i => Note.mk (N.of_nat i) "Note" "Text" false [] (Z.of_nat i) (Z.of_nat i) 0)
      (seq 1 n).

(** [n] copies of a character. *)
Fixpoint repeatChar (n : nat) (c : ascii) : string :=
  match n with
  | O => EmptyString
  | S k => String c (repeatChar k c)
  end.

(** A title of 200 characters, each of which the request validators
    escape to four. *)
Definition angleTitle : string := repeatChar 200 "<"%char.

Definition clientNote (i : string) : Client.Note :=
  Client.mkNote i "Title" "Content" "2024-01-01T00:00:00.000Z"
    "2024-01-01T00:00:00.000Z" (Some false) (Some []).

Definition okResponse {T : Type} (d : option T) : Api.BackendResponse T :=
  Api.mkBackendResponse true d None None None.

(** The network drops the first request and answers the second. *)
Definition flaky {T : Type} (d : option T) (i : nat) : Api.Attempt (Api.BackendResponse T) :=
  match i with
  | O => Api.Rejected (Api.AxiosError None)
  | _ => Api.Resolved (okResponse d)
  end.

(** The server answers every request with the given status. *)
Definition refuses {T : Type} (st : Z) (i : nat) : Api.Attempt (Api.BackendResponse T) :=
  Api.Rejected (Api.AxiosError (Some (st, Api.mkBackendResponse false None None None None))).

Definition confirms {T : Type} (d : option T) (i : nat) : Api.Attempt (Api.BackendResponse T) :=
  Api.Resolved (okResponse d).

End Samples.

(* ------------------------------------------------------------------ *)
(** ** models/Note.js: the statics *)

Module NoteStatics.

(** this.find({ isArchived: false }).sort({ createdAt: -1 }) *)
Definition findActive (s : Mongoose.Store) : list Note.t :=
  Mongoose.sort "createdAt" (-1)
    (Mongoose.find (fun _ _ => true) (Mongoose.mkFilter (Some false) None) s).

(** this.find({ isArchived: true }).sort({ createdAt: -1 }) *)
Definition findArchived (s : Mongoose.Store) : list Note.t :=
  Mongoose.sort "createdAt" (-1)
    (Mongoose.find (fun _ _ => true) (Mongoose.mkFilter (Some true) None) s).

End NoteStatics.

(* ------------------------------------------------------------------ *)
(** ** Frontend: hooks/useNotes.ts, the remaining state and callbacks *)

Module UseNotesView.

Import Client.

(** interface NoteFilters; [None] is an absent key. *)
Record NoteFilters : Type := mkNoteFilters {
  page : option Z;
  limit : option Z;
  search : option string;
  sortBy : option string;
  sortOrder : option string;
  archived : option bool;
  tags : option (list string)
}.

(** initialFilters = {} *)
Definition noFilters : NoteFilters :=
  mkNoteFilters None None None None None None None.

(** type LoadingState = "idle" | "loading" | "success" | "error" *)
Inductive LoadingState : Type := Idle | Loading | Success | Failed.

(** All the state of the hook: the cached list and pagination, the
    filters, the loading state, the error text and the refresh flag. *)
Record View : Type := mkView {
  data : UseNotes.State;
  filters : NoteFilters;
  loadingState : LoadingState;
  error : option string;
  isRefreshing : bool
}.

Definition initialView (initialFilters : NoteFilters) : View :=
  mkView UseNotes.initialState initialFilters Idle None false.

(** The computed values. *)
Definition isLoading (v : View) : bool :=
  match loadingState v with Loading => true | _ => false end.
Definition hasError (v : View) : bool :=
  match loadingState v with Failed => true | _ => false end.

(** apiError.message || ERROR_MESSAGES.FETCH_NOTES_ERROR *)
Definition fetchMessage (apiError : ApiError) : string :=
  UseNotes.rethrow apiError ERROR_MESSAGES.FETCH_NOTES_ERROR.

(** [fetchNotes] up to its await: loading, error cleared. *)
Definition fetchStart (v : View) : View :=
  mkView (data v) (filters v) Loading None (isRefreshing v).

(** [fetchNotes]: the state once the request has settled. *)
Definition fetchNotes (requestFn : nat -> Api.Attempt (Api.BackendResponse (list Note)))
  (v : View) : View :=
  let v := fetchStart v in
  match snd (Api.getNotes requestFn) with
  | inr response =>
      mkView (UseNotes.mkState (pr_data response) (pr_pagination response))
        (filters v) Success (error v) (isRefreshing v)
  | inl apiError =>
      mkView (data v) (filters v) Failed (Some (fetchMessage apiError))
        (isRefreshing v)
  end.

(** [refreshNotes]: the state once the request has settled; the [finally]
    block resets the flag. *)
Definition refreshNotes (requestFn : nat -> Api.Attempt (Api.BackendResponse (list Note)))
  (v : View) : View :=
  let v := mkView (data v) (filters v) (loadingState v) None true in
  match snd (Api.getNotes requestFn) with
  | inr response =>
      mkView (UseNotes.mkState (pr_data response) (pr_pagination response))
        (filters v) (loadingState v) (error v) false
  | inl apiError =>
      mkView (data v) (filters v) (loadingState v) (Some (fetchMessage apiError))
        false
  end.

Definition override {A : Type} (next prev : option A) : option A :=
  match next with Some _ => next | None => prev end.

(** setFilters((prev) => ({ ...prev, ...newFilters })) *)
Definition updateFilters (newFilters : NoteFilters) (v : View) : View :=
  let prev := filters v in
  mkView (data v)
    (mkNoteFilters (override (page newFilters) (page prev))
       (override (limit newFilters) (limit prev))
       (override (search newFilters) (search prev))
       (override (sortBy newFilters) (sortBy prev))
       (override (sortOrder newFilters) (sortOrder prev))
       (override (archived newFilters) (archived prev))
       (override (tags newFilters) (tags prev)))
    (loadingState v) (error v) (isRefreshing v).

Definition resetFilters (initialFilters : NoteFilters) (v : View) : View :=
  mkView (data v) initialFilters (loadingState v) (error v) (isRefreshing v).

(** updateFilters({ page }) *)
Definition goToPage (p : Z) (v : View) : View :=
  updateFilters (mkNoteFilters (Some p) None None None None None None) v.

Definition nextPage (v : View) : View :=
  if hasNextPage (UseNotes.pagination (data v))
  then goToPage (currentPage (UseNotes.pagination (data v)) + 1) v
  else v.

Definition previousPage (v : View) : View :=
  if hasPrevPage (UseNotes.pagination (data v))
  then goToPage (currentPage (UseNotes.pagination (data v)) - 1) v
  else v.

Definition clearError (v : View) : View :=
  mkView (data v) (filters v)
    (if hasError v then Idle else loadingState v) None (isRefreshing v).

(** The body of the first effect: if (error) setError(null). *)
Definition clearErrorEffect (v : View) : View :=
  match error v with
  | Some e =>
      if JS.truthy e
      then mkView (data v) (filters v) (loadingState v) None (isRefreshing v)
      else v
  | None => v
  end.

Definition sameText (a b : option string) : bool :=
  match a, b with
  | Some x, Some y => String.eqb x y
  | None, None => true
  | _, _ => false
  end.

(** One commit: the first effect has the dependencies [filters, error]; it
    runs after a render in which [error] differs from its value at the
    previous render, or [filters] was set anew ([filtersSet]). *)
Definition commit (filtersSet : bool) (prev next : View) : View :=
  if filtersSet || negb (sameText (error prev) (error next))
  then clearErrorEffect next
  else next.

(** The renders that follow a state change, until no effect has anything
    left to do: the effect can only clear the error, so two commits
    suffice. *)
Definition settle (filtersSet : bool) (prev next : View) : View :=
  let v1 := commit filtersSet prev next in
  commit false next v1.

End UseNotesView.

(* ------------------------------------------------------------------ *)
(** ** Frontend: App.tsx *)

Module NotesApp.

(** The form state of the component. *)
Record Form : Type := mkForm {
  title : string;
  content : string;
  editingId : option string;
  submitError : option string;
  isSubmitting : bool
}.

Definition TITLE_REQUIRED : string := "Title is required".

Definition emptyForm : Form := mkForm EmptyString EmptyString None None false.

(** What a handler leaves behind: the form, the hook's cache, and what
    went over the wire. *)
Definition Result : Type := Form * UseNotes.State * list Api.Event.

(** if (editingId): a missing or empty id is falsy. *)
Definition editingTarget (f : Form) : option string :=
  match editingId f with
  | Some i => if JS.truthy i then Some i else None
  | None => None
  end.

Definition handleSubmit
  (requestFn : nat -> Api.Attempt (Api.BackendResponse Client.Note))
  (f : Form) (st : UseNotes.State) : Result :=
  if negb (JS.truthy (JS.trim (title f))) || negb (JS.truthy (JS.trim (content f)))
  then (mkForm (title f) (content f) (editingId f) (Some TITLE_REQUIRED)
          (isSubmitting f), st, [])
  else
    let '(events, (st', outcome)) :=
      match editingTarget f with
      | Some i => (fst (Api.updateNote requestFn), UseNotes.updateNote requestFn i st)
      | None => (fst (Api.createNote requestFn), UseNotes.createNote requestFn st)
      end in
    match outcome with
    | inr _ => (mkForm EmptyString EmptyString None None false, st', events)
    | inl errorMessage =>
        (mkForm (title f) (content f) (editingId f) (Some errorMessage) false,
         st', events)
    end.

Definition handleEdit (note : Client.Note) (f : Form) : Form :=
  mkForm (Client.title note) (Client.content note) (Some (Client.id note)) None
    (isSubmitting f).

Definition handleCancel (f : Form) : Form :=
  mkForm EmptyString EmptyString None None (isSubmitting f).

(** [confirmed] is the answer of window.confirm. *)
Definition handleDelete (confirmed : bool)
  (requestFn : nat -> Api.Attempt (Api.BackendResponse unit))
  (noteId : string) (f : Form) (st : UseNotes.State) : Result :=
  if negb confirmed then (f, st, [])
  else
    match UseNotes.deleteNote requestFn noteId st with
    | (st', inr _) => (f, st', fst (Api.deleteNote requestFn))
    | (st', inl errorMessage) =>
        (mkForm (title f) (content f) (editingId f) (Some errorMessage)
           (isSubmitting f),
         st', fst (Api.deleteNote requestFn))
    end.

End NotesApp.

(* ------------------------------------------------------------------ *)
(** ** Frontend: utils/index.ts, the form validators and truncateText *)

Module Utils.

(** interface ValidationError *)
Record ValidationError : Type := mkValidationError {
  field : string;
  message : string
}.

Definition MAX_TITLE_LENGTH := 200.
Definition MAX_CONTENT_LENGTH := 10000.

Definition validateTitle (title : string) : option ValidationError :=
  let trimmedTitle := JS.trim title in
  if negb (JS.truthy trimmedTitle)
  then Some (mkValidationError "title" "Title is required")
  else if JS.length trimmedTitle <? 1
  then Some (mkValidationError "title" "Title must be at least 1 character long")
  else if MAX_TITLE_LENGTH <? JS.length trimmedTitle
  then Some (mkValidationError "title" "Title cannot exceed 200 characters")
  else None.

Definition validateContent (content : string) : option ValidationError :=
  let trimmedContent := JS.trim content in
  if negb (JS.truthy trimmedContent)
  then Some (mkValidationError "content" "Content is required")
  else if JS.length trimmedContent <? 1
  then Some (mkValidationError "content" "Content must be at least 1 character long")
  else if MAX_CONTENT_LENGTH <? JS.length trimmedContent
  then Some (mkValidationError "content" "Content cannot exceed 10000 characters")
  else None.

Definition validateNoteData (title content : string) : list ValidationError :=
  match validateTitle title with Some e => [e] | None => [] end
  ++ match validateContent content with Some e => [e] | None => [] end.

(** text.substring(0, n) for an integer n (a negative n counts as 0). *)
Definition substring0 (n : Z) (text : string) : string :=
  String.substring 0 (Z.to_nat n) text.

Definition truncateText (text : string) (maxLength : Z) : string :=
  if JS.length text <=? maxLength then text
  else (JS.trim (substring0 maxLength text) ++ "...")%string.

End Utils.

(* ------------------------------------------------------------------ *)
(** ** Predicates of the further properties *)

Module Invariant.

Definition trimmed (t : string) : bool := String.eqb (JS.trim t) t.

(** A stored note satisfies the schema: title and content not empty,
    trimmed and within their bounds; at most 10 tags. *)
Definition docValid (d : Note.t) : bool :=
  JS.truthy (Note.title d) && trimmed (Note.title d)
  && (JS.length (Note.title d) <=? VALIDATION.TITLE_MAX_LENGTH)
  && JS.truthy (Note.content d) && trimmed (Note.content d)
  && (JS.length (Note.content d) <=? VALIDATION.CONTENT_MAX_LENGTH)
  && (List.length (Note.tags d) <=? 10)%nat.

(** Every tag is trimmed and not empty. *)
Definition tagsClean (l : list string) : bool :=
  forallb (fun t => JS.truthy t && trimmed t) l.

Definition noteOk (d : Note.t) : bool := docValid d && tagsClean (Note.tags d).

Definition schemaValid (s : Mongoose.Store) : bool := forallb noteOk s.

(** The identifiers of the stored notes. *)
Definition ids (s : Mongoose.Store) : list ObjectId := map Note._id s.

(** The POST route lets the request through to the handler. *)
Definition createPasses (b : Body) : bool :=
  match Validation.handleValidationErrors
          (snd (Validation.validateCreateNote (Validation.sanitizeRequestBody b))) with
  | None => true
  | Some _ => false
  end.

(** The characters validator.js [escape] replaces. *)
Definition isSpecial (c : ascii) : bool :=
  let n := nat_of_ascii c in
  (n =? 38)%nat || (n =? 34)%nat || (n =? 39)%nat || (n =? 60)%nat
  || (n =? 62)%nat || (n =? 47)%nat || (n =? 92)%nat || (n =? 96)%nat.

Fixpoint hasSpecial (s : string) : bool :=
  match s with
  | EmptyString => false
  | String c r => isSpecial c || hasSpecial r
  end.

(** The Sent events carry the indices 0, 1, ..., and every wait between
    two of them lasts RETRY_DELAY * 2^index. *)
Fixpoint schedule (i : nat) (events : list Api.Event) : bool :=
  match events with
  | [] => true
  | [Api.Sent j] => (j =? i)%nat
  | Api.Sent j :: Api.Waited ms :: rest =>
      (j =? i)%nat
      && (ms =? Client.API_CONFIG.RETRY_DELAY * 2 ^ Z.of_nat i)
      && match rest with [] => false | _ => schedule (S i) rest end
  | _ => false
  end.

(** The statuses the server's error handler can answer with. *)
Definition errorStatuses : list Z := [400; 401; 404; 409; 500; 503].

End Invariant.

(* ------------------------------------------------------------------ *)
(** * Properties *)

(** ** The client cache (hooks/useNotes.ts) *)

Lemma removeById_In (noteId : string) (l : list Client.Note) (n : Client.Note) :
  In n (UseNotes.removeById noteId l) <-> In n l /\ Client.id n <> noteId.
Proof.
  unfold UseNotes.removeById. rewrite filter_In.
  rewrite negb_true_iff, String.eqb_neq. reflexivity.
Qed.

Lemma removeById_absent (noteId : string) (l : list Client.Note) :
  (forall n, In n l -> Client.id n <> noteId) ->
  UseNotes.removeById noteId l = l.
Proof.
  induction l as [|n l IH]; intros Habs; [reflexivity|].
  unfold UseNotes.removeById in *. cbn [filter].
  destruct (String.eqb_spec (Client.id n) noteId) as [E|_].
  - exfalso. apply (Habs n); [left; reflexivity | exact E].
  - cbn. f_equal. apply IH. intros m Hm. apply Habs. right. exact Hm.
Qed.

(** C10.  When the server confirms a delete, the hook's deleteNote keeps
    exactly the cached entries whose id differs from the given one and
    lowers pagination.totalCount by one, whatever the cache holds: if no
    entry has that id the list is unchanged and totalCount still goes
    down. *)
Theorem C10_deleteNote_confirmed
  (requestFn : nat -> Api.Attempt (Api.BackendResponse unit))
  (noteId : string) (st : UseNotes.State) :
  snd (Api.deleteNote requestFn) = inr tt ->
  let st' := fst (UseNotes.deleteNote requestFn noteId st) in
  snd (UseNotes.deleteNote requestFn noteId st) = inr tt
  /\ (forall n, In n (UseNotes.notes st')
                <-> In n (UseNotes.notes st) /\ Client.id n <> noteId)
  /\ Client.totalCount (UseNotes.pagination st')
     = Client.totalCount (UseNotes.pagination st) - 1
  /\ ((forall n, In n (UseNotes.notes st) -> Client.id n <> noteId) ->
      UseNotes.notes st' = UseNotes.notes st).
Proof.
  intros Hok. unfold UseNotes.deleteNote. rewrite Hok. cbn.
  split; [reflexivity|]. split; [|split].
  - intros n. apply removeById_In.
  - reflexivity.
  - apply removeById_absent.
Qed.

(** A cache of one note whose count is 1: a confirmed delete of another id
    leaves the note in place and the count at 0. *)
Lemma C10_deleteNote_confirmed_witness :
  let st := UseNotes.mkState [Samples.clientNote "a"]
              (Client.mkPagination 1 1 1 false false 20) in
  let st' := fst (UseNotes.deleteNote (Samples.confirms None) "zzz" st) in
  UseNotes.notes st' = [Samples.clientNote "a"]
  /\ Client.totalCount (UseNotes.pagination st') = 0.
Proof.
  intros st st'.
  pose proof (C10_deleteNote_confirmed (Samples.confirms None) "zzz" st eq_refl)
    as [_ [_ [Hcount Hsame]]].
  split.
  - apply Hsame. intros n [Hn|[]] E. subst n. discriminate E.
  - exact Hcount.
Defined.

(** ** The client adapter (services/api.ts) *)

Lemma retryLoop_sentCount {T : Type} (requestFn : nat -> Api.Attempt T)
  (attempts fuel i : nat) :
  (Api.sentCount (fst (Api.retryLoop requestFn attempts fuel i)) <= fuel)%nat.
Proof.
  revert i. induction fuel as [|fuel IH]; intros i; cbn.
  - apply Nat.le_refl.
  - destruct (requestFn i) as [v|e]; cbn; [lia|].
    destruct (i =? attempts - 1)%nat; cbn; [lia|].
    destruct (Api.isClientError e); cbn; [lia|].
    specialize (IH (S i)).
    destruct (Api.retryLoop requestFn attempts fuel (S i)) as [events r].
    cbn in *. unfold Api.sentCount in *. cbn. lia.
Qed.

(** The events of a call are those of [retryRequest] on its request. *)
Lemma call_events (op : Api.Operation)
  (requestFn : nat -> Api.Attempt (Api.BackendResponse (Api.Payload op))) :
  fst (Api.call op requestFn)
  = fst (Api.retryRequest requestFn Client.API_CONFIG.RETRY_ATTEMPTS).
Proof.
  destruct op; cbn [Api.call Api.Payload] in *;
    unfold Api.getNotes, Api.getNoteById, Api.searchNotes, Api.createNote,
      Api.updateNote, Api.deleteNote, Api.toggleArchiveNote, Api.entityCall;
    destruct (Api.retryRequest _ _) as [events [error|response]];
    try reflexivity;
    destruct (Api.br_data response); reflexivity.
Qed.

(** ** Strings: trimming and escaping *)

Lemma trimStart_clean (s : string) : Observe.startsClean (JS.trimStart s) = true.
Proof.
  induction s as [|c r IH]; cbn; [reflexivity|].
  destruct (JS.isSpace c) eqn:E; [exact IH|]. cbn. rewrite E. reflexivity.
Qed.

Lemma trimStart_id (s : string) : Observe.startsClean s = true -> JS.trimStart s = s.
Proof.
  destruct s as [|c r]; cbn; [reflexivity|].
  intros H. apply negb_true_iff in H. rewrite H. reflexivity.
Qed.

Lemma trimEnd_clean (s : string) : Observe.endsClean (JS.trimEnd s) = true.
Proof.
  induction s as [|c r IH]; cbn; [reflexivity|].
  destruct (JS.trimEnd r) as [|c' r'] eqn:E.
  - destruct (JS.isSpace c) eqn:Ec; cbn; [reflexivity|]. rewrite Ec. reflexivity.
  - cbn [Observe.endsClean] in *. exact IH.
Qed.

Lemma trimEnd_id (s : string) : Observe.endsClean s = true -> JS.trimEnd s = s.
Proof.
  induction s as [|c r IH]; cbn; [reflexivity|].
  destruct r as [|c' r'].
  - cbn. intros H. apply negb_true_iff in H. rewrite H. reflexivity.
  - intros H. rewrite (IH H). reflexivity.
Qed.

Lemma trimEnd_startsClean (s : string) :
  Observe.startsClean s = true -> Observe.startsClean (JS.trimEnd s) = true.
Proof.
  destruct s as [|c r]; cbn; [reflexivity|].
  intros H. destruct (JS.trimEnd r); [|exact H].
  apply negb_true_iff in H. rewrite H. cbn. rewrite H. reflexivity.
Qed.

Lemma trim_clean (s : string) :
  Observe.startsClean (JS.trim s) = true /\ Observe.endsClean (JS.trim s) = true.
Proof.
  unfold JS.trim. split.
  - apply trimEnd_startsClean, trimStart_clean.
  - apply trimEnd_clean.
Qed.

Lemma trim_id (s : string) :
  Observe.startsClean s = true -> Observe.endsClean s = true -> JS.trim s = s.
Proof.
  intros H1 H2. unfold JS.trim. rewrite (trimStart_id _ H1). apply trimEnd_id, H2.
Qed.

Lemma trim_idem (s : string) : JS.trim (JS.trim s) = JS.trim s.
Proof. destruct (trim_clean s) as [H1 H2]. apply trim_id; assumption. Qed.

Lemma length_append (a b : string) :
  String.length (a ++ b)%string = (String.length a + String.length b)%nat.
Proof. induction a as [|c a IH]; cbn; [reflexivity|]. rewrite IH. reflexivity. Qed.

Lemma trimStart_length (s : string) :
  (String.length (JS.trimStart s) <= String.length s)%nat.
Proof.
  induction s as [|c r IH]; cbn; [lia|].
  destruct (JS.isSpace c); cbn; lia.
Qed.

Lemma trimEnd_length (s : string) :
  (String.length (JS.trimEnd s) <= String.length s)%nat.
Proof.
  induction s as [|c r IH]; cbn; [lia|].
  destruct (JS.trimEnd r); [destruct (JS.isSpace c)|]; cbn in *; lia.
Qed.

Lemma trim_length (s : string) : JS.length (JS.trim s) <= JS.length s.
Proof.
  unfold JS.length, JS.trim.
  pose proof (trimEnd_length (JS.trimStart s)). pose proof (trimStart_length s). lia.
Qed.

Lemma truthy_length (s : string) : JS.truthy s = true <-> 1 <= JS.length s.
Proof.
  unfold JS.length. destruct s; cbn; split; intros H;
    try lia; try reflexivity; try discriminate H.
Qed.

(** The replacement of a character that is not white space neither
    starts nor ends with white space, and is never empty. *)
Lemma escapeChar_shape (c : ascii) :
  exists h t,
    JS.escapeChar c = String h t
    /\ (JS.isSpace c = false ->
        JS.isSpace h = false /\ Observe.endsClean (String h t) = true).
Proof.
  unfold JS.escapeChar.
  repeat match goal with
         | |- context [if ?b then _ else _] => destruct b eqn:?
         end;
    (eexists; eexists; split; [reflexivity|]);
    intros Hc; cbn; try (split; reflexivity);
    rewrite Hc; split; reflexivity.
Qed.

Lemma endsClean_append (a b : string) :
  Observe.endsClean (a ++ b)%string
  = match b with EmptyString => Observe.endsClean a | _ => Observe.endsClean b end.
Proof.
  induction a as [|c a IH]; cbn [append].
  - destruct b; reflexivity.
  - destruct b as [|cb b].
    + clear IH. assert (E : (a ++ EmptyString)%string = a).
      { clear. induction a as [|x a IH]; cbn; [reflexivity|]. rewrite IH. reflexivity. }
      rewrite E. reflexivity.
    + cbn [Observe.endsClean]. destruct (a ++ String cb b)%string eqn:E.
      * destruct a; discriminate E.
      * exact IH.
Qed.

Lemma escape_truthy (s : string) : JS.truthy (JS.escape s) = JS.truthy s.
Proof.
  destruct s as [|c r]; cbn; [reflexivity|].
  destruct (escapeChar_shape c) as [h [t [E _]]]. rewrite E. reflexivity.
Qed.

Lemma escape_startsClean (s : string) :
  Observe.startsClean s = true -> Observe.startsClean (JS.escape s) = true.
Proof.
  destruct s as [|c r]; cbn; [reflexivity|].
  intros H. apply negb_true_iff in H.
  destruct (escapeChar_shape c) as [h [t [E Hs]]]. rewrite E. cbn.
  destruct (Hs H) as [Hh _]. rewrite Hh. reflexivity.
Qed.

Lemma escape_endsClean (s : string) :
  Observe.endsClean s = true -> Observe.endsClean (JS.escape s) = true.
Proof.
  induction s as [|c r IH]; [reflexivity|].
  intros H. cbn [JS.escape]. rewrite endsClean_append.
  destruct r as [|c' r'].
  - cbn [JS.escape]. cbn in H. apply negb_true_iff in H.
    destruct (escapeChar_shape c) as [h [t [E Hs]]]. rewrite E.
    apply (Hs H).
  - specialize (IH H). pose proof (escape_truthy (String c' r')) as Ht.
    destruct (JS.escape (String c' r')); [discriminate Ht | exact IH].
Qed.

(** Escaping a trimmed string gives a trimmed string. *)
Lemma trim_escape_trim (s : string) :
  JS.trim (JS.escape (JS.trim s)) = JS.escape (JS.trim s).
Proof.
  destruct (trim_clean s) as [H1 H2].
  apply trim_id; [apply escape_startsClean | apply escape_endsClean]; assumption.
Qed.

(** ** Validation of update requests (middleware/validation.js) *)

Lemma handleValidationErrors_None (errors : list FieldError) :
  Validation.handleValidationErrors errors = None <-> errors = [].
Proof. destruct errors; cbn; split; intros H; try reflexivity; discriminate H. Qed.

Lemma truthy_min_length (s : string) :
  JS.truthy s = true -> (1 <=? JS.length s) = true.
Proof. intros H. apply Z.leb_le, truthy_length, H. Qed.

(** What the PUT route's validators decide, in closed form. *)
Lemma updatePasses_eq (id : string) (b : Body) :
  Observe.updatePasses id b
  = JS.isMongoId id
    && Observe.textOk VALIDATION.TITLE_MAX_LENGTH (title b)
    && Observe.textOk VALIDATION.CONTENT_MAX_LENGTH (content b)
    && (Observe.provided (title b) || Observe.provided (content b)).
Proof.
  unfold Observe.updatePasses, Validation.validateUpdateNote,
    Validation.sanitizeRequestBody, Validation.titleChain,
    Validation.contentChain, Validation.textChain, Observe.textOk,
    Observe.provided, VALIDATION.TITLE_MIN_LENGTH, VALIDATION.CONTENT_MIN_LENGTH.
  cbn [title content tags isArchived].
  destruct (JS.isMongoId id);
    destruct (title b) as [t|]; destruct (content b) as [c|];
    cbn [option_map fst snd Mongoose.orElse];
    rewrite ?trim_idem, ?escape_truthy;
    try (destruct (JS.truthy (JS.trim t)) eqn:Et;
         [rewrite (truthy_min_length _ Et)|]);
    try (destruct (JS.truthy (JS.trim c)) eqn:Ec;
         [rewrite (truthy_min_length _ Ec)|]);
    repeat match goal with
      | |- context [?x <=? ?y] => destruct (x <=? y)
      end;
    reflexivity.
Qed.

Lemma handleValidationErrors_Some (errors : list FieldError) (r : Response) :
  Validation.handleValidationErrors errors = Some r ->
  status r = HTTP_STATUS.BAD_REQUEST
  /\ Json.get "success" (body r) = Some (JBool false).
Proof.
  destruct errors; cbn; intros H; [discriminate H|].
  injection H as <-. split; reflexivity.
Qed.

(** C2, as the code has it.  An update request passes validation exactly
    when its id is well formed, every provided title or content is not
    empty and within its length bound after trimming, and a title or a
    content is provided.  A request that passes reaches the handler with
    the sanitised body; a patch without title and content (only
    isArchived, only tags) is answered 400 by the validation layer and the
    store is not touched. *)
Theorem C2_update_validation
  (textMatch : string -> Note.t -> bool) (textScore : string -> Note.t -> Z)
  (env : Env) (id : string) (b : Body) (s : Mongoose.Store) :
  (Observe.updatePasses id b = true
   <-> JS.isMongoId id = true
       /\ Observe.textOk VALIDATION.TITLE_MAX_LENGTH (title b) = true
       /\ Observe.textOk VALIDATION.CONTENT_MAX_LENGTH (content b) = true
       /\ (title b <> None \/ content b <> None))
  /\ (Observe.updatePasses id b = true ->
      App.route textMatch textScore env (App.PutNote id b) s
      = Controller.updateNote env id
          (fst (Validation.validateUpdateNote id (Validation.sanitizeRequestBody b))) s)
  /\ (title b = None -> content b = None ->
      exists r,
        App.route textMatch textScore env (App.PutNote id b) s = (s, Responded r)
        /\ status r = HTTP_STATUS.BAD_REQUEST
        /\ Json.get "success" (body r) = Some (JBool false)).
Proof.
  split; [|split].
  - rewrite updatePasses_eq, !andb_true_iff, orb_true_iff.
    unfold Observe.provided.
    destruct (title b), (content b); intuition congruence.
  - unfold Observe.updatePasses, App.route. intros H.
    destruct (Validation.validateUpdateNote id (Validation.sanitizeRequestBody b))
      as [b' errors]. cbn [fst snd] in *.
    destruct (Validation.handleValidationErrors errors); [discriminate H|reflexivity].
  - intros Ht Hc. pose proof (updatePasses_eq id b) as E. rewrite Ht, Hc in E.
    cbn in E. rewrite !andb_false_r in E.
    unfold Observe.updatePasses in E. unfold App.route.
    destruct (Validation.validateUpdateNote id (Validation.sanitizeRequestBody b))
      as [b' errors]. cbn [fst snd] in *.
    destruct (Validation.handleValidationErrors errors) as [r|] eqn:Er;
      [|discriminate E].
    exists r. split; [reflexivity|]. apply (handleValidationErrors_Some _ _ Er).
Qed.

(** A patch of the title alone reaches the handler; a patch of the archive
    flag alone is answered 400. *)
Lemma C2_update_validation_witness :
  App.route Samples.textMatch Samples.textScore Samples.env0
    (App.PutNote Samples.id1 (mkBody (Some " Shopping ") None None None))
    Samples.store0
  = Controller.updateNote Samples.env0 Samples.id1
      (mkBody (Some "Shopping") None None None) Samples.store0
  /\ exists r,
       App.route Samples.textMatch Samples.textScore Samples.env0
         (App.PutNote Samples.id1 (mkBody None None None (Some true)))
         Samples.store0
       = (Samples.store0, Responded r)
       /\ status r = HTTP_STATUS.BAD_REQUEST
       /\ Json.get "success" (body r) = Some (JBool false).
Proof.
  split.
  - apply (proj1 (proj2 (C2_update_validation Samples.textMatch Samples.textScore
                           Samples.env0 Samples.id1
                           (mkBody (Some " Shopping ") None None None)
                           Samples.store0))).
    reflexivity.
  - apply (proj2 (proj2 (C2_update_validation Samples.textMatch Samples.textScore
                           Samples.env0 Samples.id1
                           (mkBody None None None (Some true))
                           Samples.store0))); reflexivity.
Defined.

(** C2, as stated, fails: with a well-formed id, a patch that carries only
    isArchived, or only tags, does not pass validation; the answer is 400
    with the custom rule's message. *)
Lemma C2_only_isArchived_rejected :
  JS.isMongoId Samples.id1 = true
  /\ Observe.updatePasses Samples.id1 (mkBody None None None (Some true)) = false
  /\ Observe.updatePasses Samples.id1 (mkBody None None (Some ["home"]) None) = false
  /\ App.handle Samples.textMatch Samples.textScore Samples.env0
       (App.PutNote Samples.id1 (mkBody None None None (Some true)))
       Samples.store0
     = (Samples.store0,
        mkResponse 400
          [("success", JBool false);
           ("message", JStr "Validation error occurred");
           ("errors",
            JArr [JObj [("field", JStr EmptyString);
                        ("message",
                         JStr "At least one field (title or content) must be provided for update");
                        ("value", JObj [("isArchived", JBool true)])]])]).
Proof. repeat split. Qed.

(** ** The items of a list response (controllers/notesController.js) *)

(** The plain object of a document keeps the raw identifier and the version
    key and has no [id]; the transformed one is the public projection. *)
Lemma lean_fields (d : Note.t) :
  Json.has "_id" (Note.lean d) = true
  /\ Json.has "__v" (Note.lean d) = true
  /\ Json.has "id" (Note.lean d) = false
  /\ Observe.isProjection (JObj (Note.lean d)) = false.
Proof. repeat split. Qed.

Lemma toJSON_fields (d : Note.t) :
  Json.keys (Note.toJSON d)
  = ["title"; "content"; "isArchived"; "tags"; "createdAt"; "updatedAt"; "id"]
  /\ Observe.isProjection (JObj (Note.toJSON d)) = true.
Proof. split; reflexivity. Qed.

Lemma getNotes_items (textMatch : string -> Note.t -> bool)
  (q : Controller.ListQuery) (s : Mongoose.Store) :
  exists r,
    Controller.getNotes textMatch q s = Responded r
    /\ Observe.dataItems r
       = map (fun d => JObj (Note.lean d)) (Controller.listPage textMatch q s).
Proof.
  eexists. split; [reflexivity|]. unfold Observe.dataItems. cbn.
  rewrite map_map. reflexivity.
Qed.

(** Every item of every list response is the plain stored object. *)
Lemma getNotes_items_raw (textMatch : string -> Note.t -> bool)
  (textScore : string -> Note.t -> Z) (env : Env)
  (q : Controller.ListQuery) (s : Mongoose.Store) (item : Json.t) :
  In item (Observe.dataItems
             (snd (App.handle textMatch textScore env (App.GetNotes q) s))) ->
  Observe.isProjection item = false.
Proof.
  unfold App.handle, App.route.
  destruct (getNotes_items textMatch q s) as [r [E Hitems]]. rewrite E. cbn [snd].
  rewrite Hitems, in_map_iff. intros [d [<- _]]. reflexivity.
Qed.

(** C3 on a store of one note: the item returned by GET /api/notes carries
    [_id] and [__v] and has no [id], whereas the entity returned by the
    update of the same note is the public projection. *)
Theorem C3_list_item_is_raw_document :
  Observe.dataItems
    (snd (App.handle Samples.textMatch Samples.textScore Samples.env0
            (App.GetNotes Controller.defaultListQuery) [Samples.groceries]))
  = [JObj [("_id", JStr "000000000000000000000001");
           ("title", JStr "Groceries");
           ("content", JStr "Milk, eggs");
           ("isArchived", JBool false);
           ("tags", JArr [JStr "home"]);
           ("createdAt", JDate 1690000000000);
           ("updatedAt", JDate 1690000000000);
           ("__v", JNum 0)]]
  /\ forallb Observe.isProjection
       (Observe.dataItems
          (snd (App.handle Samples.textMatch Samples.textScore Samples.env0
                  (App.GetNotes Controller.defaultListQuery) [Samples.groceries])))
     = false
  /\ Observe.dataObj
       (snd (App.handle Samples.textMatch Samples.textScore Samples.env0
               (App.PutNote Samples.id1 (mkBody (Some "Groceries") None None None))
               [Samples.groceries]))
     = Some [("title", JStr "Groceries");
             ("content", JStr "Milk, eggs");
             ("isArchived", JBool false);
             ("tags", JArr [JStr "home"]);
             ("createdAt", JDate 1690000000000);
             ("updatedAt", JDate 1700000000000);
             ("id", JStr "000000000000000000000001")].
Proof. repeat split. Qed.

(** ** The response envelope (index.js, the handlers, the error handler) *)


Lemma handle_settle (textMatch : string -> Note.t -> bool)
  (textScore : string -> Note.t -> Z) (env : Env) (req : App.Request)
  (s : Mongoose.Store) :
  snd (App.handle textMatch textScore env req s)
  = Observe.settle env (snd (App.route textMatch textScore env req s)).
Proof.
  unfold App.handle. destruct (App.route textMatch textScore env req s) as [s' [r|e]];
    reflexivity.
Qed.













(** ** Sorting (the ODM's sort, as modelled) *)

Section SortFacts.
Context {A : Type} (leb : A -> A -> bool).
Hypothesis leb_total : forall a b, leb a b = true \/ leb b a = true.
Hypothesis leb_trans : forall a b c, leb a b = true -> leb b c = true -> leb a c = true.

Let R (a b : A) : Prop := leb a b = true.

Lemma insert_perm (x : A) (l : list A) :
  Permutation (Mongoose.insert leb x l) (x :: l).
Proof.
  induction l as [|y l IH]; cbn; [apply Permutation_refl|].
  destruct (leb x y); [apply Permutation_refl|].
  apply perm_trans with (y :: x :: l); [apply perm_skip, IH | apply perm_swap].
Qed.

Lemma sortWith_perm (l : list A) : Permutation (Mongoose.sortWith leb l) l.
Proof.
  induction l as [|x l IH]; cbn; [apply perm_nil|].
  apply perm_trans with (x :: Mongoose.sortWith leb l);
    [apply insert_perm | apply perm_skip, IH].
Qed.

Lemma insert_sorted (x : A) (l : list A) :
  StronglySorted R l -> StronglySorted R (Mongoose.insert leb x l).
Proof.
  induction 1 as [|y l Hs IH Hall]; cbn.
  - constructor; constructor.
  - destruct (leb x y) eqn:E.
    + constructor; [constructor; assumption|].
      constructor; [exact E|].
      eapply Forall_impl; [|exact Hall]. intros z Hz. exact (leb_trans _ _ _ E Hz).
    + constructor; [exact IH|].
      assert (Hyx : R y x) by (destruct (leb_total x y) as [H|H]; [congruence|exact H]).
      rewrite Forall_forall in *. intros z Hz.
      apply (Permutation_in _ (insert_perm x l)) in Hz.
      destruct Hz as [<-|Hz]; [exact Hyx | apply Hall, Hz].
Qed.

Lemma sortWith_sorted (l : list A) : StronglySorted R (Mongoose.sortWith leb l).
Proof.
  induction l as [|x l IH]; cbn; [constructor|]. apply insert_sorted, IH.
Qed.

End SortFacts.

Lemma In_firstn {A : Type} (n : nat) (l : list A) (x : A) :
  In x (firstn n l) -> In x l.
Proof. intros H. rewrite <- (firstn_skipn n l). apply in_or_app. left. exact H. Qed.

Lemma In_skipn {A : Type} (n : nat) (l : list A) (x : A) :
  In x (skipn n l) -> In x l.
Proof. intros H. rewrite <- (firstn_skipn n l). apply in_or_app. right. exact H. Qed.

Lemma StronglySorted_skipn {A : Type} (R : A -> A -> Prop) (n : nat) (l : list A) :
  StronglySorted R l -> StronglySorted R (skipn n l).
Proof.
  revert l. induction n as [|n IH]; intros l H; [exact H|].
  destruct l as [|x l]; [exact H|]. cbn. apply IH.
  inversion H; assumption.
Qed.

Lemma StronglySorted_firstn {A : Type} (R : A -> A -> Prop) (n : nat) (l : list A) :
  StronglySorted R l -> StronglySorted R (firstn n l).
Proof.
  revert l. induction n as [|n IH]; intros l H; [constructor|].
  destruct l as [|x l]; [constructor|]. cbn.
  inversion H as [|? ? Hs Hall]; subst. constructor; [apply IH, Hs|].
  rewrite Forall_forall in *. intros y Hy. apply Hall.
  apply (In_firstn n l y Hy).
Qed.

Lemma lexLeb_total (a b : list Z) :
  Mongoose.lexLeb a b = true \/ Mongoose.lexLeb b a = true.
Proof.
  revert b. induction a as [|x a IH]; intros [|y b]; cbn; auto.
  destruct (Z.ltb_spec x y); cbn; auto.
  destruct (Z.ltb_spec y x); cbn; auto.
  assert (x = y) by lia. subst. rewrite Z.eqb_refl. cbn. apply IH.
Qed.

Lemma lexLeb_trans (a b c : list Z) :
  Mongoose.lexLeb a b = true -> Mongoose.lexLeb b c = true ->
  Mongoose.lexLeb a c = true.
Proof.
  revert b c. induction a as [|x a IH]; intros [|y b] [|z c]; cbn; auto;
    try discriminate.
  rewrite !orb_true_iff, !andb_true_iff, !Z.ltb_lt, !Z.eqb_eq.
  intros [H1|[H1 H1']] [H2|[H2 H2']]; try (left; lia).
  right. split; [lia|]. eapply IH; eassumption.
Qed.

Lemma docLeb_total (field : string) (dir : Z) (a b : Note.t) :
  Mongoose.docLeb field dir a b = true \/ Mongoose.docLeb field dir b a = true.
Proof. unfold Mongoose.docLeb. destruct (dir <? 0); apply lexLeb_total. Qed.

Lemma docLeb_trans (field : string) (dir : Z) (a b c : Note.t) :
  Mongoose.docLeb field dir a b = true -> Mongoose.docLeb field dir b c = true ->
  Mongoose.docLeb field dir a c = true.
Proof.
  unfold Mongoose.docLeb. destruct (dir <? 0); intros H1 H2;
    eapply lexLeb_trans; eassumption.
Qed.

Lemma sort_perm (field : string) (dir : Z) (l : list Note.t) :
  Permutation (Mongoose.sort field dir l) l.
Proof. apply sortWith_perm. Qed.

Lemma sort_length (field : string) (dir : Z) (l : list Note.t) :
  List.length (Mongoose.sort field dir l) = List.length l.
Proof. apply Permutation_length, sort_perm. Qed.

Lemma sort_sorted (field : string) (dir : Z) (l : list Note.t) :
  StronglySorted (fun a b => Mongoose.docLeb field dir a b = true)
    (Mongoose.sort field dir l).
Proof.
  apply sortWith_sorted; [apply docLeb_total | apply docLeb_trans].
Qed.

(** ** Pagination (getNotes) *)

Lemma ceilQuot_spec (n l : Z) :
  0 < l ->
  (Controller.ceilQuot n l - 1) * l < n <= Controller.ceilQuot n l * l.
Proof.
  intros Hl. unfold Controller.ceilQuot.
  pose proof (Z.div_mod (- n) l ltac:(lia)) as E.
  pose proof (Z.mod_pos_bound (- n) l Hl) as B.
  nia.
Qed.

Lemma ceilQuot_nonneg (n l : Z) : 0 <= n -> 0 < l -> 0 <= Controller.ceilQuot n l.
Proof. intros Hn Hl. pose proof (ceilQuot_spec n l Hl). nia. Qed.

(** The lengths of the first [k] slices of width [l] add up to the length
    of the first [k * l] elements. *)
Lemma slices_sum {A : Type} (l : nat) (xs : list A) (k : nat) :
  list_sum (map (fun i => List.length (firstn l (skipn (i * l) xs))) (seq 0 k))
  = Nat.min (k * l) (List.length xs).
Proof.
  induction k as [|k IH]; [reflexivity|].
  rewrite seq_S, map_app, list_sum_app, IH. cbn [map Nat.add].
  rewrite length_firstn, length_skipn. cbn [Nat.mul list_sum fold_right]. lia.
Qed.

Lemma listPage_length (textMatch : string -> Note.t -> bool)
  (q : Controller.ListQuery) (s : Mongoose.Store) :
  List.length (Controller.listPage textMatch q s)
  = Nat.min (Pos.to_nat (Controller.limit q))
      (List.length (Mongoose.find textMatch (Controller.listFilter q) s)
       - (Pos.to_nat (Controller.page q) - 1) * Pos.to_nat (Controller.limit q)).
Proof.
  unfold Controller.listPage, Mongoose.limit, Mongoose.skip.
  rewrite length_firstn, length_skipn, sort_length.
  replace (Z.to_nat ((Z.pos (Controller.page q) - 1) * Z.pos (Controller.limit q)))
    with ((Pos.to_nat (Controller.page q) - 1) * Pos.to_nat (Controller.limit q))%nat
    by nia.
  replace (Z.to_nat (Z.pos (Controller.limit q)))
    with (Pos.to_nat (Controller.limit q)) by lia.
  reflexivity.
Qed.

Lemma pageSize_eq (textMatch : string -> Note.t -> bool)
  (q : Controller.ListQuery) (s : Mongoose.Store) (i : nat) :
  Observe.pageSize textMatch q s (Pos.of_nat (S i))
  = List.length
      (firstn (Pos.to_nat (Controller.limit q))
         (skipn (i * Pos.to_nat (Controller.limit q))
            (Mongoose.find textMatch (Controller.listFilter q) s))).
Proof.
  unfold Observe.pageSize. rewrite listPage_length.
  cbn [Controller.page Controller.limit Controller.listFilter Controller.archived
       Controller.search].
  rewrite length_firstn, length_skipn.
  replace (Pos.to_nat (Pos.of_nat (S i)) - 1)%nat with i by lia.
  reflexivity.
Qed.

Lemma pages_sum (textMatch : string -> Note.t -> bool)
  (q : Controller.ListQuery) (s : Mongoose.Store) (k : nat) :
  list_sum (map (Observe.pageSize textMatch q s) (map Pos.of_nat (seq 1 k)))
  = Nat.min (k * Pos.to_nat (Controller.limit q))
      (List.length (Mongoose.find textMatch (Controller.listFilter q) s)).
Proof.
  rewrite <- seq_shift, !map_map.
  rewrite <- (slices_sum (Pos.to_nat (Controller.limit q))).
  f_equal. apply map_ext. intros i. apply pageSize_eq.
Qed.

(** C6.  For every store, filter, page and positive limit, the list
    response holds the slice that starts at skip = (page-1)*limit and has at
    most limit items; totalCount counts the documents that match the filter,
    whatever page and limit are; totalPages is the ceiling of
    totalCount/limit; hasNextPage is page < totalPages and hasPrevPage is
    page > 1.  Hence the page holds min(limit, totalCount - skip) items
    (none past the last page), the sizes of the pages 1..totalPages add up
    to totalCount, and hasNextPage is false exactly from the last page
    on. *)
Theorem C6_pagination
  (textMatch : string -> Note.t -> bool) (textScore : string -> Note.t -> Z)
  (env : Env) (q : Controller.ListQuery) (s : Mongoose.Store) :
  let r := snd (App.handle textMatch textScore env (App.GetNotes q) s) in
  let page := Z.pos (Controller.page q) in
  let limit := Z.pos (Controller.limit q) in
  let matching := filter (Mongoose.matches textMatch (Controller.listFilter q)) s in
  let totalCount := Z.of_nat (List.length matching) in
  let totalPages := Controller.ceilQuot totalCount limit in
  Observe.dataItems r
  = map (fun d => JObj (Note.lean d))
      (firstn (Z.to_nat limit)
         (skipn (Z.to_nat ((page - 1) * limit))
            (Mongoose.sort (Controller.sortBy q) (Controller.sortDir q) matching)))
  /\ Observe.paginationField "currentPage" r = Some (JNum page)
  /\ Observe.paginationField "limit" r = Some (JNum limit)
  /\ Observe.paginationField "totalCount" r = Some (JNum totalCount)
  /\ Observe.paginationField "totalPages" r = Some (JNum totalPages)
  /\ Observe.paginationField "hasNextPage" r = Some (JBool (page <? totalPages))
  /\ Observe.paginationField "hasPrevPage" r = Some (JBool (1 <? page))
  /\ (totalPages - 1) * limit < totalCount <= totalPages * limit
  /\ (forall page' limit',
        Mongoose.countDocuments textMatch
          (Controller.listFilter
             (Controller.mkListQuery page' limit' (Controller.sortBy q)
                (Controller.sortOrder q) (Controller.archived q)
                (Controller.search q))) s
        = totalCount)
  /\ Z.of_nat (List.length (Observe.dataItems r))
     = Z.max 0 (Z.min limit (totalCount - (page - 1) * limit))
  /\ Z.of_nat (list_sum (map (Observe.pageSize textMatch q s)
                           (Observe.pageNumbers totalPages)))
     = totalCount
  /\ ((page <? totalPages) = false <-> totalPages <= page).
Proof.
  intros r page limit matching totalCount totalPages.
  assert (Hceil : (totalPages - 1) * limit < totalCount <= totalPages * limit)
    by (apply ceilQuot_spec; reflexivity).
  assert (Hitems : Observe.dataItems r
                   = map (fun d => JObj (Note.lean d))
                       (Controller.listPage textMatch q s)).
  { subst r. unfold App.handle, App.route.
    destruct (getNotes_items textMatch q s) as [r' [E Hr']]. rewrite E. exact Hr'. }
  split; [exact Hitems|].
  do 6 (split; [reflexivity|]).
  split; [exact Hceil|].
  split; [reflexivity|].
  split; [|split].
  - rewrite Hitems, length_map, listPage_length.
    fold matching. unfold Mongoose.find. fold matching. subst totalCount page limit. nia.
  - unfold Observe.pageNumbers. rewrite pages_sum.
    unfold Mongoose.find. fold matching.
    assert (0 <= totalPages) by (apply ceilQuot_nonneg; subst totalCount limit; lia).
    subst totalCount limit. nia.
  - rewrite Z.ltb_ge. reflexivity.
Qed.

(** 47 notes, limit 10: page 5 holds 7 items, totalPages is 5 and
    hasNextPage is false. *)
Example pagination_47_notes :
  let r := snd (App.handle Samples.textMatch Samples.textScore Samples.env0
                  (App.GetNotes
                     (Controller.mkListQuery 5 10 "createdAt" "desc" "false"
                        EmptyString))
                  (Samples.manyNotes 47)) in
  List.length (Observe.dataItems r) = 7%nat
  /\ Observe.paginationField "totalPages" r = Some (JNum 5)
  /\ Observe.paginationField "totalCount" r = Some (JNum 47)
  /\ Observe.paginationField "hasNextPage" r = Some (JBool false)
  /\ Observe.paginationField "hasPrevPage" r = Some (JBool true).
Proof. vm_compute. repeat split. Qed.

(** ** List requests with a text query (getNotes) *)

Lemma listPage_In (textMatch : string -> Note.t -> bool)
  (q : Controller.ListQuery) (s : Mongoose.Store) (d : Note.t) :
  In d (Controller.listPage textMatch q s) ->
  In d s /\ Mongoose.matches textMatch (Controller.listFilter q) d = true.
Proof.
  unfold Controller.listPage, Mongoose.limit, Mongoose.skip. intros H.
  apply In_firstn, In_skipn in H.
  apply (Permutation_in _ (sort_perm _ _ _)) in H.
  apply filter_In in H. exact H.
Qed.

Lemma listPage_sorted (textMatch : string -> Note.t -> bool)
  (q : Controller.ListQuery) (s : Mongoose.Store) :
  StronglySorted
    (fun a b => Mongoose.docLeb (Controller.sortBy q) (Controller.sortDir q) a b = true)
    (Controller.listPage textMatch q s).
Proof.
  unfold Controller.listPage, Mongoose.limit, Mongoose.skip.
  apply StronglySorted_firstn, StronglySorted_skipn, sort_sorted.
Qed.

(** C1, as the code has it.  When the search string of a list request is
    not blank, the returned items are plain objects of stored notes that
    match the text query and whose isArchived equals the requested archived
    flag (archived === "true"), in the order of the requested sort field
    and direction. *)
Theorem C1_list_with_text_query
  (textMatch : string -> Note.t -> bool) (textScore : string -> Note.t -> Z)
  (env : Env) (q : Controller.ListQuery) (s : Mongoose.Store) :
  JS.truthy (JS.trim (Controller.search q)) = true ->
  let r := snd (App.handle textMatch textScore env (App.GetNotes q) s) in
  exists docs,
    Observe.dataItems r = map (fun d => JObj (Note.lean d)) docs
    /\ Forall (fun d =>
                 In d s
                 /\ textMatch (Controller.search q) d = true
                 /\ Note.isArchived d = String.eqb (Controller.archived q) "true"
                 /\ Json.get "isArchived" (Note.lean d)
                    = Some (JBool (String.eqb (Controller.archived q) "true")))
         docs
    /\ StronglySorted
         (fun a b =>
            Mongoose.docLeb (Controller.sortBy q) (Controller.sortDir q) a b = true)
         docs.
Proof.
  intros Hq r. exists (Controller.listPage textMatch q s). split; [|split].
  - subst r. unfold App.handle, App.route.
    destruct (getNotes_items textMatch q s) as [r' [E Hr']]. rewrite E. exact Hr'.
  - apply Forall_forall. intros d Hd.
    apply listPage_In in Hd. destruct Hd as [Hin Hm].
    unfold Mongoose.matches, Controller.listFilter in Hm.
    cbn [Mongoose.f_isArchived Mongoose.f_text] in Hm. rewrite Hq in Hm.
    apply andb_true_iff in Hm. destruct Hm as [Ha Ht].
    apply Bool.eqb_prop in Ha.
    repeat split; try assumption. cbn. rewrite Ha. reflexivity.
  - apply listPage_sorted.
Qed.

(** Archived notes that mention Milk, on the sample store. *)
Lemma C1_list_with_text_query_witness :
  exists docs,
    Observe.dataItems
      (snd (App.handle Samples.textMatch Samples.textScore Samples.env0
              (App.GetNotes Samples.archivedMilk) Samples.store0))
    = map (fun d => JObj (Note.lean d)) docs
    /\ Forall (fun d => Note.isArchived d = true) docs.
Proof.
  destruct (C1_list_with_text_query Samples.textMatch Samples.textScore
              Samples.env0 Samples.archivedMilk Samples.store0 eq_refl)
    as [docs [Hitems [Hall _]]].
  exists docs. split; [exact Hitems|].
  eapply Forall_impl; [|exact Hall]. intros d [_ [_ [Ha _]]]. exact Ha.
Defined.

(** C1, as stated, fails.  With archived=true and search=Milk the list
    returns the archived note.  With the default sort and search=Milk the
    two matching notes come newest first, the one with the lower score
    ahead, whereas the search endpoint ranks them by score. *)
Lemma C1_archived_and_unranked :
  JS.truthy (JS.trim (Controller.search Samples.archivedMilk)) = true
  /\ Observe.dataItems
       (snd (App.handle Samples.textMatch Samples.textScore Samples.env0
               (App.GetNotes Samples.archivedMilk) Samples.store0))
     = [JObj (Note.lean Samples.oldList)]
  /\ Json.get "isArchived" (Note.lean Samples.oldList) = Some (JBool true)
  /\ Controller.listPage Samples.textMatch Samples.searchMilk
       [Samples.milkTitle; Samples.milkContent]
     = [Samples.milkContent; Samples.milkTitle]
  /\ map (Samples.textScore "Milk") [Samples.milkContent; Samples.milkTitle] = [1; 2]
  /\ Mongoose.searchNotes Samples.textMatch Samples.textScore "Milk"
       [Samples.milkTitle; Samples.milkContent]
     = [Samples.milkTitle; Samples.milkContent].
Proof. vm_compute. repeat split. Qed.

(** ** Creating a note (createNote) *)

Lemma textOk_spec (hi : Z) (t : string) :
  Observe.textOk hi (Some t) = true
  <-> JS.truthy (JS.trim t) = true /\ JS.length (JS.trim t) <= hi.
Proof. cbn. rewrite andb_true_iff, Z.leb_le. reflexivity. Qed.

Lemma toHexAcc_length (digits : nat) (n : N) (acc : string) :
  String.length (ObjectId.toHexAcc digits n acc)
  = (digits + String.length acc)%nat.
Proof.
  revert n acc. induction digits as [|k IH]; intros n acc; cbn; [reflexivity|].
  rewrite IH. cbn. lia.
Qed.

Lemma toString_length (o : ObjectId) : String.length (ObjectId.toString o) = 24%nat.
Proof. unfold ObjectId.toString. rewrite toHexAcc_length. reflexivity. Qed.

Lemma toString_nonempty (o : ObjectId) : ObjectId.toString o <> EmptyString.
Proof.
  intros E. pose proof (toString_length o) as L. rewrite E in L. discriminate L.
Qed.

Lemma validateTitle_ok (t : string) :
  JS.truthy t = true -> JS.length t <= VALIDATION.TITLE_MAX_LENGTH ->
  Note.validateTitle (Some t) = [].
Proof.
  intros Ht Hl. unfold Note.validateTitle. rewrite Ht. cbn [negb].
  apply truthy_length in Ht. unfold VALIDATION.TITLE_MIN_LENGTH.
  destruct (Z.ltb_spec (JS.length t) 1); [lia|].
  destruct (Z.ltb_spec VALIDATION.TITLE_MAX_LENGTH (JS.length t)); [lia|reflexivity].
Qed.

Lemma validateContent_ok (c : string) :
  JS.truthy c = true -> JS.length c <= VALIDATION.CONTENT_MAX_LENGTH ->
  Note.validateContent (Some c) = [].
Proof.
  intros Ht Hl. unfold Note.validateContent. rewrite Ht. cbn [negb].
  apply truthy_length in Ht. unfold VALIDATION.CONTENT_MIN_LENGTH.
  destruct (Z.ltb_spec (JS.length c) 1); [lia|].
  destruct (Z.ltb_spec VALIDATION.CONTENT_MAX_LENGTH (JS.length c)); [lia|reflexivity].
Qed.

Lemma validateTags_ok (l : list string) :
  (List.length l <= 10)%nat -> Note.validateTags l = [].
Proof.
  intros H. unfold Note.validateTags.
  destruct (Nat.leb_spec (List.length l) 10); [reflexivity|lia].
Qed.

Lemma cleanTags_length (l : list string) :
  (List.length (Controller.cleanTags l) <= List.length l)%nat.
Proof.
  unfold Controller.cleanTags.
  pose proof (filter_length_le JS.truthy (map JS.trim l)) as H.
  rewrite length_map in H. exact H.
Qed.

(** The pre-save hook accepts a document whose title and content are not
    blank. *)
Lemma preSave_ok (d : Note.t) :
  JS.truthy (JS.trim (Note.title d)) = true ->
  JS.truthy (JS.trim (Note.content d)) = true ->
  Note.preSave d = None.
Proof.
  intros Ht Hc. unfold Note.preSave.
  apply truthy_length in Ht. apply truthy_length in Hc.
  destruct (Z.eqb_spec (JS.length (JS.trim (Note.title d))) 0); [lia|].
  destruct (Z.eqb_spec (JS.length (JS.trim (Note.content d))) 0); [lia|].
  rewrite !andb_false_r. reflexivity.
Qed.

(** What the handler stores and answers for a valid payload. *)
Lemma createNote_valid (env : Env) (b : Body) (s : Mongoose.Store) :
  Observe.validCreate b = true ->
  exists t c,
    title b = Some t /\ content b = Some c
    /\ let d := Note.mk (newId env) (JS.trim t) (JS.trim c) false
                  (Controller.cleanTags (Mongoose.orElse (tags b) []))
                  (now env) (now env) 0 in
       Controller.createNote env b s
       = (s ++ [d],
          Responded (mkResponse HTTP_STATUS.CREATED
            [("success", JBool true);
             ("message", JStr SUCCESS_MESSAGES.NOTE_CREATED);
             ("data", JObj (Note.toJSON d))])).
Proof.
  unfold Observe.validCreate. rewrite !andb_true_iff.
  intros [[[[Hpt Ht] Hpc] Hc] Htags].
  destruct (title b) as [t|] eqn:Et; [|discriminate Hpt].
  destruct (content b) as [c|] eqn:Ec; [|discriminate Hpc].
  apply textOk_spec in Ht. apply textOk_spec in Hc.
  destruct Ht as [Ht1 Ht2]. destruct Hc as [Hc1 Hc2].
  apply Nat.leb_le in Htags.
  exists t, c. split; [reflexivity|]. split; [reflexivity|].
  unfold Controller.createNote, Mongoose.create. rewrite Et, Ec.
  cbn [option_map Mongoose.nd_title Mongoose.nd_content Mongoose.nd_tags].
  rewrite !trim_idem.
  rewrite (validateTitle_ok _ Ht1 Ht2), (validateContent_ok _ Hc1 Hc2).
  rewrite validateTags_ok
    by (pose proof (cleanTags_length (Mongoose.orElse (tags b) [])); lia).
  cbn [app].
  rewrite preSave_ok by (cbn [Note.title Note.content]; rewrite trim_idem; assumption).
  reflexivity.
Qed.

(** C7.  For every valid create payload, the handler answers 201 with an
    entity whose id is not empty, whose createdAt equals its updatedAt,
    whose isArchived is false and whose tags are the submitted tags, each
    trimmed, the empty ones dropped, in the order of submission; the note
    is appended to the store. *)
Theorem C7_create_entity (env : Env) (b : Body) (s : Mongoose.Store) :
  Observe.validCreate b = true ->
  exists d r e i,
    Controller.createNote env b s = (s ++ [d], Responded r)
    /\ status r = HTTP_STATUS.CREATED
    /\ Json.get "success" (body r) = Some (JBool true)
    /\ Observe.dataObj r = Some e
    /\ e = Note.toJSON d
    /\ Json.get "id" e = Some (JStr i) /\ i <> EmptyString
    /\ Json.get "createdAt" e = Json.get "updatedAt" e
    /\ Json.get "createdAt" e = Some (JDate (now env))
    /\ Json.get "isArchived" e = Some (JBool false)
    /\ Json.get "tags" e
       = Some (Json.strings
                 (filter JS.truthy (map JS.trim (Mongoose.orElse (tags b) [])))).
Proof.
  intros Hv. destruct (createNote_valid env b s Hv) as [t [c [_ [_ E]]]].
  cbv zeta in E. rewrite E.
  eexists. eexists. eexists. exists (ObjectId.toString (newId env)).
  split; [reflexivity|]. repeat split. apply toString_nonempty.
Qed.

(** POST {title: " Groceries ", content: "Milk, eggs", tags: [" a ", " ", "b"]}
    on the sample store. *)
Lemma C7_create_entity_witness :
  exists d r e i,
    Controller.createNote Samples.env0
      (mkBody (Some " Groceries ") (Some "Milk, eggs") (Some [" a "; " "; "b"]) None)
      Samples.store0
    = (Samples.store0 ++ [d], Responded r)
    /\ Json.get "id" e = Some (JStr i) /\ i <> EmptyString
    /\ Json.get "createdAt" e = Json.get "updatedAt" e
    /\ Json.get "isArchived" e = Some (JBool false)
    /\ Json.get "tags" e = Some (JArr [JStr "a"; JStr "b"]).
Proof.
  destruct (C7_create_entity Samples.env0
              (mkBody (Some " Groceries ") (Some "Milk, eggs")
                 (Some [" a "; " "; "b"]) None)
              Samples.store0 eq_refl)
    as [d [r [e [i [H1 [_ [_ [_ [_ [H2 [H3 [H4 [_ [H5 H6]]]]]]]]]]]]]].
  exists d, r, e, i. repeat split; assumption.
Defined.

(** The same payload through the whole POST route: the validators escape
    title and content before the handler sees them, so the store's length
    bounds apply to the escaped text. *)
Lemma postNote_route (textMatch : string -> Note.t -> bool)
  (textScore : string -> Note.t -> Z) (env : Env) (b : Body) (s : Mongoose.Store) :
  Observe.validCreate b = true ->
  Observe.escapedFits b = true ->
  exists d,
    App.handle textMatch textScore env (App.PostNote b) s
    = (s ++ [d],
       mkResponse HTTP_STATUS.CREATED
         [("success", JBool true);
          ("message", JStr SUCCESS_MESSAGES.NOTE_CREATED);
          ("data", JObj (Note.toJSON d))])
    /\ Note._id d = newId env
    /\ Note.createdAt d = Note.updatedAt d
    /\ Note.isArchived d = false
    /\ Note.tags d = Controller.cleanTags (Mongoose.orElse (tags b) []).
Proof.
  intros Hv Hf. pose proof Hv as Hv'.
  unfold Observe.validCreate in Hv. rewrite !andb_true_iff in Hv.
  destruct Hv as [[[[Hpt Ht] Hpc] Hc] Htags].
  destruct (title b) as [t|] eqn:Et; [|discriminate Hpt].
  destruct (content b) as [c|] eqn:Ec; [|discriminate Hpc].
  apply textOk_spec in Ht. apply textOk_spec in Hc.
  destruct Ht as [Ht1 Ht2]. destruct Hc as [Hc1 Hc2].
  unfold Observe.escapedFits in Hf. rewrite Et, Ec, andb_true_iff, !Z.leb_le in Hf.
  destruct Hf as [Hft Hfc].
  set (b' := mkBody (Some (JS.escape (JS.trim t))) (Some (JS.escape (JS.trim c)))
               (tags b) (isArchived b)).
  assert (Hb' : Observe.validCreate b' = true).
  { unfold Observe.validCreate, b'. cbn [title content tags Observe.provided andb].
    rewrite !andb_true_iff. repeat split.
    - apply textOk_spec. rewrite trim_escape_trim, escape_truthy. split; assumption.
    - apply textOk_spec. rewrite trim_escape_trim, escape_truthy. split; assumption.
    - exact Htags. }
  destruct (createNote_valid env b' s Hb') as [t' [c' [Et' [Ec' E]]]].
  cbv zeta in E.
  exists (Note.mk (newId env) (JS.trim t') (JS.trim c') false
            (Controller.cleanTags (Mongoose.orElse (tags b') []))
            (now env) (now env) 0).
  split; [|repeat split].
  unfold App.handle, App.route, Validation.validateCreateNote,
    Validation.sanitizeRequestBody, Validation.titleChain,
    Validation.contentChain, Validation.textChain,
    VALIDATION.TITLE_MIN_LENGTH, VALIDATION.CONTENT_MIN_LENGTH.
  rewrite Et, Ec. cbn [title content tags isArchived option_map Mongoose.orElse].
  rewrite !trim_idem, Ht1, Hc1.
  rewrite (truthy_min_length _ Ht1), (truthy_min_length _ Hc1).
  rewrite (proj2 (Z.leb_le _ _) Ht2), (proj2 (Z.leb_le _ _) Hc2).
  cbn [andb app Validation.handleValidationErrors].
  fold b'. rewrite E. reflexivity.
Qed.

(** A title of 200 characters is a valid payload, and the handler on its
    own stores it; through the route it comes back 400 from the store's
    validators, because its escaped form has 800 characters. *)
Example create_escaped_title_too_long :
  let b := mkBody (Some Samples.angleTitle) (Some "x") None None in
  Observe.validCreate b = true
  /\ Observe.escapedFits b = false
  /\ status (Observe.settle Samples.env0 (snd (Controller.createNote Samples.env0 b [])))
     = 201
  /\ App.handle Samples.textMatch Samples.textScore Samples.env0 (App.PostNote b) []
     = ([],
        mkResponse 400
          [("success", JBool false);
           ("message", JStr "Validation error occurred");
           ("errors",
            JArr [JObj [("field", JStr "title");
                        ("message", JStr "Title cannot exceed 200 characters");
                        ("value", JStr (JS.escape Samples.angleTitle))]])]).
Proof. vm_compute. repeat split. Qed.

(** ** Updating a note (updateNote) *)

Lemma findById_Some (oid : ObjectId) (s : Mongoose.Store) (d : Note.t) :
  Mongoose.findById oid s = Some d -> In d s /\ Note._id d = oid.
Proof.
  unfold Mongoose.findById. intros H. apply find_some in H.
  destruct H as [Hin Hid]. split; [exact Hin|]. apply N.eqb_eq, Hid.
Qed.

(** After a write-back, the id resolves to the written document. *)
Lemma findById_replace (oid : ObjectId) (s : Mongoose.Store) (d d' : Note.t) :
  Mongoose.findById oid s = Some d -> Note._id d' = oid ->
  Mongoose.findById oid (Mongoose.replace d' s) = Some d'.
Proof.
  intros Hf Hid. subst oid.
  unfold Mongoose.findById, Mongoose.replace, Mongoose.sameId in *.
  induction s as [|x s IH]; [discriminate Hf|].
  cbn in *.
  destruct (N.eqb (Note._id x) (Note._id d')) eqn:Ex.
  - cbn. rewrite N.eqb_refl. reflexivity.
  - cbn. rewrite Ex. apply IH, Hf.
Qed.

(** Documents with another id are left alone by a write-back. *)
Lemma findById_replace_other (oid : ObjectId) (s : Mongoose.Store) (d' : Note.t) :
  Note._id d' <> oid ->
  Mongoose.findById oid (Mongoose.replace d' s) = Mongoose.findById oid s.
Proof.
  intros Hid. unfold Mongoose.findById, Mongoose.replace, Mongoose.sameId.
  induction s as [|x s IH]; [reflexivity|]. cbn.
  destruct (N.eqb_spec (Note._id x) (Note._id d')) as [E|E].
  - destruct (N.eqb_spec (Note._id d') oid) as [E1|_]; [contradiction|].
    destruct (N.eqb_spec (Note._id x) oid) as [E2|_]; [congruence|]. exact IH.
  - destruct (N.eqb (Note._id x) oid); [reflexivity|exact IH].
Qed.

(** The PUT route's validators may rewrite a provided title or content
    (trimming and escaping) but never add or drop a field, and leave tags
    and isArchived as they are. *)
Lemma validateUpdateNote_fields (id : string) (b : Body) :
  let b' := fst (Validation.validateUpdateNote id (Validation.sanitizeRequestBody b)) in
  (title b' = None <-> title b = None)
  /\ (content b' = None <-> content b = None)
  /\ tags b' = tags b
  /\ isArchived b' = isArchived b.
Proof.
  unfold Validation.validateUpdateNote, Validation.sanitizeRequestBody,
    Validation.titleChain, Validation.contentChain, Validation.textChain.
  cbn [title content tags isArchived].
  destruct (title b), (content b); cbn; repeat split; intros H;
    try reflexivity; discriminate H.
Qed.

(** C8, as the code has it.  When the id resolves to a stored note and
    the store's validators accept the patch, the handler answers 200 with
    the post-update entity: every field among title, content, tags,
    isArchived that the patch leaves out keeps its prior value, as do id
    and createdAt, and updatedAt is the clock reading at the update.  So
    updatedAt is later than before exactly when the clock has moved past
    the note's previous updatedAt.  The entity is what the store then
    holds under that id. *)
Theorem C8_update_frame (env : Env) (id : string) (b : Body)
  (s : Mongoose.Store) (oid : ObjectId) (d : Note.t) :
  ObjectId.cast id = Some oid ->
  Mongoose.findById oid s = Some d ->
  Mongoose.updateValidators (Controller.updateDataOf b) = [] ->
  exists d' r e,
    Controller.updateNote env id b s = (Mongoose.replace d' s, Responded r)
    /\ status r = HTTP_STATUS.OK
    /\ Observe.dataObj r = Some e
    /\ e = Note.toJSON d'
    /\ Mongoose.findById oid (Mongoose.replace d' s) = Some d'
    /\ (title b = None -> Json.get "title" e = Some (JStr (Note.title d)))
    /\ (content b = None -> Json.get "content" e = Some (JStr (Note.content d)))
    /\ (tags b = None -> Json.get "tags" e = Some (Json.strings (Note.tags d)))
    /\ (isArchived b = None ->
        Json.get "isArchived" e = Some (JBool (Note.isArchived d)))
    /\ Json.get "id" e = Some (JStr (ObjectId.toString (Note._id d)))
    /\ Json.get "createdAt" e = Some (JDate (Note.createdAt d))
    /\ Json.get "updatedAt" e = Some (JDate (now env))
    /\ Note.updatedAt d' = now env
    /\ (Note.updatedAt d < Note.updatedAt d' <-> Note.updatedAt d < now env).
Proof.
  intros Hcast Hfind Hvalid.
  exists (Mongoose.applyUpdate (now env) (Controller.updateDataOf b) d).
  eexists. eexists.
  split.
  { unfold Controller.updateNote, Mongoose.findByIdAndUpdate.
    rewrite Hcast, Hvalid, Hfind. reflexivity. }
  split; [reflexivity|]. split; [reflexivity|]. split; [reflexivity|].
  split.
  { apply (findById_replace oid s d); [exact Hfind|].
    cbn. apply (findById_Some _ _ _ Hfind). }
  split; [intros H; cbn; rewrite H; reflexivity|].
  split; [intros H; cbn; rewrite H; reflexivity|].
  split; [intros H; cbn; rewrite H; reflexivity|].
  split; [intros H; cbn; rewrite H; reflexivity|].
  split; [reflexivity|]. split; [reflexivity|]. split; [reflexivity|].
  split; [reflexivity|]. cbn [Mongoose.applyUpdate Note.updatedAt]. reflexivity.
Qed.

(** A patch of the title alone on the first sample note. *)
Lemma C8_update_frame_witness :
  exists d' r e,
    Controller.updateNote Samples.env0 Samples.id1
      (mkBody (Some "Shopping") None None None) Samples.store0
    = (Mongoose.replace d' Samples.store0, Responded r)
    /\ Observe.dataObj r = Some e
    /\ Json.get "content" e = Some (JStr "Milk, eggs")
    /\ Json.get "tags" e = Some (JArr [JStr "home"])
    /\ Json.get "isArchived" e = Some (JBool false)
    /\ Json.get "updatedAt" e = Some (JDate 1700000000000).
Proof.
  destruct (C8_update_frame Samples.env0 Samples.id1
              (mkBody (Some "Shopping") None None None) Samples.store0
              1%N Samples.groceries eq_refl eq_refl eq_refl)
    as [d' [r [e [H1 [_ [H2 [_ [_ [_ [H3 [H4 [H5 [_ [_ [H6 _]]]]]]]]]]]]]]].
  exists d', r, e.
  split; [exact H1|]. split; [exact H2|].
  split; [apply H3; reflexivity|]. split; [apply H4; reflexivity|].
  split; [apply H5; reflexivity | exact H6].
Defined.

(** C8, as stated, fails: a note is created and, at the same clock
    reading, updated; the update answers 200 and the returned updatedAt is
    the note's previous updatedAt, not a later one. *)
Lemma C8_same_instant_not_increased :
  let s1 := fst (Controller.createNote Samples.env0
                   (mkBody (Some "Draft") (Some "text") None None) []) in
  exists d r e u,
    Mongoose.findById 4096%N s1 = Some d
    /\ snd (Controller.updateNote Samples.env0 (ObjectId.toString 4096%N)
              (mkBody (Some "Final") None None None) s1)
       = Responded r
    /\ status r = 200
    /\ Observe.dataObj r = Some e
    /\ Json.get "title" e = Some (JStr "Final")
    /\ Json.get "updatedAt" e = Some (JDate u)
    /\ u = Note.updatedAt d
    /\ ~ (Note.updatedAt d < u).
Proof.
  cbv zeta. eexists. eexists. eexists. eexists.
  split; [vm_compute; reflexivity|].
  split; [vm_compute; reflexivity|].
  split; [reflexivity|]. split; [reflexivity|]. split; [reflexivity|].
  split; [reflexivity|]. split; [reflexivity|]. cbn. lia.
Qed.

(** ** The archive toggle (toggleArchiveNote) and the store invariant *)

(** The validators and the pre-save hook look at title, content and tags
    only. *)
Lemma preSave_ext (d d' : Note.t) :
  Note.title d' = Note.title d -> Note.content d' = Note.content d ->
  Note.preSave d' = Note.preSave d.
Proof. intros Ht Hc. unfold Note.preSave. rewrite Ht, Hc. reflexivity. Qed.

Lemma validate_ext (d d' : Note.t) :
  Note.title d' = Note.title d -> Note.content d' = Note.content d ->
  Note.tags d' = Note.tags d ->
  Mongoose.validate d' = Mongoose.validate d.
Proof. intros Ht Hc Hg. unfold Mongoose.validate. rewrite Ht, Hc, Hg. reflexivity. Qed.

Lemma saves_iff (d : Note.t) :
  Observe.saves d = true <-> Mongoose.validate d = [] /\ Note.preSave d = None.
Proof.
  unfold Observe.saves.
  destruct (Mongoose.validate d); destruct (Note.preSave d); split;
    try (intros H; discriminate H); try (intros [H1 H2]; discriminate);
    intros _; try split; reflexivity.
Qed.

Lemma saves_ext (d d' : Note.t) :
  Note.title d' = Note.title d -> Note.content d' = Note.content d ->
  Note.tags d' = Note.tags d ->
  Observe.saves d' = Observe.saves d.
Proof.
  intros Ht Hc Hg. unfold Observe.saves.
  rewrite (validate_ext d d' Ht Hc Hg), (preSave_ext d d' Ht Hc). reflexivity.
Qed.

Lemma storeValid_In (s : Mongoose.Store) (d : Note.t) :
  Observe.storeValid s = true -> In d s -> Observe.saves d = true.
Proof.
  unfold Observe.storeValid. rewrite forallb_forall. intros H Hin. apply H, Hin.
Qed.

Lemma replace_storeValid (s : Mongoose.Store) (d' : Note.t) :
  Observe.storeValid s = true -> Observe.saves d' = true ->
  Observe.storeValid (Mongoose.replace d' s) = true.
Proof.
  unfold Observe.storeValid, Mongoose.replace. rewrite !forallb_forall.
  intros Hs Hd x Hx. apply in_map_iff in Hx. destruct Hx as [y [<- Hy]].
  destruct (Mongoose.sameId (Note._id d') y); [exact Hd|].
  apply Hs, Hy.
Qed.

(** A toggle of a note that can be saved. *)
Lemma toggle_once (env : Env) (id : string) (s : Mongoose.Store)
  (oid : ObjectId) (d : Note.t) :
  ObjectId.cast id = Some oid ->
  Mongoose.findById oid s = Some d ->
  Observe.saves d = true ->
  let d' := Note.mk (Note._id d) (Note.title d) (Note.content d)
              (negb (Note.isArchived d)) (Note.tags d) (Note.createdAt d)
              (now env) (Note.__v d) in
  Controller.toggleArchiveNote env id s
  = (Mongoose.replace d' s,
     Responded (mkResponse HTTP_STATUS.OK
       [("success", JBool true);
        ("message",
         JStr ("Note " ++ (if negb (Note.isArchived d) then "archived" else "unarchived")
               ++ " successfully")%string);
        ("data", JObj (Note.toJSON d'))]))
  /\ Mongoose.findById oid (Mongoose.replace d' s) = Some d'
  /\ Observe.saves d' = true.
Proof.
  intros Hcast Hfind Hsaves d'. split; [|split].
  - apply saves_iff in Hsaves. destruct Hsaves as [Hv Hpre].
    unfold Controller.toggleArchiveNote, Mongoose.findByIdParam, Mongoose.saveModified.
    rewrite Hcast, Hfind.
    rewrite (validate_ext d) by reflexivity. rewrite Hv.
    rewrite (preSave_ext d) by reflexivity. rewrite Hpre. reflexivity.
  - apply (findById_replace oid s d); [exact Hfind|].
    apply (findById_Some _ _ _ Hfind).
  - rewrite <- Hsaves. apply saves_ext; reflexivity.
Qed.

(** A toggle of a note that the validators or the pre-save hook refuse:
    the error goes to the error handler and the store is left alone.  The
    error does not depend on the clock. *)
Lemma toggle_refused (id : string) (s : Mongoose.Store)
  (oid : ObjectId) (d : Note.t) :
  ObjectId.cast id = Some oid ->
  Mongoose.findById oid s = Some d ->
  Observe.saves d = false ->
  exists err, forall env, Controller.toggleArchiveNote env id s = (s, Next err).
Proof.
  intros Hcast Hfind Hsaves.
  unfold Controller.toggleArchiveNote, Mongoose.findByIdParam, Mongoose.saveModified.
  rewrite Hcast, Hfind.
  rewrite (validate_ext d) by reflexivity.
  rewrite (preSave_ext d) by reflexivity.
  unfold Observe.saves in Hsaves.
  destruct (Mongoose.validate d) as [|fe errs].
  - destruct (Note.preSave d) as [e|]; [|discriminate Hsaves].
    exists e. reflexivity.
  - exists (ValidationError (fe :: errs)). reflexivity.
Qed.

(** C9.  For every id that resolves to a stored note, after two toggles in
    succession the store holds the note under that id with its original
    isArchived value, title, content, tags and createdAt.  When the note
    passes the schema validators and the pre-save hook, which save() runs
    again on the loaded document, both toggles answer 200, the first with
    the flipped flag and the second with the original one; otherwise both
    are refused with the same error and the store is not touched. *)
Theorem C9_toggle_twice (env1 env2 : Env) (id : string) (s : Mongoose.Store)
  (oid : ObjectId) (d : Note.t) :
  ObjectId.cast id = Some oid ->
  Mongoose.findById oid s = Some d ->
  exists s1 s2 o1 o2 d2,
    Controller.toggleArchiveNote env1 id s = (s1, o1)
    /\ Controller.toggleArchiveNote env2 id s1 = (s2, o2)
    /\ Mongoose.findById oid s2 = Some d2
    /\ Note.isArchived d2 = Note.isArchived d
    /\ Note.title d2 = Note.title d /\ Note.content d2 = Note.content d
    /\ Note.tags d2 = Note.tags d /\ Note.createdAt d2 = Note.createdAt d
    /\ (Observe.saves d = true ->
        exists r1 r2 e1 e2,
          o1 = Responded r1 /\ o2 = Responded r2
          /\ status r1 = HTTP_STATUS.OK /\ status r2 = HTTP_STATUS.OK
          /\ Observe.dataObj r1 = Some e1 /\ Observe.dataObj r2 = Some e2
          /\ Json.get "isArchived" e1 = Some (JBool (negb (Note.isArchived d)))
          /\ Json.get "isArchived" e2 = Some (JBool (Note.isArchived d)))
    /\ (Observe.saves d = false ->
        s1 = s /\ s2 = s /\ exists err, o1 = Next err /\ o2 = Next err)
    /\ (Observe.storeValid s = true -> Observe.storeValid s2 = true).
Proof.
  intros Hcast Hfind.
  destruct (Observe.saves d) eqn:Hsaves.
  - destruct (toggle_once env1 id s oid d Hcast Hfind Hsaves) as [E1 [F1 P1]].
    cbv zeta in E1, F1, P1.
    destruct (toggle_once env2 id _ oid _ Hcast F1 P1) as [E2 [F2 P2]].
    cbv zeta in E2, F2, P2. cbn [Note._id Note.title Note.content Note.isArchived
      Note.tags Note.createdAt Note.__v] in E2, F2, P2.
    rewrite negb_involutive in E2, F2, P2.
    eexists. eexists. eexists. eexists. eexists.
    split; [exact E1|]. split; [exact E2|]. split; [exact F2|].
    do 5 (split; [reflexivity|]).
    split; [|split].
    + intros _. eexists. eexists. eexists. eexists.
      do 7 (split; [reflexivity|]). reflexivity.
    + intros H; discriminate H.
    + intros Hvalid.
      apply replace_storeValid; [apply replace_storeValid; assumption | exact P2].
  - destruct (toggle_refused id s oid d Hcast Hfind Hsaves) as [err Herr].
    exists s, s, (Next err), (Next err), d.
    split; [apply Herr|]. split; [apply Herr|]. split; [exact Hfind|].
    do 5 (split; [reflexivity|]).
    split; [intros H; discriminate H|].
    split; [|intros H; exact H].
    intros _. split; [reflexivity|]. split; [reflexivity|].
    exists err. split; reflexivity.
Qed.

(** Two toggles of the first sample note. *)
Lemma C9_toggle_twice_witness :
  exists s1 s2 r1 r2 e1 e2,
    Controller.toggleArchiveNote Samples.env0 Samples.id1 Samples.store0
    = (s1, Responded r1)
    /\ Controller.toggleArchiveNote Samples.env0 Samples.id1 s1 = (s2, Responded r2)
    /\ Observe.dataObj r1 = Some e1 /\ Observe.dataObj r2 = Some e2
    /\ Json.get "isArchived" e1 = Some (JBool true)
    /\ Json.get "isArchived" e2 = Some (JBool false).
Proof.
  destruct (C9_toggle_twice Samples.env0 Samples.env0 Samples.id1 Samples.store0
              1%N Samples.groceries eq_refl eq_refl)
    as [s1 [s2 [o1 [o2 [d2 [H1 [H2 [_ [_ [_ [_ [_ [_ [Hok _]]]]]]]]]]]]]].
  destruct (Hok eq_refl) as [r1 [r2 [e1 [e2 [-> [-> [_ [_ [H3 [H4 [H5 H6]]]]]]]]]]].
  exists s1, s2, r1, r2, e1, e2. repeat split; assumption.
Defined.

(** A route parameter that the ODM can cast passes the id validator, so
    the id-only routes hand it to their handler. *)
Lemma hexVal_isHexDigit (c : ascii) (v : N) :
  ObjectId.hexVal c = Some v -> JS.isHexDigit c = true.
Proof.
  destruct c as [[] [] [] [] [] [] [] []]; vm_compute; intros H;
    try reflexivity; discriminate H.
Qed.

Lemma hexDigit_not_prefix (p : ascii) :
  JS.isHexDigit p = true ->
  let k := nat_of_ascii p in
  ((k =? 120)%nat || (k =? 88)%nat || (k =? 104)%nat || (k =? 72)%nat) = false.
Proof.
  destruct p as [[] [] [] [] [] [] [] []]; vm_compute; intros H;
    try reflexivity; discriminate H.
Qed.

Lemma fromHexAcc_allHex (s : string) (acc v : N) :
  ObjectId.fromHexAcc s acc = Some v -> JS.allHex s = true.
Proof.
  revert acc. induction s as [|c r IH]; intros acc H; [reflexivity|].
  cbn in *. destruct (ObjectId.hexVal c) as [w|] eqn:E; [|discriminate H].
  rewrite (hexVal_isHexDigit _ _ E). cbn. apply (IH _ H).
Qed.

Lemma cast_isMongoId (id : string) (oid : ObjectId) :
  ObjectId.cast id = Some oid -> JS.isMongoId id = true.
Proof.
  unfold ObjectId.cast, JS.isMongoId. intros H.
  destruct (String.length id =? 24)%nat eqn:L; [|discriminate H].
  rewrite andb_true_r. apply fromHexAcc_allHex in H.
  unfold JS.isHexadecimal.
  destruct id as [|z [|p r]]; [discriminate L| |].
  - exact H.
  - pose proof H as H'. cbn [JS.allHex] in H'.
    apply andb_true_iff in H'. destruct H' as [_ H'].
    apply andb_true_iff in H'. destruct H' as [Hp _].
    apply hexDigit_not_prefix in Hp. cbv zeta in Hp. rewrite Hp, andb_false_r.
    rewrite H. reflexivity.
Qed.

Lemma idRoutes_reach_handler (textMatch : string -> Note.t -> bool)
  (textScore : string -> Note.t -> Z) (env : Env) (id : string) (oid : ObjectId)
  (s : Mongoose.Store) :
  ObjectId.cast id = Some oid ->
  App.route textMatch textScore env (App.PatchArchive id) s
  = Controller.toggleArchiveNote env id s
  /\ App.route textMatch textScore env (App.DeleteNote id) s
     = Controller.deleteNote id s
  /\ App.route textMatch textScore env (App.GetNoteById id) s
     = (s, Controller.getNoteById id s).
Proof.
  intros H. apply cast_isMongoId in H. unfold App.route, Validation.validateNoteId.
  rewrite H. repeat split.
Qed.

(** The store invariant: no request makes the store hold a document that
    the schema validators or the pre-save hook would refuse. *)
Lemma preSave_None_iff (d : Note.t) :
  Note.preSave d = None
  <-> JS.truthy (Note.title d) && (JS.length (JS.trim (Note.title d)) =? 0) = false
      /\ JS.truthy (Note.content d) && (JS.length (JS.trim (Note.content d)) =? 0)
         = false.
Proof.
  unfold Note.preSave.
  destruct (JS.truthy (Note.title d) && _);
    destruct (JS.truthy (Note.content d) && _); cbn; split;
    try (intros H; discriminate H); try (intros [H1 H2]; discriminate);
    try reflexivity; intros _; split; reflexivity.
Qed.

Lemma validateTitle_nil (t : string) :
  Note.validateTitle (Some t) = [] -> JS.truthy t = true.
Proof.
  unfold Note.validateTitle. destruct (JS.truthy t); [reflexivity|].
  cbn. intros H. discriminate H.
Qed.

Lemma validateContent_nil (c : string) :
  Note.validateContent (Some c) = [] -> JS.truthy c = true.
Proof.
  unfold Note.validateContent. destruct (JS.truthy c); [reflexivity|].
  cbn. intros H. discriminate H.
Qed.

Lemma blank_trimmed (t : string) :
  JS.truthy (JS.trim t) = true ->
  JS.truthy (JS.trim t) && (JS.length (JS.trim (JS.trim t)) =? 0) = false.
Proof.
  intros H. rewrite trim_idem, H. apply truthy_length in H.
  cbn. apply Z.eqb_neq. lia.
Qed.

Lemma applyUpdate_preSave (now : Z) (u : Mongoose.UpdateData) (d : Note.t) :
  Mongoose.updateValidators u = [] -> Note.preSave d = None ->
  Note.preSave (Mongoose.applyUpdate now u d) = None.
Proof.
  unfold Mongoose.updateValidators. intros Hv Hd.
  apply app_eq_nil in Hv. destruct Hv as [Ht Hv].
  apply app_eq_nil in Hv. destruct Hv as [Hc _].
  apply preSave_None_iff in Hd. destruct Hd as [Hdt Hdc].
  apply preSave_None_iff. unfold Mongoose.applyUpdate.
  cbn [Note.title Note.content]. split.
  - destruct (Mongoose.u_title u) as [t|]; cbn [option_map Mongoose.orElse];
      [apply blank_trimmed, validateTitle_nil, Ht | exact Hdt].
  - destruct (Mongoose.u_content u) as [c|]; cbn [option_map Mongoose.orElse];
      [apply blank_trimmed, validateContent_nil, Hc | exact Hdc].
Qed.

Lemma applyUpdate_validate (now : Z) (u : Mongoose.UpdateData) (d : Note.t) :
  Mongoose.updateValidators u = [] -> Mongoose.validate d = [] ->
  Mongoose.validate (Mongoose.applyUpdate now u d) = [].
Proof.
  unfold Mongoose.updateValidators, Mongoose.validate. intros Hv Hd.
  apply app_eq_nil in Hv. destruct Hv as [Ht Hv].
  apply app_eq_nil in Hv. destruct Hv as [Hc Hg].
  apply app_eq_nil in Hd. destruct Hd as [Hdt Hd].
  apply app_eq_nil in Hd. destruct Hd as [Hdc Hdg].
  unfold Mongoose.applyUpdate. cbn [Note.title Note.content Note.tags].
  destruct (Mongoose.u_title u) as [t|]; cbn [option_map Mongoose.orElse];
    rewrite ?Ht, ?Hdt;
    destruct (Mongoose.u_content u) as [c|]; cbn [option_map Mongoose.orElse];
    rewrite ?Hc, ?Hdc;
    destruct (Mongoose.u_tags u) as [g|]; cbn [option_map Mongoose.orElse];
    rewrite ?Hg, ?Hdg; reflexivity.
Qed.

Lemma applyUpdate_saves (now : Z) (u : Mongoose.UpdateData) (d : Note.t) :
  Mongoose.updateValidators u = [] -> Observe.saves d = true ->
  Observe.saves (Mongoose.applyUpdate now u d) = true.
Proof.
  intros Hv Hd. apply saves_iff in Hd. destruct Hd as [Hd1 Hd2].
  apply saves_iff. split.
  - apply applyUpdate_validate; assumption.
  - apply applyUpdate_preSave; assumption.
Qed.

Lemma storeValid_app (s : Mongoose.Store) (d : Note.t) :
  Observe.storeValid s = true -> Observe.saves d = true ->
  Observe.storeValid (s ++ [d]) = true.
Proof.
  unfold Observe.storeValid. intros Hs Hd. rewrite forallb_app, Hs. cbn.
  rewrite Hd. reflexivity.
Qed.

Lemma remove_storeValid (oid : ObjectId) (s : Mongoose.Store) :
  Observe.storeValid s = true -> Observe.storeValid (Mongoose.remove oid s) = true.
Proof.
  unfold Observe.storeValid, Mongoose.remove. rewrite !forallb_forall.
  intros Hs x Hx. apply filter_In in Hx. apply Hs, Hx.
Qed.

Lemma createNote_storeValid (env : Env) (b : Body) (s : Mongoose.Store) :
  Observe.storeValid s = true ->
  Observe.storeValid (fst (Controller.createNote env b s)) = true.
Proof.
  intros Hs. unfold Controller.createNote, Mongoose.create.
  cbn [Mongoose.nd_title Mongoose.nd_content Mongoose.nd_tags].
  destruct (_ ++ _ ++ _)%list eqn:Ev; [|exact Hs].
  destruct (Note.preSave _) eqn:E; [exact Hs|].
  cbn [fst]. apply storeValid_app; [exact Hs|].
  apply saves_iff. split; [|exact E].
  unfold Mongoose.validate. cbn [Note.title Note.content Note.tags].
  destruct (title b) as [t|]; [|discriminate Ev].
  destruct (content b) as [c|].
  - exact Ev.
  - cbn [option_map] in Ev. apply app_eq_nil in Ev. destruct Ev as [_ Ev].
    discriminate Ev.
Qed.

Lemma updateNote_storeValid (env : Env) (id : string) (b : Body) (s : Mongoose.Store) :
  Observe.storeValid s = true ->
  Observe.storeValid (fst (Controller.updateNote env id b s)) = true.
Proof.
  intros Hs. unfold Controller.updateNote, Mongoose.findByIdAndUpdate.
  destruct (ObjectId.cast id) as [oid|]; [|exact Hs].
  destruct (Mongoose.updateValidators _) eqn:Ev; [|exact Hs].
  destruct (Mongoose.findById oid s) as [d|] eqn:Ef; [|exact Hs].
  cbn [fst]. apply replace_storeValid; [exact Hs|].
  apply applyUpdate_saves; [exact Ev|].
  apply (storeValid_In s d Hs), (findById_Some _ _ _ Ef).
Qed.

Lemma toggleArchiveNote_storeValid (env : Env) (id : string) (s : Mongoose.Store) :
  Observe.storeValid s = true ->
  Observe.storeValid (fst (Controller.toggleArchiveNote env id s)) = true.
Proof.
  intros Hs. unfold Controller.toggleArchiveNote, Mongoose.findByIdParam,
    Mongoose.saveModified.
  destruct (ObjectId.cast id) as [oid|]; [|exact Hs].
  destruct (Mongoose.findById oid s) as [d|]; [|exact Hs].
  destruct (Mongoose.validate _) eqn:Ev; [|exact Hs].
  destruct (Note.preSave _) eqn:E; [exact Hs|].
  cbn [fst]. apply replace_storeValid; [exact Hs|].
  apply saves_iff. split; [rewrite <- Ev | rewrite <- E].
  - apply validate_ext; reflexivity.
  - apply preSave_ext; reflexivity.
Qed.

Lemma deleteNote_storeValid (id : string) (s : Mongoose.Store) :
  Observe.storeValid s = true ->
  Observe.storeValid (fst (Controller.deleteNote id s)) = true.
Proof.
  intros Hs. unfold Controller.deleteNote, Mongoose.findByIdAndDelete.
  destruct (ObjectId.cast id) as [oid|]; [|exact Hs].
  destruct (Mongoose.findById oid s) as [d|]; [|exact Hs].
  cbn [fst]. apply remove_storeValid, Hs.
Qed.

(** A request that matches none of the note routes leaves the store
    alone. *)
Lemma unrouted_store (textMatch : string -> Note.t -> bool)
  (textScore : string -> Note.t -> Z) (env : Env) (method url : string)
  (s : Mongoose.Store) :
  fst (App.route textMatch textScore env (App.Unrouted method url) s) = s.
Proof.
  cbn [App.route].
  destruct (String.eqb method "OPTIONS"); [reflexivity|].
  destruct (String.eqb method "GET" && App.isHealthPath url); [reflexivity|].
  destruct (String.eqb method "HEAD"); reflexivity.
Qed.

Lemma handle_storeValid (textMatch : string -> Note.t -> bool)
  (textScore : string -> Note.t -> Z) (env : Env) (req : App.Request)
  (s : Mongoose.Store) :
  Observe.storeValid s = true ->
  Observe.storeValid (fst (App.handle textMatch textScore env req s)) = true.
Proof.
  intros Hs.
  assert (E : fst (App.handle textMatch textScore env req s)
              = fst (App.route textMatch textScore env req s)).
  { unfold App.handle. destruct (App.route _ _ _ _ _) as [s' [r|e]]; reflexivity. }
  rewrite E. clear E.
  destruct req as [|query|query|id|b|id b|id|id|method url];
    try (rewrite unrouted_store; exact Hs); cbn [App.route fst];
    try exact Hs.
  - destruct (Validation.handleValidationErrors _); exact Hs.
  - destruct (Validation.validateCreateNote _) as [b' errors].
    destruct (Validation.handleValidationErrors _); [exact Hs|].
    apply createNote_storeValid, Hs.
  - destruct (Validation.validateUpdateNote _ _) as [b' errors].
    destruct (Validation.handleValidationErrors _); [exact Hs|].
    apply updateNote_storeValid, Hs.
  - destruct (Validation.handleValidationErrors _); [exact Hs|].
    apply toggleArchiveNote_storeValid, Hs.
  - destruct (Validation.handleValidationErrors _); [exact Hs|].
    apply deleteNote_storeValid, Hs.
Qed.

(** Every store reached from the empty one by a sequence of requests is
    valid. *)
Lemma reachable_storeValid (textMatch : string -> Note.t -> bool)
  (textScore : string -> Note.t -> Z) (reqs : list (Env * App.Request)) :
  Observe.storeValid
    (fold_left (fun s er => fst (App.handle textMatch textScore (fst er) (snd er) s))
       reqs [])
  = true.
Proof.
  assert (G : forall s, Observe.storeValid s = true ->
              Observe.storeValid
                (fold_left
                   (fun s er => fst (App.handle textMatch textScore (fst er) (snd er) s))
                   reqs s) = true).
  { induction reqs as [|er reqs IH]; intros s Hs; [exact Hs|].
    cbn. apply IH, handle_storeValid, Hs. }
  apply G. reflexivity.
Qed.

(* ------------------------------------------------------------------ *)
(** * Further properties *)

(** ** Identifiers *)

Lemma hexVal_hexDigit (m : N) :
  (m < 16)%N -> ObjectId.hexVal (ObjectId.hexDigit m) = Some m.
Proof.
  intros H. destruct m as [|p]; [reflexivity|].
  do 4 (destruct p as [p|p|]; try reflexivity); exfalso; lia.
Qed.

Lemma fromHexAcc_toHexAcc (digits : nat) (n : N) (acc : string) (a : N) :
  ObjectId.fromHexAcc (ObjectId.toHexAcc digits n acc) a
  = ObjectId.fromHexAcc acc (a * 16 ^ N.of_nat digits + n mod 16 ^ N.of_nat digits)%N.
Proof.
  revert n acc a. induction digits as [|k IH]; intros n acc a.
  - cbn [ObjectId.toHexAcc]. f_equal. cbn. rewrite N.mod_1_r. lia.
  - cbn [ObjectId.toHexAcc]. rewrite IH. cbn [ObjectId.fromHexAcc].
    rewrite hexVal_hexDigit by (apply N.mod_lt; discriminate).
    f_equal. rewrite Nnat.Nat2N.inj_succ, N.pow_succ_r'.
    rewrite (N.Div0.mod_mul_r n 16 (16 ^ N.of_nat k)). lia.
Qed.

(** A generated identifier, printed and cast back, is itself. *)
Lemma cast_toString (o : ObjectId) :
  (o < 2 ^ 96)%N -> ObjectId.cast (ObjectId.toString o) = Some o.
Proof.
  intros H. unfold ObjectId.cast. rewrite toString_length, Nat.eqb_refl.
  unfold ObjectId.toString. rewrite fromHexAcc_toHexAcc.
  cbn [ObjectId.fromHexAcc]. f_equal.
  change (16 ^ N.of_nat 24)%N with (2 ^ 96)%N.
  rewrite N.mod_small by exact H. reflexivity.
Qed.

Lemma findById_app_new (oid : ObjectId) (s : Mongoose.Store) (d : Note.t) :
  Mongoose.findById oid s = None -> Note._id d = oid ->
  Mongoose.findById oid (s ++ [d]) = Some d.
Proof.
  unfold Mongoose.findById, Mongoose.sameId. intros Hn Hid.
  induction s as [|x s IH]; cbn in *.
  - rewrite Hid, N.eqb_refl. reflexivity.
  - destruct (N.eqb (Note._id x) oid); [discriminate Hn | apply IH, Hn].
Qed.

(** ** Identifiers that are malformed or resolve to nothing *)

Lemma validateNoteId_bad (id : string) :
  JS.isMongoId id = false ->
  Validation.handleValidationErrors (Validation.validateNoteId id)
  = Some (mkResponse HTTP_STATUS.BAD_REQUEST
            [("success", JBool false);
             ("message", JStr ERROR_MESSAGES.VALIDATION_ERROR);
             ("errors",
              JArr [JObj [("field", JStr "id");
                          ("message", JStr "Invalid note ID format");
                          ("value", JStr id)]])]).
Proof. intros H. unfold Validation.validateNoteId. rewrite H. reflexivity. Qed.

Lemma cast_None (id : string) :
  JS.allHex id && (String.length id =? 24)%nat = false -> ObjectId.cast id = None.
Proof.
  intros H. unfold ObjectId.cast.
  destruct (String.length id =? 24)%nat; [|reflexivity].
  rewrite andb_true_r in H.
  destruct (ObjectId.fromHexAcc id 0) as [v|] eqn:E; [|reflexivity].
  apply fromHexAcc_allHex in E. congruence.
Qed.

(** The ids that pass the id validator without being 24 hexadecimal
    digits: a 0, one of x X h H, and 22 hexadecimal digits. *)
Lemma isMongoId_prefixed (id : string) :
  JS.isMongoId id = true ->
  JS.allHex id && (String.length id =? 24)%nat = false ->
  exists p r,
    id = String "0" (String p r) /\ JS.allHex r = true
    /\ String.length r = 22%nat
    /\ (p = "x" \/ p = "X" \/ p = "h" \/ p = "H")%char.
Proof.
  unfold JS.isMongoId, JS.isHexadecimal. intros H Hn.
  apply andb_true_iff in H. destruct H as [H Hl]. rewrite Hl, andb_true_r in Hn.
  destruct id as [|z [|p r]].
  - discriminate Hl.
  - discriminate Hl.
  - destruct ((nat_of_ascii z =? 48)%nat
              && ((nat_of_ascii p =? 120)%nat || (nat_of_ascii p =? 88)%nat
                  || (nat_of_ascii p =? 104)%nat || (nat_of_ascii p =? 72)%nat))
      eqn:Ep.
    + apply andb_true_iff in Ep. destruct Ep as [Ez Ep].
      apply andb_true_iff in H. destruct H as [_ H].
      exists p, r. apply Nat.eqb_eq in Ez, Hl.
      assert (z = "0"%char)
        by (rewrite <- (ascii_nat_embedding z), Ez; reflexivity).
      subst z. split; [reflexivity|]. split; [exact H|].
      split; [cbn in Hl; lia|].
      rewrite !orb_true_iff, !Nat.eqb_eq in Ep.
      destruct Ep as [[[E|E]|E]|E];
        rewrite <- (ascii_nat_embedding p), E; cbn; tauto.
    + apply andb_true_iff in H. destruct H as [_ H]. congruence.
Qed.

(** X2.  An id that is not a string of 24 hexadecimal digits never
    reaches the store.  On the routes that take only an id (get,
    toggle-archive, delete) the answer is 400 and the store is unchanged.
    When the id validator refuses the id, the answer carries a single
    validation error on field id with the rejected value.  The validator
    lets one kind of such ids through, 0x or 0h followed by 22 hexadecimal
    digits; the handler is then reached, the cast of the id fails, and the
    error handler answers with the invalid-id message on field _id. *)
Theorem X2_malformed_id_rejected
  (textMatch : string -> Note.t -> bool) (textScore : string -> Note.t -> Z)
  (env : Env) (id : string) (s : Mongoose.Store) (req : App.Request) :
  JS.allHex id && (String.length id =? 24)%nat = false ->
  req = App.GetNoteById id \/ req = App.PatchArchive id \/ req = App.DeleteNote id ->
  fst (App.handle textMatch textScore env req s) = s
  /\ status (snd (App.handle textMatch textScore env req s)) = 400
  /\ (JS.isMongoId id = false ->
      App.handle textMatch textScore env req s
      = (s, mkResponse HTTP_STATUS.BAD_REQUEST
              [("success", JBool false);
               ("message", JStr ERROR_MESSAGES.VALIDATION_ERROR);
               ("errors",
                JArr [JObj [("field", JStr "id");
                            ("message", JStr "Invalid note ID format");
                            ("value", JStr id)]])]))
  /\ (JS.isMongoId id = true ->
      App.handle textMatch textScore env req s
      = (s, mkResponse HTTP_STATUS.BAD_REQUEST
              [("success", JBool false);
               ("message", JStr ERROR_MESSAGES.INVALID_ID_FORMAT);
               ("field", JStr "_id");
               ("value", JStr id)])
      /\ exists p r,
           id = String "0" (String p r) /\ JS.allHex r = true
           /\ String.length r = 22%nat
           /\ (p = "x" \/ p = "X" \/ p = "h" \/ p = "H")%char).
Proof.
  intros Hbad Hreq. pose proof (cast_None id Hbad) as Hcast.
  assert (Hv : JS.isMongoId id = false ->
               App.handle textMatch textScore env req s
               = (s, mkResponse HTTP_STATUS.BAD_REQUEST
                       [("success", JBool false);
                        ("message", JStr ERROR_MESSAGES.VALIDATION_ERROR);
                        ("errors",
                         JArr [JObj [("field", JStr "id");
                                     ("message", JStr "Invalid note ID format");
                                     ("value", JStr id)]])])).
  { intros Hid. destruct Hreq as [ -> | [ -> | -> ] ]; unfold App.handle, App.route;
      rewrite (validateNoteId_bad id Hid); reflexivity. }
  assert (Hc : JS.isMongoId id = true ->
               App.handle textMatch textScore env req s
               = (s, mkResponse HTTP_STATUS.BAD_REQUEST
                       [("success", JBool false);
                        ("message", JStr ERROR_MESSAGES.INVALID_ID_FORMAT);
                        ("field", JStr "_id");
                        ("value", JStr id)])).
  { intros Hid.
    destruct Hreq as [ -> | [ -> | -> ] ];
      unfold App.handle, App.route, Validation.validateNoteId; rewrite Hid;
      cbn [Validation.handleValidationErrors];
      unfold Controller.getNoteById, Controller.toggleArchiveNote,
        Controller.deleteNote, Mongoose.findByIdParam, Mongoose.findByIdAndDelete;
      rewrite Hcast; reflexivity. }
  destruct (JS.isMongoId id) eqn:Hid.
  - rewrite (Hc eq_refl). split; [reflexivity|]. split; [reflexivity|].
    split; [intros H; discriminate H|]. intros _. split; [reflexivity|].
    apply isMongoId_prefixed; assumption.
  - rewrite (Hv eq_refl). split; [reflexivity|]. split; [reflexivity|].
    split; [intros _; reflexivity|]. intros H; discriminate H.
Qed.

Lemma X2_malformed_id_rejected_witness :
  status (snd (App.handle Samples.textMatch Samples.textScore Samples.env0
                 (App.GetNoteById "0x00000000000000000000ab") Samples.store0))
  = 400.
Proof.
  apply (X2_malformed_id_rejected Samples.textMatch Samples.textScore
           Samples.env0 "0x00000000000000000000ab" Samples.store0
           (App.GetNoteById "0x00000000000000000000ab")
           eq_refl (or_introl eq_refl)).
Defined.

(** X3.  A well-formed id that resolves to no note is answered 404 with
    the message Note not found, on get, toggle-archive and delete alike,
    and the store is unchanged: not found is told apart from malformed. *)
Theorem X3_unknown_id_not_found
  (textMatch : string -> Note.t -> bool) (textScore : string -> Note.t -> Z)
  (env : Env) (id : string) (oid : ObjectId) (s : Mongoose.Store)
  (req : App.Request) :
  ObjectId.cast id = Some oid ->
  Mongoose.findById oid s = None ->
  req = App.GetNoteById id \/ req = App.PatchArchive id \/ req = App.DeleteNote id ->
  App.handle textMatch textScore env req s
  = (s, mkResponse HTTP_STATUS.NOT_FOUND
          [("success", JBool false);
           ("message", JStr "Note not found")]).
Proof.
  intros Hcast Hfind Hreq.
  destruct (idRoutes_reach_handler textMatch textScore env id oid s Hcast)
    as [E1 [E2 E3]].
  unfold App.handle.
  destruct Hreq as [ -> | [ -> | -> ] ]; rewrite ?E1, ?E2, ?E3;
    unfold Controller.toggleArchiveNote, Controller.deleteNote,
      Controller.getNoteById, Mongoose.findByIdParam, Mongoose.findByIdAndDelete;
    rewrite Hcast, Hfind; reflexivity.
Qed.

Lemma X3_unknown_id_not_found_witness :
  status (snd (App.handle Samples.textMatch Samples.textScore Samples.env0
                 (App.DeleteNote Samples.id9) Samples.store0))
  = 404.
Proof.
  rewrite (X3_unknown_id_not_found Samples.textMatch Samples.textScore
             Samples.env0 Samples.id9 _ Samples.store0 (App.DeleteNote Samples.id9)
             eq_refl eq_refl (or_intror (or_intror eq_refl))).
  reflexivity.
Defined.

(** ** Deleting, and what mutations leave alone *)

Lemma findById_remove_same (oid : ObjectId) (s : Mongoose.Store) :
  Mongoose.findById oid (Mongoose.remove oid s) = None.
Proof.
  unfold Mongoose.findById, Mongoose.remove.
  induction s as [|x s IH]; [reflexivity|]. cbn.
  destruct (Mongoose.sameId oid x) eqn:E; cbn; [exact IH|].
  rewrite E. exact IH.
Qed.

Lemma findById_remove_other (oid oid' : ObjectId) (s : Mongoose.Store) :
  oid' <> oid ->
  Mongoose.findById oid' (Mongoose.remove oid s) = Mongoose.findById oid' s.
Proof.
  intros Hne. unfold Mongoose.findById, Mongoose.remove, Mongoose.sameId.
  induction s as [|x s IH]; [reflexivity|]. cbn.
  destruct (N.eqb_spec (Note._id x) oid) as [E|E]; cbn.
  - destruct (N.eqb_spec (Note._id x) oid') as [E'|_]; [congruence|exact IH].
  - destruct (N.eqb (Note._id x) oid'); [reflexivity|exact IH].
Qed.

Lemma remove_In (oid : ObjectId) (s : Mongoose.Store) (x : Note.t) :
  In x (Mongoose.remove oid s) <-> In x s /\ Note._id x <> oid.
Proof.
  unfold Mongoose.remove, Mongoose.sameId. rewrite filter_In, negb_true_iff.
  rewrite N.eqb_neq. reflexivity.
Qed.

(** X4.  Deleting an existing note answers 200 with the summary {id,
    title} of the removed note; afterwards the id resolves to nothing, the
    store holds exactly the notes with another id, and a second delete of
    the same id answers 404. *)
Theorem X4_delete_removes (id : string) (oid : ObjectId) (d : Note.t)
  (s : Mongoose.Store) :
  ObjectId.cast id = Some oid ->
  Mongoose.findById oid s = Some d ->
  exists s',
    Controller.deleteNote id s
    = (s', Responded (mkResponse HTTP_STATUS.OK
             [("success", JBool true);
              ("message", JStr "Note deleted successfully");
              ("data", JObj [("id", JStr (ObjectId.toString oid));
                             ("title", JStr (Note.title d))])]))
    /\ Mongoose.findById oid s' = None
    /\ (forall x, In x s' <-> In x s /\ Note._id x <> oid)
    /\ (forall oid', oid' <> oid ->
        Mongoose.findById oid' s' = Mongoose.findById oid' s)
    /\ Controller.deleteNote id s' = (s', Responded Controller.notFound).
Proof.
  intros Hcast Hfind. exists (Mongoose.remove oid s).
  pose proof (findById_Some _ _ _ Hfind) as [_ Hid].
  split; [|split; [|split; [|split]]].
  - unfold Controller.deleteNote, Mongoose.findByIdAndDelete.
    rewrite Hcast, Hfind, Hid. reflexivity.
  - apply findById_remove_same.
  - intros x. apply remove_In.
  - intros oid' Hne. apply findById_remove_other, Hne.
  - unfold Controller.deleteNote, Mongoose.findByIdAndDelete.
    rewrite Hcast, findById_remove_same. reflexivity.
Qed.

Lemma X4_delete_removes_witness :
  exists s',
    fst (Controller.deleteNote Samples.id1 Samples.store0) = s'
    /\ Mongoose.findById 1%N s' = None
    /\ Mongoose.findById 2%N s' = Some Samples.oldList.
Proof.
  destruct (X4_delete_removes Samples.id1 1%N Samples.groceries Samples.store0
              eq_refl eq_refl) as [s' [E [H1 [_ [H2 _]]]]].
  exists s'. split; [rewrite E; reflexivity|]. split; [exact H1|].
  rewrite H2 by discriminate. reflexivity.
Defined.

Lemma replace_length (d' : Note.t) (s : Mongoose.Store) :
  List.length (Mongoose.replace d' s) = List.length s.
Proof. unfold Mongoose.replace. apply length_map. Qed.

(** X5.  Update and toggle-archive never add or drop a note and never
    touch a note with another id: whatever the request and its outcome,
    the store keeps its size and every other id resolves to the same
    document as before. *)
Theorem X5_mutations_leave_others (env : Env) (id : string) (b : Body)
  (s : Mongoose.Store) (oid' : ObjectId) :
  ObjectId.cast id <> Some oid' ->
  (List.length (fst (Controller.updateNote env id b s)) = List.length s
   /\ Mongoose.findById oid' (fst (Controller.updateNote env id b s))
      = Mongoose.findById oid' s)
  /\ (List.length (fst (Controller.toggleArchiveNote env id s)) = List.length s
      /\ Mongoose.findById oid' (fst (Controller.toggleArchiveNote env id s))
         = Mongoose.findById oid' s).
Proof.
  intros Hne. split.
  - unfold Controller.updateNote, Mongoose.findByIdAndUpdate.
    destruct (ObjectId.cast id) as [oid|]; [|split; reflexivity].
    destruct (Mongoose.updateValidators _); [|split; reflexivity].
    destruct (Mongoose.findById oid s) as [d|] eqn:Ef; [|split; reflexivity].
    cbn [fst]. split; [apply replace_length|].
    apply findById_replace_other. cbn.
    rewrite (proj2 (findById_Some _ _ _ Ef)). congruence.
  - unfold Controller.toggleArchiveNote, Mongoose.findByIdParam, Mongoose.saveModified.
    destruct (ObjectId.cast id) as [oid|]; [|split; reflexivity].
    destruct (Mongoose.findById oid s) as [d|] eqn:Ef; [|split; reflexivity].
    destruct (Mongoose.validate _); [|split; reflexivity].
    destruct (Note.preSave _); [split; reflexivity|].
    cbn [fst]. split; [apply replace_length|].
    apply findById_replace_other. cbn.
    rewrite (proj2 (findById_Some _ _ _ Ef)). congruence.
Qed.

Lemma X5_mutations_leave_others_witness :
  Mongoose.findById 2%N
    (fst (Controller.updateNote Samples.env0 Samples.id1
            (mkBody (Some "Shopping") None None None) Samples.store0))
  = Some Samples.oldList.
Proof.
  rewrite (proj2 (proj1 (X5_mutations_leave_others Samples.env0 Samples.id1
                           (mkBody (Some "Shopping") None None None)
                           Samples.store0 2%N ltac:(discriminate)))).
  reflexivity.
Defined.

(** ** The search endpoint (searchNotes) *)

Lemma StronglySorted_weaken {A : Type} (R R' : A -> A -> Prop) (l : list A) :
  (forall a b, R a b -> R' a b) -> StronglySorted R l -> StronglySorted R' l.
Proof.
  intros HR. induction 1 as [|x l Hs IH Hall]; constructor; [exact IH|].
  eapply Forall_impl; [|exact Hall]. intros y. apply HR.
Qed.

Lemma scoreLeb_total (score : Note.t -> Z) (a b : Note.t) :
  (score b <=? score a) = true \/ (score a <=? score b) = true.
Proof. rewrite !Z.leb_le. lia. Qed.

Lemma scoreLeb_trans (score : Note.t -> Z) (a b c : Note.t) :
  (score b <=? score a) = true -> (score c <=? score b) = true ->
  (score c <=? score a) = true.
Proof. rewrite !Z.leb_le. lia. Qed.

(** X6.  The search endpoint refuses a missing or blank query with 400.
    Otherwise it answers 200 with at most limit items, all of them notes of
    the store that are not archived and match the trimmed query, best
    score first, each carrying its score; meta.resultsCount is the number
    of items and meta.query the trimmed query. *)
Theorem X6_search
  (textMatch : string -> Note.t -> bool) (textScore : string -> Note.t -> Z)
  (sq : Controller.SearchQuery) (s : Mongoose.Store) :
  let query := Mongoose.orElse (Controller.q sq) EmptyString in
  (JS.truthy (JS.trim query) = false ->
   Controller.searchNotes textMatch textScore sq s
   = Responded (mkResponse HTTP_STATUS.BAD_REQUEST
       [("success", JBool false); ("message", JStr "Search query is required")]))
  /\ (JS.truthy (JS.trim query) = true ->
      exists docs,
        Controller.searchNotes textMatch textScore sq s
        = Responded (mkResponse HTTP_STATUS.OK
            [("success", JBool true);
             ("data",
              JArr (map (fun d => JObj (Note.lean d
                                        ++ [("score", JNum (textScore (JS.trim query) d))]))
                      docs));
             ("meta",
              JObj [("query", JStr (JS.trim query));
                    ("resultsCount", JNum (Z.of_nat (List.length docs)))])])
        /\ (List.length docs <= Pos.to_nat (Controller.searchLimit sq))%nat
        /\ Forall (fun d => In d s /\ Note.isArchived d = false
                            /\ textMatch (JS.trim query) d = true) docs
        /\ StronglySorted
             (fun a b => textScore (JS.trim query) b <= textScore (JS.trim query) a)
             docs).
Proof.
  intros query. split; intros Hq.
  - unfold Controller.searchNotes. fold query.
    destruct (JS.truthy query) eqn:Et; cbn [negb orb]; [|reflexivity].
    assert (E : (JS.length (JS.trim query) =? 0) = true).
    { apply Z.eqb_eq. unfold JS.length. destruct (JS.trim query); [reflexivity|].
      discriminate Hq. }
    rewrite E. reflexivity.
  - exists (Mongoose.limit (Z.pos (Controller.searchLimit sq))
              (Mongoose.searchNotes textMatch textScore (JS.trim query) s)).
    split; [|split; [|split]].
    + unfold Controller.searchNotes. fold query.
      assert (Et : JS.truthy query = true).
      { destruct query; [discriminate Hq | reflexivity]. }
      rewrite Et. cbn [negb orb].
      assert (E : (JS.length (JS.trim query) =? 0) = false).
      { apply Z.eqb_neq. apply truthy_length in Hq. lia. }
      rewrite E. rewrite !map_map, !length_map. reflexivity.
    + unfold Mongoose.limit. rewrite length_firstn. lia.
    + apply Forall_forall. intros d Hd. unfold Mongoose.limit in Hd.
      apply In_firstn in Hd. unfold Mongoose.searchNotes, Mongoose.sortByScore in Hd.
      apply (Permutation_in _ (sortWith_perm _ _)) in Hd.
      unfold Mongoose.find in Hd. apply filter_In in Hd. destruct Hd as [Hin Hm].
      unfold Mongoose.matches in Hm. cbn in Hm.
      apply andb_true_iff in Hm. destruct Hm as [Ha Ht].
      apply Bool.eqb_prop in Ha. repeat split; assumption.
    + unfold Mongoose.limit, Mongoose.searchNotes, Mongoose.sortByScore.
      apply StronglySorted_firstn.
      eapply StronglySorted_weaken;
        [|apply (sortWith_sorted _ (scoreLeb_total (textScore (JS.trim query)))
                   (scoreLeb_trans (textScore (JS.trim query))))].
      intros a b H. apply Z.leb_le, H.
Qed.

Lemma X6_search_witness :
  exists docs,
    Observe.dataItems
      (Observe.settle Samples.env0
         (Controller.searchNotes Samples.textMatch Samples.textScore
            (Controller.mkSearchQuery (Some " Milk ") 10) Samples.store0))
    = map (fun d => JObj (Note.lean d ++ [("score", JNum (Samples.textScore "Milk" d))]))
        docs
    /\ Forall (fun d => Note.isArchived d = false) docs.
Proof.
  destruct (proj2 (X6_search Samples.textMatch Samples.textScore
                     (Controller.mkSearchQuery (Some " Milk ") 10) Samples.store0)
              eq_refl) as [docs [E [_ [Hall _]]]].
  exists docs. split.
  - rewrite E. reflexivity.
  - eapply Forall_impl; [|exact Hall]. intros d [_ [H _]]. exact H.
Defined.

(** ** Statuses and what the error handler reveals *)

Lemma errorHandler_status (env : Env) (err : Error) :
  In (status (ErrorHandler.errorHandler env err)) Invariant.errorStatuses.
Proof.
  unfold Invariant.errorStatuses.
  destruct err as [errors|path value| |name message code keyValue stack]; cbn;
    try tauto.
  destruct (ErrorHandler.isDatabaseConnectionError name message code); cbn; [tauto|].
  destruct (match code with NumCode n => n =? 11000 | _ => false end).
  { destruct keyValue as [|[field value] rest]; cbn; tauto. }
  destruct (String.eqb name "JsonWebTokenError"); cbn; [tauto|].
  destruct (String.eqb name "TokenExpiredError"); cbn; tauto.
Qed.

Lemma validation_status (errors : list FieldError) (r : Response) :
  Validation.handleValidationErrors errors = Some r -> status r = 400.
Proof.
  destruct errors; cbn; intros H; [discriminate H|]. injection H as <-. reflexivity.
Qed.

(** The statuses of a settled outcome: those of the error handler, or the
    handler's own. *)
Lemma settle_status (env : Env) (o : Outcome) (allowed : list Z) :
  (forall r, o = Responded r -> In (status r) allowed) ->
  (forall st, In st Invariant.errorStatuses -> In st allowed) ->
  In (status (Observe.settle env o)) allowed.
Proof.
  intros Hr Herr. destruct o as [r|e]; cbn.
  - apply Hr. reflexivity.
  - apply Herr, errorHandler_status.
Qed.

(** X7.  The server answers an OPTIONS request with 204 and every other
    request with one of 200, 201, 400, 401, 404, 409, 500 or 503, and the
    client adapter has a code of its own for each error status among
    them: no answer of the server's error handler is given the generic
    code HTTP_ERROR, and none the code VALIDATION_ERROR (which the client
    keeps for 422). *)
Theorem X7_statuses_and_codes
  (textMatch : string -> Note.t -> bool) (textScore : string -> Note.t -> Z)
  (env : Env) (req : App.Request) (s : Mongoose.Store) (err : Error) :
  ((exists url, req = App.Unrouted "OPTIONS" url)
   /\ status (snd (App.handle textMatch textScore env req s)) = 204
   \/ (forall url, req <> App.Unrouted "OPTIONS" url)
      /\ In (status (snd (App.handle textMatch textScore env req s)))
            [200; 201; 400; 401; 404; 409; 500; 503])
  /\ In (Api.getErrorCode (status (ErrorHandler.errorHandler env err)))
        ["BAD_REQUEST"; "UNAUTHORIZED"; "NOT_FOUND"; "CONFLICT"; "SERVER_ERROR";
         "SERVICE_UNAVAILABLE"].
Proof.
  split.
  - rewrite handle_settle.
    destruct req as [|query|query|id|b|id b|id|id|method url].
    9: { cbn [App.route].
         destruct (String.eqb_spec method "OPTIONS") as [->|Ho].
         - left. split; [eexists; reflexivity | reflexivity].
         - right. split; [intros url' H; injection H as H1 _; contradiction|].
           destruct (String.eqb method "GET" && App.isHealthPath url);
             [cbn; tauto|].
           destruct (String.eqb method "HEAD");
             [destruct (App.isHealthPath url)|]; cbn; tauto. }
    all: right; (split; [intros url' H; discriminate H|]);
      apply settle_status;
      [|unfold Invariant.errorStatuses; cbn; intros st H;
        repeat (destruct H as [<-|H]; [tauto|]); contradiction];
      intros r Hr; cbn [App.route snd] in Hr.
    + injection Hr as <-. cbn. tauto.
    + injection Hr as <-. cbn. tauto.
    + unfold Controller.searchNotes in Hr.
      destruct (negb _ || _) in Hr; injection Hr as <-; cbn; tauto.
    + destruct (Validation.handleValidationErrors _) eqn:E; cbn [snd] in Hr.
      * injection Hr as <-. rewrite (validation_status _ _ E). cbn. tauto.
      * unfold Controller.getNoteById in Hr.
        destruct (Mongoose.findByIdParam _ _) as [e|[d|]];
          try discriminate Hr; injection Hr as <-; cbn; tauto.
    + destruct (Validation.validateCreateNote _) as [b' errors].
      destruct (Validation.handleValidationErrors _) eqn:E; cbn [snd] in Hr.
      * injection Hr as <-. rewrite (validation_status _ _ E). cbn. tauto.
      * unfold Controller.createNote in Hr.
        destruct (Mongoose.create _ _ _ _) as [s' [e|d]]; cbn [snd] in Hr;
          try discriminate Hr; injection Hr as <-; cbn; tauto.
    + destruct (Validation.validateUpdateNote _ _) as [b' errors].
      destruct (Validation.handleValidationErrors _) eqn:E; cbn [snd] in Hr.
      * injection Hr as <-. rewrite (validation_status _ _ E). cbn. tauto.
      * unfold Controller.updateNote in Hr.
        destruct (Mongoose.findByIdAndUpdate _ _ _ _) as [s' [e|[d|]]];
          cbn [snd] in Hr; try discriminate Hr; injection Hr as <-; cbn; tauto.
    + destruct (Validation.handleValidationErrors _) eqn:E; cbn [snd] in Hr.
      * injection Hr as <-. rewrite (validation_status _ _ E). cbn. tauto.
      * unfold Controller.toggleArchiveNote in Hr.
        destruct (Mongoose.findByIdParam _ _) as [e|[d|]]; cbn [snd] in Hr;
          try discriminate Hr; try (injection Hr as <-; cbn; tauto).
        destruct (Mongoose.saveModified _ _ _) as [s' [e|d']]; cbn [snd] in Hr;
          try discriminate Hr; injection Hr as <-; cbn; tauto.
    + destruct (Validation.handleValidationErrors _) eqn:E; cbn [snd] in Hr.
      * injection Hr as <-. rewrite (validation_status _ _ E). cbn. tauto.
      * unfold Controller.deleteNote in Hr.
        destruct (Mongoose.findByIdAndDelete _ _) as [s' [e|[d|]]];
          cbn [snd] in Hr; try discriminate Hr; injection Hr as <-; cbn; tauto.
  - pose proof (errorHandler_status env err) as H.
    unfold Invariant.errorStatuses in H. cbn in H.
    repeat (destruct H as [<-|H]; [cbn; tauto|]). contradiction.
Qed.

(** X8.  Unless NODE_ENV is exactly development, no answer of the error
    handler carries the error's own message or its stack: an error that
    falls through the classification is answered 500 with the fixed text
    only.  With NODE_ENV unset this holds although /health reports the
    environment as development. *)
Theorem X8_no_details_outside_development (env : Env) (err : Error) :
  ErrorHandler.isDevelopment env = false ->
  Json.has "stack" (body (ErrorHandler.errorHandler env err)) = false
  /\ Json.has "error" (body (ErrorHandler.errorHandler env err)) = false
  /\ (status (ErrorHandler.errorHandler env err) = 500 ->
      body (ErrorHandler.errorHandler env err)
      = [("success", JBool false);
         ("message", JStr "Internal server error occurred")])
  /\ (NODE_ENV env = None ->
      Json.get "environment" (body (App.health env)) = Some (JStr "development")).
Proof.
  intros Hdev. split; [|split; [|split]].
  - destruct err as [errors|path value| |name message code keyValue stack];
      cbn; try reflexivity.
    destruct (ErrorHandler.isDatabaseConnectionError name message code);
      [reflexivity|].
    destruct (match code with NumCode n => n =? 11000 | _ => false end).
    { destruct keyValue as [|[field value] rest]; reflexivity. }
    destruct (String.eqb name "JsonWebTokenError"); [reflexivity|].
    destruct (String.eqb name "TokenExpiredError"); [reflexivity|].
    unfold ErrorHandler.handleGenericError. rewrite Hdev. reflexivity.
  - destruct err as [errors|path value| |name message code keyValue stack];
      cbn; try reflexivity.
    destruct (ErrorHandler.isDatabaseConnectionError name message code);
      [reflexivity|].
    destruct (match code with NumCode n => n =? 11000 | _ => false end).
    { destruct keyValue as [|[field value] rest]; reflexivity. }
    destruct (String.eqb name "JsonWebTokenError"); [reflexivity|].
    destruct (String.eqb name "TokenExpiredError"); [reflexivity|].
    unfold ErrorHandler.handleGenericError. rewrite Hdev. reflexivity.
  - destruct err as [errors|path value| |name message code keyValue stack];
      cbn; try (intros H; discriminate H).
    destruct (ErrorHandler.isDatabaseConnectionError name message code);
      [intros H; discriminate H|].
    destruct (match code with NumCode n => n =? 11000 | _ => false end).
    { destruct keyValue as [|[field value] rest]; intros H; discriminate H. }
    destruct (String.eqb name "JsonWebTokenError"); [intros H; discriminate H|].
    destruct (String.eqb name "TokenExpiredError"); [intros H; discriminate H|].
    unfold ErrorHandler.handleGenericError. rewrite Hdev. reflexivity.
  - intros H. unfold App.health, App.nodeEnv. rewrite H. reflexivity.
Qed.

Lemma X8_no_details_outside_development_witness :
  body (ErrorHandler.errorHandler (mkEnv 0 0%N None 0)
          (PlainError "TypeError" "tag.trim is not a function" NoCode []
             "at createNote"))
  = [("success", JBool false); ("message", JStr "Internal server error occurred")].
Proof.
  apply (X8_no_details_outside_development (mkEnv 0 0%N None 0)
           (PlainError "TypeError" "tag.trim is not a function" NoCode []
              "at createNote") eq_refl).
  reflexivity.
Defined.

(** ** What every stored note satisfies *)

Lemma trimmed_trim (t : string) : Invariant.trimmed (JS.trim t) = true.
Proof. unfold Invariant.trimmed. rewrite trim_idem. apply String.eqb_refl. Qed.

Lemma validateTitle_inv (t : string) :
  Note.validateTitle (Some t) = [] ->
  JS.truthy t = true /\ (JS.length t <=? VALIDATION.TITLE_MAX_LENGTH) = true.
Proof.
  unfold Note.validateTitle. destruct (JS.truthy t); cbn [negb];
    [|intros H; discriminate H].
  destruct (JS.length t <? VALIDATION.TITLE_MIN_LENGTH); [intros H; discriminate H|].
  destruct (Z.ltb_spec VALIDATION.TITLE_MAX_LENGTH (JS.length t));
    [intros H'; discriminate H'|].
  intros _. split; [reflexivity|]. apply Z.leb_le. assumption.
Qed.

Lemma validateContent_inv (c : string) :
  Note.validateContent (Some c) = [] ->
  JS.truthy c = true /\ (JS.length c <=? VALIDATION.CONTENT_MAX_LENGTH) = true.
Proof.
  unfold Note.validateContent. destruct (JS.truthy c); cbn [negb];
    [|intros H; discriminate H].
  destruct (JS.length c <? VALIDATION.CONTENT_MIN_LENGTH); [intros H; discriminate H|].
  destruct (Z.ltb_spec VALIDATION.CONTENT_MAX_LENGTH (JS.length c));
    [intros H'; discriminate H'|].
  intros _. split; [reflexivity|]. apply Z.leb_le. assumption.
Qed.

Lemma validateTags_inv (l : list string) :
  Note.validateTags l = [] -> (List.length l <=? 10)%nat = true.
Proof.
  unfold Note.validateTags. destruct (List.length l <=? 10)%nat;
    [reflexivity | intros H; discriminate H].
Qed.

Lemma cleanTags_clean (l : list string) :
  Invariant.tagsClean (Controller.cleanTags l) = true.
Proof.
  unfold Invariant.tagsClean, Controller.cleanTags. apply forallb_forall.
  intros t Ht. apply filter_In in Ht. destruct Ht as [Hin Htr].
  apply in_map_iff in Hin. destruct Hin as [x [<- _]].
  rewrite Htr, trimmed_trim. reflexivity.
Qed.

(** The parts of [noteOk], one by one. *)
Lemma noteOk_iff (d : Note.t) :
  Invariant.noteOk d = true
  <-> (JS.truthy (Note.title d) = true /\ Invariant.trimmed (Note.title d) = true
       /\ (JS.length (Note.title d) <=? VALIDATION.TITLE_MAX_LENGTH) = true)
      /\ (JS.truthy (Note.content d) = true /\ Invariant.trimmed (Note.content d) = true
          /\ (JS.length (Note.content d) <=? VALIDATION.CONTENT_MAX_LENGTH) = true)
      /\ (List.length (Note.tags d) <=? 10)%nat = true
      /\ Invariant.tagsClean (Note.tags d) = true.
Proof.
  unfold Invariant.noteOk, Invariant.docValid. rewrite !andb_true_iff. tauto.
Qed.

Lemma createNote_schemaValid (env : Env) (b : Body) (s : Mongoose.Store) :
  Invariant.schemaValid s = true ->
  Invariant.schemaValid (fst (Controller.createNote env b s)) = true.
Proof.
  intros Hs. unfold Controller.createNote, Mongoose.create.
  cbn [Mongoose.nd_title Mongoose.nd_content Mongoose.nd_tags].
  destruct (_ ++ _ ++ _) eqn:Ev; [|exact Hs].
  destruct (Note.preSave _); [exact Hs|]. cbn [fst].
  apply app_eq_nil in Ev. destruct Ev as [Ht Ev].
  apply app_eq_nil in Ev. destruct Ev as [Hc Htags].
  unfold Invariant.schemaValid. rewrite forallb_app. fold (Invariant.schemaValid s).
  rewrite Hs. cbn [forallb andb]. rewrite andb_true_r.
  destruct (title b) as [t|]; [|discriminate Ht].
  destruct (content b) as [c|]; [|discriminate Hc].
  cbn [option_map] in *.
  apply validateTitle_inv in Ht. apply validateContent_inv in Hc.
  apply validateTags_inv in Htags.
  apply noteOk_iff. cbn [Note.title Note.content Note.tags].
  rewrite !trimmed_trim, cleanTags_clean. tauto.
Qed.

Lemma applyUpdate_noteOk (now : Z) (u : Mongoose.UpdateData) (d : Note.t) :
  Mongoose.updateValidators u = [] ->
  match Mongoose.u_tags u with
  | Some l => Invariant.tagsClean l = true
  | None => True
  end ->
  Invariant.noteOk d = true ->
  Invariant.noteOk (Mongoose.applyUpdate now u d) = true.
Proof.
  unfold Mongoose.updateValidators. intros Hv Hclean Hd.
  apply app_eq_nil in Hv. destruct Hv as [Ht Hv].
  apply app_eq_nil in Hv. destruct Hv as [Hc Htags].
  apply noteOk_iff in Hd. destruct Hd as [Hdt [Hdc [Hdl Hdg]]].
  apply noteOk_iff. unfold Mongoose.applyUpdate.
  cbn [Note.title Note.content Note.tags].
  split; [|split; [|split]].
  - destruct (Mongoose.u_title u) as [t|]; cbn [option_map Mongoose.orElse];
      [|exact Hdt].
    apply validateTitle_inv in Ht. rewrite trimmed_trim. tauto.
  - destruct (Mongoose.u_content u) as [c|]; cbn [option_map Mongoose.orElse];
      [|exact Hdc].
    apply validateContent_inv in Hc. rewrite trimmed_trim. tauto.
  - destruct (Mongoose.u_tags u) as [l|]; cbn [Mongoose.orElse];
      [apply validateTags_inv, Htags | exact Hdl].
  - destruct (Mongoose.u_tags u) as [l|]; cbn [Mongoose.orElse];
      [exact Hclean | exact Hdg].
Qed.

Lemma schemaValid_In (s : Mongoose.Store) (d : Note.t) :
  Invariant.schemaValid s = true -> In d s -> Invariant.noteOk d = true.
Proof. unfold Invariant.schemaValid. rewrite forallb_forall. auto. Qed.

Lemma replace_schemaValid (s : Mongoose.Store) (d' : Note.t) :
  Invariant.schemaValid s = true -> Invariant.noteOk d' = true ->
  Invariant.schemaValid (Mongoose.replace d' s) = true.
Proof.
  unfold Invariant.schemaValid, Mongoose.replace. rewrite !forallb_forall.
  intros Hs Hd x Hx. apply in_map_iff in Hx. destruct Hx as [y [<- Hy]].
  destruct (Mongoose.sameId (Note._id d') y); [exact Hd | apply Hs, Hy].
Qed.

Lemma updateNote_schemaValid (env : Env) (id : string) (b : Body)
  (s : Mongoose.Store) :
  Invariant.schemaValid s = true ->
  Invariant.schemaValid (fst (Controller.updateNote env id b s)) = true.
Proof.
  intros Hs. unfold Controller.updateNote, Mongoose.findByIdAndUpdate.
  destruct (ObjectId.cast id) as [oid|]; [|exact Hs].
  destruct (Mongoose.updateValidators _) eqn:Ev; [|exact Hs].
  destruct (Mongoose.findById oid s) as [d|] eqn:Ef; [|exact Hs].
  cbn [fst]. apply replace_schemaValid; [exact Hs|].
  apply applyUpdate_noteOk; [exact Ev| |].
  - unfold Controller.updateDataOf. cbn [Mongoose.u_tags].
    destruct (tags b); cbn [option_map]; [apply cleanTags_clean | exact I].
  - apply (schemaValid_In s d Hs), (findById_Some _ _ _ Ef).
Qed.

Lemma toggleArchiveNote_schemaValid (env : Env) (id : string) (s : Mongoose.Store) :
  Invariant.schemaValid s = true ->
  Invariant.schemaValid (fst (Controller.toggleArchiveNote env id s)) = true.
Proof.
  intros Hs. unfold Controller.toggleArchiveNote, Mongoose.findByIdParam,
    Mongoose.saveModified.
  destruct (ObjectId.cast id) as [oid|]; [|exact Hs].
  destruct (Mongoose.findById oid s) as [d|] eqn:Ef; [|exact Hs].
  destruct (Mongoose.validate _); [|exact Hs].
  destruct (Note.preSave _); [exact Hs|].
  cbn [fst]. apply replace_schemaValid; [exact Hs|].
  pose proof (schemaValid_In s d Hs (proj1 (findById_Some _ _ _ Ef))) as Hd.
  apply noteOk_iff in Hd. apply noteOk_iff. exact Hd.
Qed.

Lemma deleteNote_schemaValid (id : string) (s : Mongoose.Store) :
  Invariant.schemaValid s = true ->
  Invariant.schemaValid (fst (Controller.deleteNote id s)) = true.
Proof.
  intros Hs. unfold Controller.deleteNote, Mongoose.findByIdAndDelete.
  destruct (ObjectId.cast id) as [oid|]; [|exact Hs].
  destruct (Mongoose.findById oid s) as [d|]; [|exact Hs].
  cbn [fst]. unfold Invariant.schemaValid, Mongoose.remove in *.
  rewrite forallb_forall in *. intros x Hx. apply filter_In in Hx. apply Hs, Hx.
Qed.

Lemma handle_schemaValid (textMatch : string -> Note.t -> bool)
  (textScore : string -> Note.t -> Z) (env : Env) (req : App.Request)
  (s : Mongoose.Store) :
  Invariant.schemaValid s = true ->
  Invariant.schemaValid (fst (App.handle textMatch textScore env req s)) = true.
Proof.
  intros Hs.
  assert (E : fst (App.handle textMatch textScore env req s)
              = fst (App.route textMatch textScore env req s)).
  { unfold App.handle. destruct (App.route _ _ _ _ _) as [s' [r|e]]; reflexivity. }
  rewrite E. clear E.
  destruct req as [|query|query|id|b|id b|id|id|method url];
    try (rewrite unrouted_store; exact Hs); cbn [App.route fst];
    try exact Hs.
  - destruct (Validation.handleValidationErrors _); exact Hs.
  - destruct (Validation.validateCreateNote _) as [b' errors].
    destruct (Validation.handleValidationErrors _); [exact Hs|].
    apply createNote_schemaValid, Hs.
  - destruct (Validation.validateUpdateNote _ _) as [b' errors].
    destruct (Validation.handleValidationErrors _); [exact Hs|].
    apply updateNote_schemaValid, Hs.
  - destruct (Validation.handleValidationErrors _); [exact Hs|].
    apply toggleArchiveNote_schemaValid, Hs.
  - destruct (Validation.handleValidationErrors _); [exact Hs|].
    apply deleteNote_schemaValid, Hs.
Qed.

(** X9.  The schema is an invariant of the store: from a store in which
    every note has a title and a content that are not empty, trimmed and
    within 200 resp. 10000 characters, and at most 10 tags, each trimmed
    and not empty, any sequence of requests, whatever their bodies and
    outcomes, leads to such a store again. *)
Theorem X9_schema_invariant
  (textMatch : string -> Note.t -> bool) (textScore : string -> Note.t -> Z)
  (reqs : list (Env * App.Request)) (s : Mongoose.Store) :
  Invariant.schemaValid s = true ->
  Invariant.schemaValid
    (fold_left (fun s er => fst (App.handle textMatch textScore (fst er) (snd er) s))
       reqs s)
  = true.
Proof.
  revert s. induction reqs as [|er reqs IH]; intros s Hs; [exact Hs|].
  cbn. apply IH, handle_schemaValid, Hs.
Qed.

Lemma X9_schema_invariant_witness :
  Invariant.schemaValid
    (fold_left (fun s er => fst (App.handle Samples.textMatch Samples.textScore
                                   (fst er) (snd er) s))
       [(Samples.env0, App.PostNote (mkBody (Some " a ") (Some "b") (Some [" t "]) None));
        (Samples.env0, App.PatchArchive Samples.id1)]
       Samples.store0)
  = true.
Proof.
  apply (X9_schema_invariant Samples.textMatch Samples.textScore _ Samples.store0).
  reflexivity.
Defined.

Lemma replace_ids (d' : Note.t) (s : Mongoose.Store) :
  Invariant.ids (Mongoose.replace d' s) = Invariant.ids s.
Proof.
  unfold Invariant.ids, Mongoose.replace, Mongoose.sameId. rewrite map_map.
  apply map_ext. intros x.
  destruct (N.eqb_spec (Note._id x) (Note._id d')) as [E|_]; [symmetry; exact E|].
  reflexivity.
Qed.

Lemma remove_ids (oid : ObjectId) (s : Mongoose.Store) :
  Invariant.ids (Mongoose.remove oid s)
  = filter (fun i => negb (N.eqb i oid)) (Invariant.ids s).
Proof.
  unfold Invariant.ids, Mongoose.remove, Mongoose.sameId.
  induction s as [|x s IH]; [reflexivity|]. cbn.
  destruct (N.eqb (Note._id x) oid); cbn; [exact IH|]. rewrite IH. reflexivity.
Qed.

(** X10.  Identifiers stay unique: if no two stored notes share an id and
    the driver does not hand out an id that the store already holds, then
    after any request no two stored notes share an id. *)
Theorem X10_ids_stay_unique
  (textMatch : string -> Note.t -> bool) (textScore : string -> Note.t -> Z)
  (env : Env) (req : App.Request) (s : Mongoose.Store) :
  NoDup (Invariant.ids s) ->
  ~ In (newId env) (Invariant.ids s) ->
  NoDup (Invariant.ids (fst (App.handle textMatch textScore env req s))).
Proof.
  intros Hnd Hfresh.
  assert (E : fst (App.handle textMatch textScore env req s)
              = fst (App.route textMatch textScore env req s)).
  { unfold App.handle. destruct (App.route _ _ _ _ _) as [s' [r|e]]; reflexivity. }
  rewrite E. clear E.
  destruct req as [|query|query|id|b|id b|id|id|method url];
    try (rewrite unrouted_store; exact Hnd); cbn [App.route fst];
    try exact Hnd.
  - destruct (Validation.handleValidationErrors _); exact Hnd.
  - destruct (Validation.validateCreateNote _) as [b' errors].
    destruct (Validation.handleValidationErrors _); [exact Hnd|].
    unfold Controller.createNote, Mongoose.create.
    destruct (_ ++ _ ++ _); [|exact Hnd].
    destruct (Note.preSave _); [exact Hnd|]. cbn [fst].
    unfold Invariant.ids. rewrite map_app. cbn [map Note._id].
    apply NoDup_app_remove_l with (l := []). cbn.
    apply (Permutation_NoDup (l := newId env :: map Note._id s)).
    + apply Permutation_cons_append.
    + constructor; assumption.
  - destruct (Validation.validateUpdateNote _ _) as [b' errors].
    destruct (Validation.handleValidationErrors _); [exact Hnd|].
    unfold Controller.updateNote, Mongoose.findByIdAndUpdate.
    destruct (ObjectId.cast id) as [oid|]; [|exact Hnd].
    destruct (Mongoose.updateValidators _); [|exact Hnd].
    destruct (Mongoose.findById oid s); [|exact Hnd].
    cbn [fst]. rewrite replace_ids. exact Hnd.
  - destruct (Validation.handleValidationErrors _); [exact Hnd|].
    unfold Controller.toggleArchiveNote, Mongoose.findByIdParam, Mongoose.saveModified.
    destruct (ObjectId.cast id) as [oid|]; [|exact Hnd].
    destruct (Mongoose.findById oid s); [|exact Hnd].
    destruct (Mongoose.validate _); [|exact Hnd].
    destruct (Note.preSave _); [exact Hnd|].
    cbn [fst]. rewrite replace_ids. exact Hnd.
  - destruct (Validation.handleValidationErrors _); [exact Hnd|].
    unfold Controller.deleteNote, Mongoose.findByIdAndDelete.
    destruct (ObjectId.cast id) as [oid|]; [|exact Hnd].
    destruct (Mongoose.findById oid s); [|exact Hnd].
    cbn [fst]. rewrite remove_ids. apply NoDup_filter, Hnd.
Qed.

Lemma X10_ids_stay_unique_witness :
  NoDup (Invariant.ids
           (fst (App.handle Samples.textMatch Samples.textScore Samples.env0
                   (App.PostNote (mkBody (Some "a") (Some "b") None None))
                   Samples.store0))).
Proof.
  apply (X10_ids_stay_unique Samples.textMatch Samples.textScore Samples.env0).
  - repeat constructor; cbn; intuition discriminate.
  - cbn. intuition discriminate.
Defined.

(** ** What the request validators of the POST and PUT routes do *)

Lemma createPasses_eq (b : Body) :
  Invariant.createPasses b
  = Observe.provided (title b)
    && Observe.textOk VALIDATION.TITLE_MAX_LENGTH (title b)
    && Observe.provided (content b)
    && Observe.textOk VALIDATION.CONTENT_MAX_LENGTH (content b).
Proof.
  unfold Invariant.createPasses, Validation.validateCreateNote,
    Validation.sanitizeRequestBody, Validation.titleChain,
    Validation.contentChain, Validation.textChain, Observe.textOk,
    Observe.provided, VALIDATION.TITLE_MIN_LENGTH, VALIDATION.CONTENT_MIN_LENGTH.
  cbn [title content tags isArchived].
  destruct (title b) as [t|]; destruct (content b) as [c|];
    cbn [option_map fst snd Mongoose.orElse];
    rewrite ?trim_idem;
    try (destruct (JS.truthy (JS.trim t)) eqn:Et;
         [rewrite (truthy_min_length _ Et)|]);
    try (destruct (JS.truthy (JS.trim c)) eqn:Ec;
         [rewrite (truthy_min_length _ Ec)|]);
    repeat match goal with
      | |- context [?x <=? ?y] => destruct (x <=? y)
      end;
    reflexivity.
Qed.

(** A body that passes the POST validators reaches the handler with title
    and content trimmed and escaped, tags and isArchived as sent. *)
Lemma postNote_reaches (textMatch : string -> Note.t -> bool)
  (textScore : string -> Note.t -> Z) (env : Env) (b : Body) (s : Mongoose.Store) :
  Invariant.createPasses b = true ->
  exists t c,
    title b = Some t /\ content b = Some c
    /\ JS.truthy (JS.trim t) = true /\ JS.truthy (JS.trim c) = true
    /\ App.route textMatch textScore env (App.PostNote b) s
       = Controller.createNote env
           (mkBody (Some (JS.escape (JS.trim t))) (Some (JS.escape (JS.trim c)))
              (tags b) (isArchived b)) s.
Proof.
  intros Hp. pose proof Hp as Hp'. rewrite createPasses_eq in Hp'.
  rewrite !andb_true_iff in Hp'. destruct Hp' as [[[Hpt Ht] Hpc] Hc].
  destruct (title b) as [t|] eqn:Et; [|discriminate Hpt].
  destruct (content b) as [c|] eqn:Ec; [|discriminate Hpc].
  apply textOk_spec in Ht. apply textOk_spec in Hc.
  exists t, c. repeat split; try tauto.
  unfold Invariant.createPasses in Hp. unfold App.route.
  destruct (Validation.validateCreateNote (Validation.sanitizeRequestBody b))
    as [b' errors] eqn:Ev. cbn [snd] in Hp.
  destruct (Validation.handleValidationErrors errors); [discriminate Hp|].
  f_equal.
  unfold Validation.validateCreateNote, Validation.sanitizeRequestBody,
    Validation.titleChain, Validation.contentChain, Validation.textChain in Ev.
  rewrite Et, Ec in Ev. cbn [title content tags isArchived option_map Mongoose.orElse] in Ev.
  rewrite !trim_idem in Ev. injection Ev as <- _. reflexivity.
Qed.

(** ** Create, then fetch, through the routes *)

(** A payload that is valid and whose escaped title and content still
    fit is valid again once the request validators have escaped it. *)
Lemma escaped_validCreate (b : Body) (t c : string) :
  Observe.validCreate b = true ->
  Observe.escapedFits b = true ->
  title b = Some t -> content b = Some c ->
  Observe.validCreate
    (mkBody (Some (JS.escape (JS.trim t))) (Some (JS.escape (JS.trim c)))
       (tags b) (isArchived b)) = true.
Proof.
  intros Hv Hf Et Ec.
  unfold Observe.validCreate in Hv. rewrite !andb_true_iff in Hv.
  destruct Hv as [[[[_ Ht] _] Hc] Htags]. rewrite Et in Ht. rewrite Ec in Hc.
  apply textOk_spec in Ht. apply textOk_spec in Hc.
  unfold Observe.escapedFits in Hf. rewrite Et, Ec, andb_true_iff, !Z.leb_le in Hf.
  destruct Hf as [Hft Hfc].
  unfold Observe.validCreate. cbn [title content tags Observe.provided andb].
  rewrite !andb_true_iff. repeat split.
  - apply textOk_spec. rewrite trim_escape_trim, escape_truthy. split; tauto.
  - apply textOk_spec. rewrite trim_escape_trim, escape_truthy. split; tauto.
  - exact Htags.
Qed.

(** X1.  Create, then fetch by id, through the routes.  After a POST with
    a valid payload whose escaped title and content still fit has stored a
    note under a fresh identifier, a GET by the identifier printed in the
    answer returns 200 with that note: its title and content are the
    submitted ones trimmed and then HTML-escaped (not as submitted), its
    tags the submitted tags trimmed, blank ones dropped, in order. *)
Theorem X1_create_then_get
  (textMatch : string -> Note.t -> bool) (textScore : string -> Note.t -> Z)
  (env env' : Env) (b : Body) (s : Mongoose.Store) :
  Observe.validCreate b = true ->
  Observe.escapedFits b = true ->
  (newId env < 2 ^ 96)%N ->
  Mongoose.findById (newId env) s = None ->
  exists d t c r e,
    title b = Some t /\ content b = Some c
    /\ App.handle textMatch textScore env (App.PostNote b) s = (s ++ [d], r)
    /\ status r = HTTP_STATUS.CREATED
    /\ Observe.dataObj r = Some e
    /\ Json.get "id" e = Some (JStr (ObjectId.toString (newId env)))
    /\ App.handle textMatch textScore env'
         (App.GetNoteById (ObjectId.toString (newId env))) (s ++ [d])
       = (s ++ [d],
          mkResponse HTTP_STATUS.OK
            [("success", JBool true); ("data", JObj (Note.lean d))])
    /\ Note.title d = JS.escape (JS.trim t)
    /\ Note.content d = JS.escape (JS.trim c)
    /\ Note.tags d = filter JS.truthy (map JS.trim (Mongoose.orElse (tags b) []))
    /\ Note.isArchived d = false.
Proof.
  intros Hv Hf Hid Hfresh.
  assert (Hp : Invariant.createPasses b = true).
  { rewrite createPasses_eq. unfold Observe.validCreate in Hv.
    apply andb_true_iff in Hv. apply Hv. }
  destruct (postNote_reaches textMatch textScore env b s Hp)
    as [t [c [Et [Ec [_ [_ Er]]]]]].
  pose proof (escaped_validCreate b t c Hv Hf Et Ec) as Hb'.
  destruct (createNote_valid env _ s Hb') as [t' [c' [Et' [Ec' E]]]].
  cbn [title content] in Et', Ec'. injection Et' as <-. injection Ec' as <-.
  cbv zeta in E. cbn [tags] in E. rewrite !trim_escape_trim in E.
  eexists. exists t, c. eexists. eexists.
  split; [exact Et|]. split; [exact Ec|].
  split; [unfold App.handle; rewrite Er, E; reflexivity|].
  split; [reflexivity|]. split; [reflexivity|]. split; [reflexivity|].
  split.
  - pose proof (cast_toString _ Hid) as Hcast.
    unfold App.handle.
    rewrite (proj2 (proj2 (idRoutes_reach_handler textMatch textScore env' _ _
                             (s ++ [_]) Hcast))).
    unfold Controller.getNoteById, Mongoose.findByIdParam. rewrite Hcast.
    rewrite (findById_app_new (newId env) s _ Hfresh) by reflexivity.
    reflexivity.
  - repeat split.
Qed.

Lemma X1_create_then_get_witness :
  exists d,
    App.handle Samples.textMatch Samples.textScore Samples.env0
      (App.GetNoteById (ObjectId.toString (newId Samples.env0)))
      (fst (App.handle Samples.textMatch Samples.textScore Samples.env0
              (App.PostNote
                 (mkBody (Some " Tom & Jerry ") (Some "Milk, eggs")
                    (Some [" a "; " "; "b"]) None))
              Samples.store0))
    = (Samples.store0 ++ [d],
       mkResponse HTTP_STATUS.OK
         [("success", JBool true); ("data", JObj (Note.lean d))])
    /\ Note.title d = "Tom &amp; Jerry" /\ Note.tags d = ["a"; "b"].
Proof.
  destruct (X1_create_then_get Samples.textMatch Samples.textScore
              Samples.env0 Samples.env0
              (mkBody (Some " Tom & Jerry ") (Some "Milk, eggs")
                 (Some [" a "; " "; "b"]) None)
              Samples.store0 eq_refl eq_refl eq_refl eq_refl)
    as [d [t [c [r [e [Et [Ec [H1 [_ [_ [_ [H2 [H3 [_ [H4 _]]]]]]]]]]]]]]].
  injection Et as <-. exists d. rewrite H1. cbn [fst].
  split; [exact H2|]. split; [exact H3 | exact H4].
Defined.

(** X11.  On create, the request validators decide on title and content
    alone: the request passes exactly when both are present, not empty
    after trimming, and at most 200 resp. 10000 characters long after
    trimming.  Tags and isArchived play no part.  A request that does not
    pass is answered 400 and leaves the store as it is. *)
Theorem X11_create_validation
  (textMatch : string -> Note.t -> bool) (textScore : string -> Note.t -> Z)
  (env : Env) (b : Body) (s : Mongoose.Store) :
  (Invariant.createPasses b = true
   <-> exists t c,
         title b = Some t /\ content b = Some c
         /\ JS.truthy (JS.trim t) = true /\ JS.length (JS.trim t) <= 200
         /\ JS.truthy (JS.trim c) = true /\ JS.length (JS.trim c) <= 10000)
  /\ Invariant.createPasses (mkBody (title b) (content b) None None)
     = Invariant.createPasses b
  /\ (Invariant.createPasses b = false ->
      fst (App.handle textMatch textScore env (App.PostNote b) s) = s
      /\ status (snd (App.handle textMatch textScore env (App.PostNote b) s)) = 400).
Proof.
  split; [|split].
  - rewrite createPasses_eq, !andb_true_iff. unfold Observe.provided. split.
    + intros [[[Hpt Ht] Hpc] Hc].
      destruct (title b) as [t|]; [|discriminate Hpt].
      destruct (content b) as [c|]; [|discriminate Hpc].
      apply textOk_spec in Ht. apply textOk_spec in Hc.
      exists t, c. unfold VALIDATION.TITLE_MAX_LENGTH,
        VALIDATION.CONTENT_MAX_LENGTH in *. tauto.
    + intros [t [c [-> [-> [H1 [H2 [H3 H4]]]]]]].
      repeat split; try reflexivity; apply textOk_spec; split; assumption.
  - rewrite !createPasses_eq. reflexivity.
  - intros Hp. unfold Invariant.createPasses in Hp. unfold App.handle, App.route.
    destruct (Validation.validateCreateNote (Validation.sanitizeRequestBody b))
      as [b' errors]. cbn [snd] in Hp.
    destruct (Validation.handleValidationErrors errors) as [r|] eqn:E;
      [|discriminate Hp].
    cbn [fst snd]. split; [reflexivity|]. apply (validation_status _ _ E).
Qed.

Lemma X11_create_validation_witness :
  status (snd (App.handle Samples.textMatch Samples.textScore Samples.env0
                 (App.PostNote (mkBody (Some "   ") (Some "body") None None))
                 Samples.store0))
  = 400.
Proof.
  apply (proj2 (proj2 (X11_create_validation Samples.textMatch Samples.textScore
                         Samples.env0
                         (mkBody (Some "   ") (Some "body") None None)
                         Samples.store0))).
  reflexivity.
Defined.

(** X12.  The number of tags is checked by the store only.  A create
    request whose title and content pass the request validators, but
    which carries more than 10 tags that are not blank, is answered 400 by
    the error handler, and nothing is stored.  The errors of the answer
    are those of the schema: the error of the tags validator is among
    them, always; it is the only one when the escaped title and content
    still fit, and otherwise there are at most two more, on title or
    content. *)
Theorem X12_too_many_tags
  (textMatch : string -> Note.t -> bool) (textScore : string -> Note.t -> Z)
  (env : Env) (b : Body) (s : Mongoose.Store) :
  Invariant.createPasses b = true ->
  (10 < List.length (Controller.cleanTags (Mongoose.orElse (tags b) [])))%nat ->
  let tagsError :=
    JObj [("field", JStr "tags");
          ("message", JStr "A note cannot have more than 10 tags");
          ("value",
           Json.strings (Controller.cleanTags (Mongoose.orElse (tags b) [])))] in
  exists errors,
    App.handle textMatch textScore env (App.PostNote b) s
    = (s, mkResponse HTTP_STATUS.BAD_REQUEST
            [("success", JBool false);
             ("message", JStr "Validation error occurred");
             ("errors", JArr errors)])
    /\ In tagsError errors
    /\ (List.length errors <= 3)%nat
    /\ (forall x, In x errors ->
          x = tagsError
          \/ Json.get "field" (match x with JObj o => o | _ => [] end)
             = Some (JStr "title")
          \/ Json.get "field" (match x with JObj o => o | _ => [] end)
             = Some (JStr "content"))
    /\ (Observe.escapedFits b = true -> errors = [tagsError]).
Proof.
  intros Hp Htags tagsError.
  destruct (postNote_reaches textMatch textScore env b s Hp)
    as [t [c [Et [Ec [Ht [Hc E]]]]]].
  unfold App.handle. rewrite E.
  unfold Controller.createNote, Mongoose.create.
  cbn [title content tags option_map Mongoose.nd_title Mongoose.nd_content
       Mongoose.nd_tags].
  rewrite ?trim_escape_trim.
  assert (Hg : Note.validateTags (Controller.cleanTags (Mongoose.orElse (tags b) []))
               = [mkFieldError "tags" "A note cannot have more than 10 tags"
                    (Some (Json.strings
                             (Controller.cleanTags (Mongoose.orElse (tags b) []))))]).
  { unfold Note.validateTags.
    destruct (Nat.leb_spec
                (List.length (Controller.cleanTags (Mongoose.orElse (tags b) []))) 10);
      [lia|reflexivity]. }
  rewrite Hg.
  set (vt := Note.validateTitle (Some (JS.escape (JS.trim t)))).
  set (vc := Note.validateContent (Some (JS.escape (JS.trim c)))).
  assert (Hvt : (List.length vt <= 1)%nat
                /\ forall x, In x vt -> fe_path x = "title").
  { subst vt. unfold Note.validateTitle.
    destruct (negb _); [cbn; split; [lia|intros x [<-|[]]; reflexivity]|].
    destruct (_ <? _); [cbn; split; [lia|intros x [<-|[]]; reflexivity]|].
    destruct (_ <? _); cbn; split; try lia; try (intros x [<-|[]]; reflexivity). }
  assert (Hvc : (List.length vc <= 1)%nat
                /\ forall x, In x vc -> fe_path x = "content").
  { subst vc. unfold Note.validateContent.
    destruct (negb _); [cbn; split; [lia|intros x [<-|[]]; reflexivity]|].
    destruct (_ <? _); [cbn; split; [lia|intros x [<-|[]]; reflexivity]|].
    destruct (_ <? _); cbn; split; try lia; try (intros x [<-|[]]; reflexivity). }
  destruct (vt ++ vc ++ [_])%list as [|fe errs] eqn:El.
  { apply app_eq_nil in El. destruct El as [_ El].
    apply app_eq_nil in El. destruct El as [_ El]. discriminate El. }
  rewrite <- El. clear El fe errs.
  eexists. split; [reflexivity|].
  split; [|split; [|split]].
  - rewrite !map_app. apply in_or_app. right. apply in_or_app. right.
    left. reflexivity.
  - rewrite length_map, !length_app. cbn [List.length]. lia.
  - intros x Hx. apply in_map_iff in Hx. destruct Hx as [fe [<- Hfe]].
    apply in_app_or in Hfe. destruct Hfe as [Hfe|Hfe].
    + right; left. cbn. rewrite (proj2 Hvt fe Hfe). reflexivity.
    + apply in_app_or in Hfe. destruct Hfe as [Hfe|[<-|[]]].
      * right; right. cbn. rewrite (proj2 Hvc fe Hfe). reflexivity.
      * left. reflexivity.
  - intros Hf.
    unfold Observe.escapedFits in Hf. rewrite Et, Ec, andb_true_iff, !Z.leb_le in Hf.
    destruct Hf as [Hft Hfc]. subst vt vc.
    rewrite validateTitle_ok by (rewrite ?escape_truthy; assumption).
    rewrite validateContent_ok by (rewrite ?escape_truthy; assumption).
    reflexivity.
Qed.

Lemma X12_too_many_tags_witness :
  status (snd (App.handle Samples.textMatch Samples.textScore Samples.env0
                 (App.PostNote
                    (mkBody (Some "a") (Some "b")
                       (Some ["1"; "2"; "3"; "4"; "5"; "6"; "7"; "8"; "9"; "10"; "11"])
                       None))
                 Samples.store0))
  = 400.
Proof.
  destruct (X12_too_many_tags Samples.textMatch Samples.textScore Samples.env0
              (mkBody (Some "a") (Some "b")
                 (Some ["1"; "2"; "3"; "4"; "5"; "6"; "7"; "8"; "9"; "10"; "11"])
                 None)
              Samples.store0 eq_refl ltac:(vm_compute; apply le_n))
    as [errors [E _]].
  rewrite E. reflexivity.
Defined.

Lemma putNote_reaches (textMatch : string -> Note.t -> bool)
  (textScore : string -> Note.t -> Z) (env : Env) (id : string) (b : Body)
  (s : Mongoose.Store) :
  Observe.updatePasses id b = true ->
  App.route textMatch textScore env (App.PutNote id b) s
  = Controller.updateNote env id
      (mkBody (option_map (fun t => JS.escape (JS.trim t)) (title b))
         (option_map (fun c => JS.escape (JS.trim c)) (content b))
         (tags b) (isArchived b)) s.
Proof.
  unfold Observe.updatePasses, App.route. intros H.
  destruct (Validation.validateUpdateNote id (Validation.sanitizeRequestBody b))
    as [b' errors] eqn:Ev. cbn [snd] in H.
  destruct (Validation.handleValidationErrors errors); [discriminate H|].
  f_equal.
  unfold Validation.validateUpdateNote, Validation.sanitizeRequestBody,
    Validation.titleChain, Validation.contentChain, Validation.textChain in Ev.
  cbn [title content tags isArchived] in Ev.
  destruct (title b) as [t|], (content b) as [c|]; cbn [option_map] in *;
    rewrite ?trim_idem in Ev; injection Ev as <- _; reflexivity.
Qed.

(** X13.  What a PUT stores.  When the request passes the validators, the
    id resolves, the escaped title and content still fit and at most 10
    tags remain, the answer is 200 and the stored title (content) is the
    submitted one trimmed and then HTML-escaped, not as submitted; tags are
    the cleaned ones; a field that is not provided keeps its value. *)
Theorem X13_put_stores_escaped
  (textMatch : string -> Note.t -> bool) (textScore : string -> Note.t -> Z)
  (env : Env) (id : string) (oid : ObjectId) (b : Body) (d : Note.t)
  (s : Mongoose.Store) :
  Observe.updatePasses id b = true ->
  Observe.escapedFits b = true ->
  (List.length (Controller.cleanTags (Mongoose.orElse (tags b) [])) <= 10)%nat ->
  ObjectId.cast id = Some oid ->
  Mongoose.findById oid s = Some d ->
  exists d',
    App.handle textMatch textScore env (App.PutNote id b) s
    = (Mongoose.replace d' s,
       mkResponse HTTP_STATUS.OK
         [("success", JBool true);
          ("message", JStr "Note updated successfully");
          ("data", JObj (Note.toJSON d'))])
    /\ Note.title d'
       = match title b with Some t => JS.escape (JS.trim t) | None => Note.title d end
    /\ Note.content d'
       = match content b with Some c => JS.escape (JS.trim c) | None => Note.content d end
    /\ Note.tags d'
       = match tags b with Some l => Controller.cleanTags l | None => Note.tags d end
    /\ Note.isArchived d' = Mongoose.orElse (isArchived b) (Note.isArchived d).
Proof.
  intros Hp Hf Htags Hcast Hfind.
  pose proof Hp as Hp'. rewrite updatePasses_eq, !andb_true_iff in Hp'.
  destruct Hp' as [[[_ Ht] Hc] _].
  unfold Observe.escapedFits in Hf. apply andb_true_iff in Hf.
  destruct Hf as [Hft Hfc].
  eexists. split.
  - unfold App.handle. rewrite (putNote_reaches _ _ _ _ _ _ Hp).
    unfold Controller.updateNote, Mongoose.findByIdAndUpdate, Mongoose.updateValidators,
      Controller.updateDataOf.
    rewrite Hcast. cbn [title content tags isArchived Mongoose.u_title
      Mongoose.u_content Mongoose.u_tags].
    assert (Vt : match option_map JS.trim
                         (option_map (fun t => JS.escape (JS.trim t)) (title b)) with
                 | Some t => Note.validateTitle (Some (JS.trim t))
                 | None => []
                 end = []).
    { destruct (title b) as [t|]; [|reflexivity]. cbn [option_map].
      apply textOk_spec in Ht. apply Z.leb_le in Hft.
      rewrite !trim_escape_trim. apply validateTitle_ok;
        [rewrite escape_truthy; tauto | exact Hft]. }
    assert (Vc : match option_map JS.trim
                         (option_map (fun c => JS.escape (JS.trim c)) (content b)) with
                 | Some c => Note.validateContent (Some (JS.trim c))
                 | None => []
                 end = []).
    { destruct (content b) as [c|]; [|reflexivity]. cbn [option_map].
      apply textOk_spec in Hc. apply Z.leb_le in Hfc.
      rewrite !trim_escape_trim. apply validateContent_ok;
        [rewrite escape_truthy; tauto | exact Hfc]. }
    assert (Vg : match option_map Controller.cleanTags (tags b) with
                 | Some l => Note.validateTags l
                 | None => []
                 end = []).
    { destruct (tags b) as [l|]; [|reflexivity]. cbn [option_map].
      apply validateTags_ok. exact Htags. }
    rewrite Vt, Vc, Vg. cbn [app]. rewrite Hfind. reflexivity.
  - unfold Mongoose.applyUpdate, Controller.updateDataOf.
    cbn [Note.title Note.content Note.tags Note.isArchived title content tags
         isArchived Mongoose.u_title Mongoose.u_content Mongoose.u_tags
         Mongoose.u_isArchived].
    destruct (title b), (content b), (tags b); cbn [option_map Mongoose.orElse];
      rewrite ?trim_escape_trim; repeat split.
Qed.

Lemma X13_put_stores_escaped_witness :
  exists d',
    fst (App.handle Samples.textMatch Samples.textScore Samples.env0
           (App.PutNote Samples.id1 (mkBody (Some " Tom & Jerry ") None None None))
           Samples.store0)
    = Mongoose.replace d' Samples.store0
    /\ Note.title d' = "Tom &amp; Jerry".
Proof.
  destruct (X13_put_stores_escaped Samples.textMatch Samples.textScore Samples.env0
              Samples.id1 1%N (mkBody (Some " Tom & Jerry ") None None None)
              Samples.groceries Samples.store0 eq_refl eq_refl
              ltac:(vm_compute; repeat constructor) eq_refl eq_refl)
    as [d' [E [Ht _]]].
  exists d'. split; [rewrite E; reflexivity | exact Ht].
Defined.

(** ** Escaping is not idempotent *)

Lemma escapeChar_cases (c : ascii) :
  (Invariant.isSpecial c = false /\ JS.escapeChar c = String c EmptyString)
  \/ (Invariant.isSpecial c = true
      /\ exists rest, JS.escapeChar c = String "&"%char rest
                      /\ (3 <= String.length rest)%nat).
Proof.
  unfold Invariant.isSpecial, JS.escapeChar.
  repeat match goal with
         | |- context [(nat_of_ascii c =? ?k)%nat] =>
             destruct (nat_of_ascii c =? k)%nat;
             [right; split; [reflexivity|]; eexists; split; [reflexivity|];
              cbn; lia|]
         end.
  left. split; reflexivity.
Qed.

Lemma escape_noSpecial (s : string) :
  Invariant.hasSpecial s = false -> JS.escape s = s.
Proof.
  induction s as [|c r IH]; [reflexivity|]. cbn.
  intros H. apply orb_false_iff in H. destruct H as [Hc Hr].
  destruct (escapeChar_cases c) as [[_ E]|[E _]]; [|congruence].
  rewrite E, (IH Hr). reflexivity.
Qed.

Lemma escape_length_ge (s : string) :
  (String.length s <= String.length (JS.escape s))%nat.
Proof.
  induction s as [|c r IH]; [apply Nat.le_refl|]. cbn. rewrite length_append.
  destruct (escapeChar_cases c) as [[_ E]|[_ [rest [E L]]]]; rewrite E; cbn; lia.
Qed.

Lemma escape_special (s : string) :
  Invariant.hasSpecial s = true ->
  Invariant.hasSpecial (JS.escape s) = true
  /\ (String.length s < String.length (JS.escape s))%nat.
Proof.
  induction s as [|c r IH]; [intros H; discriminate H|]. cbn [Invariant.hasSpecial JS.escape].
  intros H. rewrite length_append.
  pose proof (escape_length_ge r) as Hr.
  destruct (escapeChar_cases c) as [[Hc E]|[_ [rest [E L]]]]; rewrite E.
  - rewrite Hc in H. cbn in H. destruct (IH H) as [H1 H2].
    cbn. rewrite Hc, H1. split; [reflexivity|lia].
  - cbn. split; [reflexivity|lia].
Qed.

(** X14.  Escaping leaves a text without the characters & < > quote
    apostrophe slash backslash backquote as it is, and makes any other
    text strictly longer, each time it is applied: the escaped form of a
    text with such a character is escaped again into something longer
    still.  So a title that was stored through the validators and is sent
    back through them unchanged does not stay the same. *)
Theorem X14_escape_grows (s : string) :
  (Invariant.hasSpecial s = false -> JS.escape s = s)
  /\ (Invariant.hasSpecial s = true ->
      JS.length s < JS.length (JS.escape s)
      /\ JS.length (JS.escape s) < JS.length (JS.escape (JS.escape s))
      /\ JS.escape (JS.escape s) <> JS.escape s).
Proof.
  split; [apply escape_noSpecial|].
  intros H. destruct (escape_special s H) as [H1 H2].
  destruct (escape_special _ H1) as [_ H3].
  unfold JS.length. split; [lia|]. split; [lia|].
  intros E. rewrite E in H3. lia.
Qed.

Lemma X14_escape_grows_witness :
  JS.escape (JS.escape "Tom & Jerry") <> JS.escape "Tom & Jerry".
Proof.
  apply (proj2 (X14_escape_grows "Tom & Jerry")). reflexivity.
Defined.

(** ** The statics of the model *)

Lemma find_no_text (textMatch : string -> Note.t -> bool) (a : option bool)
  (s : Mongoose.Store) :
  Mongoose.find textMatch (Mongoose.mkFilter a None) s
  = Mongoose.find (fun _ _ => true) (Mongoose.mkFilter a None) s.
Proof. reflexivity. Qed.

Lemma filter_partition_perm {A : Type} (f : A -> bool) (l : list A) :
  Permutation (filter (fun x => negb (f x)) l ++ filter f l) l.
Proof.
  induction l as [|x l IH]; [apply perm_nil|]. cbn.
  destruct (f x); cbn.
  - apply Permutation_sym, Permutation_cons_app, Permutation_sym, IH.
  - apply perm_skip, IH.
Qed.

(** X15.  findActive and findArchived split the collection: together they
    hold every note exactly once; the first holds the notes that are not
    archived, the second the archived ones, each newest first.  The
    default list request (no parameters) returns the first 50 of
    findActive. *)
Theorem X15_statics_partition
  (textMatch : string -> Note.t -> bool) (s : Mongoose.Store) :
  Permutation (NoteStatics.findActive s ++ NoteStatics.findArchived s) s
  /\ Forall (fun d => Note.isArchived d = false) (NoteStatics.findActive s)
  /\ Forall (fun d => Note.isArchived d = true) (NoteStatics.findArchived s)
  /\ StronglySorted (fun a b => Note.createdAt b <= Note.createdAt a)
       (NoteStatics.findActive s)
  /\ StronglySorted (fun a b => Note.createdAt b <= Note.createdAt a)
       (NoteStatics.findArchived s)
  /\ Controller.listPage textMatch Controller.defaultListQuery s
     = firstn 50 (NoteStatics.findActive s).
Proof.
  unfold NoteStatics.findActive, NoteStatics.findArchived.
  assert (Hsorted : forall l,
            StronglySorted (fun a b => Note.createdAt b <= Note.createdAt a)
              (Mongoose.sort "createdAt" (-1) l)).
  { intros l. eapply StronglySorted_weaken; [|apply sort_sorted].
    intros a b. unfold Mongoose.docLeb. cbn. rewrite orb_true_iff, andb_true_iff.
    rewrite Z.ltb_lt, Z.eqb_eq. lia. }
  assert (Hall : forall a l,
            Forall (fun d => Note.isArchived d = a)
              (Mongoose.sort "createdAt" (-1)
                 (Mongoose.find (fun _ _ => true) (Mongoose.mkFilter (Some a) None) l))).
  { intros a l. apply Forall_forall. intros d Hd.
    apply (Permutation_in _ (sort_perm _ _ _)) in Hd.
    apply filter_In in Hd. destruct Hd as [_ Hm]. unfold Mongoose.matches in Hm.
    cbn in Hm. rewrite andb_true_r in Hm. apply Bool.eqb_prop, Hm. }
  split; [|split; [|split; [|split; [|split]]]]; try apply Hall; try apply Hsorted.
  - eapply perm_trans;
      [apply Permutation_app; apply sort_perm|].
    unfold Mongoose.find.
    eapply perm_trans; [|apply (filter_partition_perm Note.isArchived s)].
    apply Permutation_app; apply Permutation_refl'; apply filter_ext; intros d;
      unfold Mongoose.matches; cbn; rewrite andb_true_r;
      destruct (Note.isArchived d); reflexivity.
  - reflexivity.
Qed.

(** ** The retry loop of the client adapter, for any number of attempts *)

Lemma retryLoop_success {T : Type} (requestFn : nat -> Api.Attempt T)
  (attempts fuel i : nat) (v : T) :
  (i + fuel = attempts)%nat ->
  snd (Api.retryLoop requestFn attempts fuel i) = inr v
  <-> exists k,
        (i <= k < attempts)%nat /\ requestFn k = Api.Resolved v
        /\ forall j, (i <= j < k)%nat ->
                     exists e, requestFn j = Api.Rejected e
                               /\ Api.isClientError e = false.
Proof.
  revert i. induction fuel as [|fuel IH]; intros i Hsum; cbn [Api.retryLoop].
  - cbn. split; [intros H; discriminate H|]. intros [k [Hk _]]. lia.
  - destruct (requestFn i) as [v'|e] eqn:Ei.
    + cbn. split.
      * intros H. injection H as <-. exists i. split; [lia|]. split; [exact Ei|].
        intros j Hj. lia.
      * intros [k [Hk [Hres Hrej]]].
        destruct (Nat.eq_dec k i) as [->|Hne].
        -- rewrite Ei in Hres. congruence.
        -- destruct (Hrej i ltac:(lia)) as [e [He _]]. congruence.
    + destruct (Nat.eqb_spec i (attempts - 1)) as [Elast|Elast].
      * cbn. split; [intros H; discriminate H|]. intros [k [Hk [Hres _]]].
        assert (k = i) by lia. subst k. congruence.
      * destruct (Api.isClientError e) eqn:Ec.
        -- cbn. split; [intros H; discriminate H|]. intros [k [Hk [Hres Hrej]]].
           destruct (Nat.eq_dec k i) as [->|Hne]; [congruence|].
           destruct (Hrej i ltac:(lia)) as [e' [He' Hc']]. congruence.
        -- specialize (IH (S i) ltac:(lia)).
           destruct (Api.retryLoop requestFn attempts fuel (S i)) as [events r].
           cbn [snd] in *. rewrite IH. split.
           ++ intros [k [Hk [Hres Hrej]]]. exists k. split; [lia|].
              split; [exact Hres|]. intros j Hj.
              destruct (Nat.eq_dec j i) as [->|Hne]; [exists e; tauto|].
              apply Hrej. lia.
           ++ intros [k [Hk [Hres Hrej]]].
              destruct (Nat.eq_dec k i) as [->|Hne]; [congruence|].
              exists k. split; [lia|]. split; [exact Hres|].
              intros j Hj. apply Hrej. lia.
Qed.

(** X16.  retryRequest returns a value exactly when one of the first
    [attempts] calls resolves and every earlier call was rejected with
    something other than a 4xx response; the value is that of the first
    such call.  (A 4xx rejection, or a rejection of the last allowed call,
    ends the loop with that error.) *)
Theorem X16_retry_success_iff {T : Type} (requestFn : nat -> Api.Attempt T)
  (attempts : nat) (v : T) :
  snd (Api.retryRequest requestFn attempts) = inr v
  <-> exists k,
        (k < attempts)%nat /\ requestFn k = Api.Resolved v
        /\ forall j, (j < k)%nat ->
                     exists e, requestFn j = Api.Rejected e
                               /\ Api.isClientError e = false.
Proof.
  unfold Api.retryRequest. rewrite retryLoop_success by reflexivity.
  split; intros [k [Hk [Hres Hrej]]]; exists k; (split; [lia|]);
    (split; [exact Hres|]); intros j Hj; apply Hrej; lia.
Qed.

Lemma retryLoop_step {T : Type} (requestFn : nat -> Api.Attempt T)
  (attempts fuel i : nat) :
  Api.retryLoop requestFn attempts (S fuel) i
  = match requestFn i with
    | Api.Resolved v => ([Api.Sent i], inr v)
    | Api.Rejected e =>
        if (i =? attempts - 1)%nat then ([Api.Sent i], inl e)
        else if Api.isClientError e then ([Api.Sent i], inl e)
        else
          let '(events, r) := Api.retryLoop requestFn attempts fuel (S i) in
          (Api.Sent i
           :: Api.Waited (Client.API_CONFIG.RETRY_DELAY * 2 ^ Z.of_nat i) :: events,
           r)
    end.
Proof. reflexivity. Qed.

Lemma retryLoop_schedule {T : Type} (requestFn : nat -> Api.Attempt T)
  (attempts fuel i : nat) :
  (i + S fuel = attempts)%nat ->
  Invariant.schedule i (fst (Api.retryLoop requestFn attempts (S fuel) i)) = true
  /\ exists rest, fst (Api.retryLoop requestFn attempts (S fuel) i) = Api.Sent i :: rest.
Proof.
  revert i. induction fuel as [|fuel IH]; intros i Hsum; rewrite retryLoop_step.
  - destruct (requestFn i) as [v|e]; cbn; rewrite ?Nat.eqb_refl;
      [split; [reflexivity|eexists; reflexivity]|].
    destruct (Nat.eqb_spec i (attempts - 1)) as [_|Hne]; [|lia].
    cbn. rewrite Nat.eqb_refl. split; [reflexivity|eexists; reflexivity].
  - specialize (IH (S i) ltac:(lia)). destruct IH as [IH [rest Hrest]].
    destruct (Api.retryLoop requestFn attempts (S fuel) (S i)) as [events r].
    cbn [fst] in IH, Hrest. subst events.
    destruct (requestFn i) as [v|e]; cbn [fst Invariant.schedule];
      rewrite ?Nat.eqb_refl; [split; [reflexivity|eexists; reflexivity]|].
    destruct (Nat.eqb_spec i (attempts - 1)) as [Hlast|_]; [lia|].
    destruct (Api.isClientError e); cbn [fst Invariant.schedule];
      rewrite ?Nat.eqb_refl; [split; [reflexivity|eexists; reflexivity]|].
    split; [|eexists; reflexivity].
    rewrite Z.eqb_refl. cbn [andb].
    cbn [Invariant.schedule] in IH. rewrite ?Nat.eqb_refl in IH.
    destruct rest as [|[j|ms] rest']; cbn [andb] in *; try exact IH; reflexivity.
Qed.

(** X17.  The schedule of retryRequest.  The request function is called
    with the indices 0, 1, 2, ... in order, at most [attempts] times; the
    wait between call i and call i+1 lasts RETRY_DELAY * 2^i milliseconds,
    and there is no wait after the last call.  With no attempt allowed,
    nothing is sent and the error Max retry attempts reached is thrown. *)
Theorem X17_retry_schedule {T : Type} (requestFn : nat -> Api.Attempt T)
  (attempts : nat) :
  Invariant.schedule 0 (fst (Api.retryRequest requestFn attempts)) = true
  /\ (Api.sentCount (fst (Api.retryRequest requestFn attempts)) <= attempts)%nat
  /\ Api.retryRequest requestFn 0
     = ([], inl (Api.Thrown "Max retry attempts reached"))
  /\ (attempts <> 0%nat ->
      exists rest, fst (Api.retryRequest requestFn attempts) = Api.Sent 0 :: rest).
Proof.
  unfold Api.retryRequest. split; [|split; [|split]].
  - destruct attempts as [|n]; [reflexivity|].
    apply (retryLoop_schedule requestFn (S n) n 0). reflexivity.
  - apply retryLoop_sentCount.
  - reflexivity.
  - intros Hne. destruct attempts as [|n]; [contradiction|].
    apply (retryLoop_schedule requestFn (S n) n 0). reflexivity.
Qed.

Lemma X17_retry_schedule_witness :
  exists rest,
    fst (Api.retryRequest (Samples.flaky (Some (Samples.clientNote "n"))) 3)
    = Api.Sent 0 :: rest.
Proof.
  apply (proj2 (proj2 (proj2 (X17_retry_schedule
                                (Samples.flaky (Some (Samples.clientNote "n"))) 3)))).
  discriminate.
Defined.

(** ** Every call of the adapter goes through the retry loop *)

Lemma retryLoop_sent_ge {T : Type} (requestFn : nat -> Api.Attempt T)
  (attempts fuel i j : nat) :
  In (Api.Sent j) (fst (Api.retryLoop requestFn attempts fuel i)) -> (i <= j)%nat.
Proof.
  revert i. induction fuel as [|fuel IH]; intros i Hin; [contradiction Hin|].
  rewrite retryLoop_step in Hin.
  destruct (requestFn i) as [v|e].
  { destruct Hin as [H|[]]. injection H as <-. apply Nat.le_refl. }
  destruct (i =? attempts - 1)%nat.
  { destruct Hin as [H|[]]. injection H as <-. apply Nat.le_refl. }
  destruct (Api.isClientError e).
  { destruct Hin as [H|[]]. injection H as <-. apply Nat.le_refl. }
  specialize (IH (S i)).
  destruct (Api.retryLoop requestFn attempts fuel (S i)) as [events r].
  cbn [fst] in *. destruct Hin as [H|[H|H]].
  - injection H as <-. apply Nat.le_refl.
  - discriminate H.
  - specialize (IH H). lia.
Qed.

(** What follows a call of the request function, for every call the loop
    makes: nothing after a value or a 4xx rejection; after any other
    rejection, unless it was the last allowed call, the wait and the next
    call. *)
Lemma retryLoop_next {T : Type} (requestFn : nat -> Api.Attempt T)
  (attempts fuel i j : nat) :
  (i + fuel = attempts)%nat ->
  In (Api.Sent j) (fst (Api.retryLoop requestFn attempts fuel i)) ->
  (j < attempts)%nat
  /\ (forall v, requestFn j = Api.Resolved v ->
      forall k, In (Api.Sent k) (fst (Api.retryLoop requestFn attempts fuel i)) ->
                (k <= j)%nat)
  /\ (forall e, requestFn j = Api.Rejected e -> Api.isClientError e = true ->
      forall k, In (Api.Sent k) (fst (Api.retryLoop requestFn attempts fuel i)) ->
                (k <= j)%nat)
  /\ (forall e, requestFn j = Api.Rejected e -> Api.isClientError e = false ->
      (S j < attempts)%nat ->
      In (Api.Waited (Client.API_CONFIG.RETRY_DELAY * 2 ^ Z.of_nat j))
         (fst (Api.retryLoop requestFn attempts fuel i))
      /\ In (Api.Sent (S j)) (fst (Api.retryLoop requestFn attempts fuel i))).
Proof.
  revert i. induction fuel as [|fuel IH]; intros i Hsum Hin; [contradiction Hin|].
  pose proof (retryLoop_sent_ge requestFn attempts (S fuel) i) as Hge.
  rewrite retryLoop_step in *.
  assert (Hone : forall r : Api.Failure + T,
             In (Api.Sent j) (fst ([Api.Sent i], r)) -> j = i).
  { intros r [H|[]]. injection H as <-. reflexivity. }
  assert (Hlast : forall k, In (Api.Sent k) [Api.Sent i] -> (k <= i)%nat).
  { intros k [H|[]]. injection H as <-. apply Nat.le_refl. }
  destruct (requestFn i) as [v|e] eqn:Ei.
  { apply Hone in Hin. subst j. cbn [fst].
    split; [lia|]. split; [intros _ _; exact Hlast|].
    split; intros e He; congruence. }
  destruct (Nat.eqb_spec i (attempts - 1)) as [Elast|Elast].
  { apply Hone in Hin. subst j. cbn [fst].
    split; [lia|]. split; [intros _ _; exact Hlast|].
    split; [intros _ _ _; exact Hlast|]. intros; lia. }
  destruct (Api.isClientError e) eqn:Ec.
  { apply Hone in Hin. subst j. cbn [fst].
    split; [lia|]. split; [intros _ _; exact Hlast|].
    split; [intros _ _ _; exact Hlast|]. intros e' He' Hc'. congruence. }
  specialize (IH (S i) ltac:(lia)).
  pose proof (retryLoop_sent_ge requestFn attempts fuel (S i)) as Hge'.
  assert (Hhead : exists rest,
             fst (Api.retryLoop requestFn attempts fuel (S i)) = Api.Sent (S i) :: rest).
  { destruct fuel as [|fuel']; [lia|].
    apply (retryLoop_schedule requestFn attempts fuel' (S i)). lia. }
  destruct (Api.retryLoop requestFn attempts fuel (S i)) as [events r].
  cbn [fst] in *. destruct Hhead as [rest Hrest].
  destruct Hin as [H|[H|H]]; [|discriminate H|].
  - injection H as <-. split; [lia|].
    split; [intros v Hv; congruence|].
    split; [intros e' He' Hc'; congruence|].
    intros e' He' Hc' Hlt. split; [right; left; reflexivity|].
    right; right. rewrite Hrest. left. reflexivity.
  - destruct (IH H) as [Hlt [Hres [Hcli Hnext]]].
    pose proof (Hge' j H) as Hj.
    assert (Hlift : (forall k, In (Api.Sent k) events -> (k <= j)%nat) ->
                    forall k, In (Api.Sent k)
                                 (Api.Sent i
                                  :: Api.Waited
                                       (Client.API_CONFIG.RETRY_DELAY * 2 ^ Z.of_nat i)
                                  :: events) -> (k <= j)%nat).
    { intros Hk k [Hin|[Hin|Hin]];
        [injection Hin as <-; lia | discriminate Hin | apply Hk, Hin]. }
    split; [exact Hlt|].
    split; [intros v Hv; apply Hlift, (Hres v Hv)|].
    split; [intros e' He' Hc'; apply Hlift, (Hcli e' He' Hc')|].
    intros e' He' Hc' Hlt'. destruct (Hnext e' He' Hc' Hlt') as [Hw Hs].
    split; right; right; assumption.
Qed.

(** C4, as the code has it.  Every call of the adapter, read or mutation,
    goes through the same retry loop of at most three attempts, numbered
    0, 1, 2 in order.  A rejection that carries a 4xx response is never
    retried, on whichever attempt it arrives: no later request is sent.
    Any other rejection (no response at all, or a status outside 4xx) on
    attempt 0 or 1 is followed by a wait of 1000 * 2^i ms and by attempt
    i + 1; these are the only waits, and there is none after the last
    request. *)
Theorem C4_retry_all_operations (op : Api.Operation)
  (requestFn : nat -> Api.Attempt (Api.BackendResponse (Api.Payload op))) :
  (Api.sentCount (fst (Api.call op requestFn)) <= 3)%nat
  /\ Invariant.schedule 0 (fst (Api.call op requestFn)) = true
  /\ (forall i e,
        In (Api.Sent i) (fst (Api.call op requestFn)) ->
        requestFn i = Api.Rejected e -> Api.isClientError e = true ->
        forall k, In (Api.Sent k) (fst (Api.call op requestFn)) -> (k <= i)%nat)
  /\ (forall i e,
        In (Api.Sent i) (fst (Api.call op requestFn)) ->
        requestFn i = Api.Rejected e -> Api.isClientError e = false ->
        (i < 2)%nat ->
        In (Api.Waited (1000 * 2 ^ Z.of_nat i)) (fst (Api.call op requestFn))
        /\ In (Api.Sent (S i)) (fst (Api.call op requestFn)))
  /\ (forall e, requestFn 0%nat = Api.Rejected e -> Api.isClientError e = true ->
      fst (Api.call op requestFn) = [Api.Sent 0])
  /\ (requestFn 0%nat = Api.Rejected (Api.AxiosError None) ->
      exists rest,
        fst (Api.call op requestFn)
        = Api.Sent 0 :: Api.Waited 1000 :: Api.Sent 1 :: rest).
Proof.
  rewrite call_events. split; [|split; [|split; [|split; [|split]]]].
  - apply retryLoop_sentCount.
  - apply (retryLoop_schedule requestFn 3 2 0). reflexivity.
  - intros i e Hin He Hc.
    apply (proj1 (proj2 (proj2 (retryLoop_next requestFn 3 3 0 i eq_refl Hin)))
             e He Hc).
  - intros i e Hin He Hc Hi.
    apply (proj2 (proj2 (proj2 (retryLoop_next requestFn 3 3 0 i eq_refl Hin)))
             e He Hc).
    unfold Client.API_CONFIG.RETRY_ATTEMPTS. lia.
  - intros e He Hc. unfold Api.retryRequest. cbn. rewrite He. cbn.
    rewrite Hc. reflexivity.
  - intros He. unfold Api.retryRequest. cbn. rewrite He. cbn.
    destruct (requestFn 1%nat) as [v|e1]; cbn.
    + exists []. reflexivity.
    + destruct (Api.isClientError e1); cbn.
      * exists []. reflexivity.
      * destruct (requestFn 2%nat) as [v|e2]; cbn; eexists; reflexivity.
Qed.

(** A 404 on an update is sent once; a dropped delete is sent again. *)
Lemma C4_retry_all_operations_witness :
  fst (Api.call Api.UpdateNote (Samples.refuses 404)) = [Api.Sent 0]
  /\ exists rest,
       fst (Api.call Api.DeleteNote (Samples.flaky None))
       = Api.Sent 0 :: Api.Waited 1000 :: Api.Sent 1 :: rest.
Proof.
  split.
  - apply (proj1 (proj2 (proj2 (proj2 (proj2
             (C4_retry_all_operations Api.UpdateNote (Samples.refuses 404))))))
             _ eq_refl eq_refl).
  - apply (proj2 (proj2 (proj2 (proj2 (proj2
             (C4_retry_all_operations Api.DeleteNote (Samples.flaky None))))))
             eq_refl).
Defined.

(** C4, as stated, fails: createNote is a mutating call, its first request
    gets no response, and the request is sent a second time. *)
Lemma C4_mutation_retried :
  Api.isRead Api.CreateNote = false
  /\ fst (Api.createNote (Samples.flaky (Some (Samples.clientNote "n1"))))
     = [Api.Sent 0; Api.Waited 1000; Api.Sent 1]
  /\ Api.sentCount
       (fst (Api.createNote (Samples.flaky (Some (Samples.clientNote "n1")))))
     = 2%nat.
Proof. repeat split. Qed.

(** ** handleError and the calls that need an entity *)

Lemma firstTruthy_truthy (a : option string) (b : string) :
  JS.truthy b = true -> JS.truthy (Api.firstTruthy a b) = true.
Proof.
  intros Hb. unfold Api.firstTruthy. destruct a as [s|]; [|exact Hb].
  destruct (JS.truthy s) eqn:E; [exact E | exact Hb].
Qed.

(** X18.  The error the adapter throws for an AxiosError.  Without a
    response: the network message, code NETWORK_ERROR, status 0.  With a
    response: status and code follow the response's status, the details
    are its errors, and the message is the first of these that is not
    empty: the backend's message; else the message of the first
    validation error; else the text chosen by the status (400, 401, 404,
    any other).  It is never empty. *)
Theorem X18_handleError (response : option (Z * Api.BackendResponse unit)) :
  JS.truthy (Client.message (Api.handleError (Api.AxiosError response))) = true
  /\ (response = None ->
      Api.handleError (Api.AxiosError response)
      = Client.mkApiError "Network error. Please check your connection."
          "NETWORK_ERROR" 0 [])
  /\ (forall st data, response = Some (st, data) ->
      let apiError := Api.handleError (Api.AxiosError response) in
      let noBackendMessage :=
        forall m, Api.br_message data = Some m -> JS.truthy m = false in
      let noFirstError :=
        forall e rest, Api.br_errors data = Some (e :: rest) ->
                       JS.truthy (Client.ed_message e) = false in
      Client.status apiError = st
      /\ Client.code apiError = Api.getErrorCode st
      /\ Client.details apiError = Mongoose.orElse (Api.br_errors data) []
      /\ (forall m, Api.br_message data = Some m -> JS.truthy m = true ->
          Client.message apiError = m)
      /\ (noBackendMessage ->
          forall e rest, Api.br_errors data = Some (e :: rest) ->
                         JS.truthy (Client.ed_message e) = true ->
                         Client.message apiError = Client.ed_message e)
      /\ (noBackendMessage -> noFirstError ->
          Client.message apiError
          = if st =? 400 then "Please check your input and try again."
            else if st =? 401 then "You are not authorized to perform this action."
            else if st =? 404 then "The requested item was not found."
            else "Server error. Please try again later.")).
Proof.
  split; [|split].
  - destruct response as [[st data]|]; [|reflexivity].
    unfold Api.handleError. cbn [Client.message].
    repeat apply firstTruthy_truthy. reflexivity.
  - intros ->. reflexivity.
  - intros st data ->. cbv zeta.
    unfold Api.handleError.
    cbn [Client.status Client.code Client.details Client.message].
    do 3 (split; [reflexivity|]).
    assert (Hs : Api.firstTruthy (Some (Api.getStatusMessage st))
                   Client.ERROR_MESSAGES.SERVER_ERROR
                 = if st =? 400 then "Please check your input and try again."
                   else if st =? 401
                        then "You are not authorized to perform this action."
                        else if st =? 404 then "The requested item was not found."
                             else "Server error. Please try again later.").
    { unfold Api.getStatusMessage.
      destruct (st =? 400); [reflexivity|].
      destruct (st =? 401); [reflexivity|].
      destruct (st =? 404); reflexivity. }
    assert (Hnb : (forall m, Api.br_message data = Some m -> JS.truthy m = false) ->
                  forall x, Api.firstTruthy (Api.br_message data) x = x).
    { intros Hno x. unfold Api.firstTruthy.
      destruct (Api.br_message data) as [m|]; [|reflexivity].
      rewrite (Hno m eq_refl). reflexivity. }
    split; [|split].
    + intros m Hm Ht. rewrite Hm. cbn. rewrite Ht. reflexivity.
    + intros Hno e rest He Ht. rewrite (Hnb Hno), He. cbn. rewrite Ht. reflexivity.
    + intros Hno Hne. rewrite (Hnb Hno), Hs.
      destruct (Api.br_errors data) as [[|e rest]|]; cbn [Api.firstTruthy];
        try reflexivity.
      rewrite (Hne e rest eq_refl). reflexivity.
Qed.

Lemma X18_handleError_witness :
  Api.handleError (Api.AxiosError None)
  = Client.mkApiError "Network error. Please check your connection."
      "NETWORK_ERROR" 0 [].
Proof.
  apply (proj1 (proj2 (X18_handleError None))). reflexivity.
Defined.



(** ** The hook's cache under the four mutations *)

Lemma rethrow_truthy (apiError : Client.ApiError) (fallback : string) :
  JS.truthy fallback = true ->
  JS.truthy (UseNotes.rethrow apiError fallback) = true.
Proof.
  intros H. unfold UseNotes.rethrow.
  destruct (JS.truthy (Client.message apiError)) eqn:E; [exact E | exact H].
Qed.

(** X20.  A failed call leaves the cache alone.  Whenever the adapter's
    create, update, delete or toggle-archive call fails, for whatever
    reason, the hook's notes and pagination are what they were, and the
    Error thrown to the caller has a message that is not empty. *)
Theorem X20_failure_leaves_cache
  (entityFn : nat -> Api.Attempt (Api.BackendResponse Client.Note))
  (deleteFn : nat -> Api.Attempt (Api.BackendResponse unit))
  (noteId : string) (st : UseNotes.State) :
  (forall a, snd (Api.createNote entityFn) = inl a ->
     exists m, UseNotes.createNote entityFn st = (st, inl m) /\ JS.truthy m = true)
  /\ (forall a, snd (Api.updateNote entityFn) = inl a ->
     exists m, UseNotes.updateNote entityFn noteId st = (st, inl m)
               /\ JS.truthy m = true)
  /\ (forall a, snd (Api.toggleArchiveNote entityFn) = inl a ->
     exists m, UseNotes.archiveNote entityFn noteId st = (st, inl m)
               /\ JS.truthy m = true)
  /\ (forall a, snd (Api.deleteNote deleteFn) = inl a ->
     exists m, UseNotes.deleteNote deleteFn noteId st = (st, inl m)
               /\ JS.truthy m = true).
Proof.
  unfold UseNotes.createNote, UseNotes.updateNote, UseNotes.archiveNote,
    UseNotes.deleteNote.
  repeat split; intros a Ha; rewrite Ha; eexists;
    (split; [reflexivity | apply rethrow_truthy; reflexivity]).
Qed.

Lemma X20_failure_leaves_cache_witness :
  exists m,
    UseNotes.deleteNote (Samples.refuses 404) "a"
      (UseNotes.mkState [Samples.clientNote "a"]
         (Client.mkPagination 1 1 1 false false 20))
    = (UseNotes.mkState [Samples.clientNote "a"]
         (Client.mkPagination 1 1 1 false false 20), inl m)
    /\ JS.truthy m = true.
Proof.
  apply (proj2 (proj2 (proj2 (X20_failure_leaves_cache (Samples.refuses 404)
                                (Samples.refuses 404) "a"
                                (UseNotes.mkState [Samples.clientNote "a"]
                                   (Client.mkPagination 1 1 1 false false 20)))))
           (Api.handleError
              (Api.AxiosError
                 (Some (404, Api.mkBackendResponse false None None None None))))).
  reflexivity.
Defined.

Lemma replaceById_nth (noteId : string) (u : Client.Note) (l : list Client.Note)
  (k : nat) :
  nth_error (UseNotes.replaceById noteId u l) k
  = option_map (fun n => if String.eqb (Client.id n) noteId then u else n)
      (nth_error l k).
Proof. unfold UseNotes.replaceById. apply nth_error_map. Qed.

Lemma replaceById_ids (noteId : string) (u : Client.Note) (l : list Client.Note) :
  Client.id u = noteId ->
  map Client.id (UseNotes.replaceById noteId u l) = map Client.id l.
Proof.
  intros Hu. unfold UseNotes.replaceById. rewrite map_map. apply map_ext.
  intros n. destruct (String.eqb_spec (Client.id n) noteId) as [E|_];
    [congruence | reflexivity].
Qed.

(** X21.  A confirmed update or toggle-archive replaces the cached entries
    with the given id by the note the server returned, in place: the list
    keeps its length and every other entry its position and value, and
    the pagination (totalCount included) is untouched.  If the returned
    note has the id that was asked for, the sequence of ids in the cache
    is unchanged. *)
Theorem X21_update_in_place
  (entityFn : nat -> Api.Attempt (Api.BackendResponse Client.Note))
  (noteId : string) (st : UseNotes.State) (u : Client.Note) :
  snd (Api.updateNote entityFn) = inr u ->
  let st' := fst (UseNotes.updateNote entityFn noteId st) in
  UseNotes.archiveNote entityFn noteId st = UseNotes.updateNote entityFn noteId st
  /\ snd (UseNotes.updateNote entityFn noteId st) = inr u
  /\ UseNotes.pagination st' = UseNotes.pagination st
  /\ List.length (UseNotes.notes st') = List.length (UseNotes.notes st)
  /\ (forall k,
        nth_error (UseNotes.notes st') k
        = option_map (fun n => if String.eqb (Client.id n) noteId then u else n)
            (nth_error (UseNotes.notes st) k))
  /\ (Client.id u = noteId ->
      map Client.id (UseNotes.notes st') = map Client.id (UseNotes.notes st)).
Proof.
  intros Hu st'. subst st'. unfold UseNotes.archiveNote, UseNotes.updateNote.
  change (Api.toggleArchiveNote entityFn) with (Api.updateNote entityFn).
  rewrite Hu. cbn [fst snd UseNotes.notes UseNotes.pagination].
  split; [reflexivity|]. split; [reflexivity|]. split; [reflexivity|].
  split; [apply length_map|]. split; [apply replaceById_nth | apply replaceById_ids].
Qed.

Lemma X21_update_in_place_witness :
  map Client.id
    (UseNotes.notes
       (fst (UseNotes.updateNote (Samples.confirms (Some (Samples.clientNote "b"))) "b"
               (UseNotes.mkState
                  [Samples.clientNote "a"; Samples.clientNote "b"]
                  (Client.mkPagination 1 1 2 false false 20)))))
  = ["a"; "b"].
Proof.
  apply (X21_update_in_place (Samples.confirms (Some (Samples.clientNote "b"))) "b"
           (UseNotes.mkState [Samples.clientNote "a"; Samples.clientNote "b"]
              (Client.mkPagination 1 1 2 false false 20))
           (Samples.clientNote "b") eq_refl).
  reflexivity.
Defined.

(** X22.  Create, then delete.  A confirmed create puts the new note in
    front and raises totalCount by one; if no cached note had the new
    note's id, a confirmed delete of that id afterwards gives back exactly
    the state before the create. *)
Theorem X22_create_then_delete
  (createFn : nat -> Api.Attempt (Api.BackendResponse Client.Note))
  (deleteFn : nat -> Api.Attempt (Api.BackendResponse unit))
  (st : UseNotes.State) (n : Client.Note) :
  snd (Api.createNote createFn) = inr n ->
  snd (Api.deleteNote deleteFn) = inr tt ->
  (forall m, In m (UseNotes.notes st) -> Client.id m <> Client.id n) ->
  let st1 := fst (UseNotes.createNote createFn st) in
  UseNotes.notes st1 = n :: UseNotes.notes st
  /\ Client.totalCount (UseNotes.pagination st1)
     = Client.totalCount (UseNotes.pagination st) + 1
  /\ fst (UseNotes.deleteNote deleteFn (Client.id n) st1) = st.
Proof.
  intros Hc Hd Hfresh st1. subst st1.
  unfold UseNotes.createNote, UseNotes.deleteNote. rewrite Hc, Hd.
  cbn [fst UseNotes.notes UseNotes.pagination].
  split; [reflexivity|]. split; [reflexivity|].
  destruct st as [notes [cp tp tc hn hp lim]].
  cbn [UseNotes.notes UseNotes.pagination] in *.
  unfold UseNotes.withTotalCount. cbn. rewrite String.eqb_refl. cbn.
  fold (UseNotes.removeById (Client.id n) notes).
  rewrite (removeById_absent _ _ Hfresh). repeat f_equal. lia.
Qed.

Lemma X22_create_then_delete_witness :
  fst (UseNotes.deleteNote (Samples.confirms None) "n"
         (fst (UseNotes.createNote (Samples.confirms (Some (Samples.clientNote "n")))
                 UseNotes.initialState)))
  = UseNotes.initialState.
Proof.
  apply (X22_create_then_delete (Samples.confirms (Some (Samples.clientNote "n")))
           (Samples.confirms None) UseNotes.initialState (Samples.clientNote "n")
           eq_refl eq_refl).
  intros m [].
Defined.

(** ** Paging and fetching in the hook *)

(** X23.  Paging stays within the pages the server reported.  When the
    cached pagination obeys the server's law (hasNextPage is currentPage <
    totalPages, hasPrevPage is currentPage > 1), nextPage sets the page
    filter to currentPage + 1, which is at most totalPages, whenever there
    is a next page, and does nothing on the last page; previousPage sets
    it to currentPage - 1, which is at least 1, whenever there is a
    previous page, and does nothing on the first page.  Neither touches
    the cached notes, the loading state, the error or any filter but the
    page. *)
Theorem X23_paging_in_range (v : UseNotesView.View) :
  let p := UseNotes.pagination (UseNotesView.data v) in
  let f := UseNotesView.filters v in
  let withPage n :=
    UseNotesView.mkView (UseNotesView.data v)
      (UseNotesView.mkNoteFilters (Some n) (UseNotesView.limit f)
         (UseNotesView.search f) (UseNotesView.sortBy f) (UseNotesView.sortOrder f)
         (UseNotesView.archived f) (UseNotesView.tags f))
      (UseNotesView.loadingState v) (UseNotesView.error v)
      (UseNotesView.isRefreshing v) in
  Client.hasNextPage p = (Client.currentPage p <? Client.totalPages p) ->
  Client.hasPrevPage p = (1 <? Client.currentPage p) ->
  (Client.currentPage p < Client.totalPages p ->
   UseNotesView.nextPage v = withPage (Client.currentPage p + 1)
   /\ Client.currentPage p + 1 <= Client.totalPages p)
  /\ (Client.totalPages p <= Client.currentPage p -> UseNotesView.nextPage v = v)
  /\ (1 < Client.currentPage p ->
      UseNotesView.previousPage v = withPage (Client.currentPage p - 1)
      /\ 1 <= Client.currentPage p - 1)
  /\ (Client.currentPage p <= 1 -> UseNotesView.previousPage v = v).
Proof.
  intros p f withPage Hn Hp. unfold UseNotesView.nextPage, UseNotesView.previousPage.
  fold p. rewrite Hn, Hp.
  destruct (Z.ltb_spec (Client.currentPage p) (Client.totalPages p));
    destruct (Z.ltb_spec 1 (Client.currentPage p));
    repeat split; try (intros; lia); try reflexivity.
Qed.

Lemma X23_paging_in_range_witness :
  UseNotesView.page
    (UseNotesView.filters
       (UseNotesView.nextPage
          (UseNotesView.mkView
             (UseNotes.mkState [] (Client.mkPagination 2 5 47 true true 10))
             UseNotesView.noFilters UseNotesView.Success None false)))
  = Some 3.
Proof.
  rewrite (proj1 (proj1 (X23_paging_in_range
                           (UseNotesView.mkView
                              (UseNotes.mkState []
                                 (Client.mkPagination 2 5 47 true true 10))
                              UseNotesView.noFilters UseNotesView.Success None false)
                           eq_refl eq_refl) ltac:(cbn; lia))).
  reflexivity.
Defined.

(** X24.  A failed fetch keeps the list that is on screen: notes,
    pagination and filters are those from before, the loading state is
    error and the error text is not empty.  A failed refresh does the
    same without touching the loading state and always resets
    isRefreshing.  Once the hook's first effect has run (its dependencies
    include the error itself), the error text is gone again while the
    loading state still says error. *)
Theorem X24_fetch_failure
  (requestFn : nat -> Api.Attempt (Api.BackendResponse (list Client.Note)))
  (v : UseNotesView.View) (a : Client.ApiError) :
  snd (Api.getNotes requestFn) = inl a ->
  let v1 := UseNotesView.fetchNotes requestFn v in
  let v2 := UseNotesView.settle false (UseNotesView.fetchStart v) v1 in
  let w := UseNotesView.refreshNotes requestFn v in
  UseNotesView.data v1 = UseNotesView.data v
  /\ UseNotesView.filters v1 = UseNotesView.filters v
  /\ UseNotesView.hasError v1 = true
  /\ (exists m, UseNotesView.error v1 = Some m /\ JS.truthy m = true)
  /\ UseNotesView.data w = UseNotesView.data v
  /\ UseNotesView.loadingState w = UseNotesView.loadingState v
  /\ UseNotesView.isRefreshing w = false
  /\ (exists m, UseNotesView.error w = Some m /\ JS.truthy m = true)
  /\ UseNotesView.error v2 = None
  /\ UseNotesView.hasError v2 = true
  /\ UseNotesView.data v2 = UseNotesView.data v.
Proof.
  intros Ha v1 v2 w. subst v1 v2 w.
  unfold UseNotesView.fetchNotes, UseNotesView.refreshNotes. rewrite Ha.
  assert (Ht : JS.truthy (UseNotesView.fetchMessage a) = true)
    by (apply rethrow_truthy; reflexivity).
  cbn [UseNotesView.data UseNotesView.filters UseNotesView.loadingState
       UseNotesView.error UseNotesView.isRefreshing UseNotesView.fetchStart
       UseNotesView.hasError].
  do 3 (split; [reflexivity|]).
  split; [eexists; split; [reflexivity | exact Ht]|].
  do 3 (split; [reflexivity|]).
  split; [eexists; split; [reflexivity | exact Ht]|].
  unfold UseNotesView.settle, UseNotesView.commit, UseNotesView.clearErrorEffect.
  cbn [UseNotesView.error UseNotesView.sameText orb negb]. rewrite Ht.
  cbn. repeat split.
Qed.

Lemma X24_fetch_failure_witness :
  UseNotesView.error
    (UseNotesView.settle false
       (UseNotesView.fetchStart (UseNotesView.initialView UseNotesView.noFilters))
       (UseNotesView.fetchNotes (Samples.refuses 500)
          (UseNotesView.initialView UseNotesView.noFilters)))
  = None.
Proof.
  apply (X24_fetch_failure (Samples.refuses 500)
           (UseNotesView.initialView UseNotesView.noFilters)
           (Api.handleError
              (Api.AxiosError
                 (Some (500, Api.mkBackendResponse false None None None None))))).
  reflexivity.
Defined.

(** ** The form of the application component (App.tsx) *)

(** The first request of a call of the adapter always goes out. *)
Lemma entityCall_sends {T : Type} (missing : string)
  (requestFn : nat -> Api.Attempt (Api.BackendResponse T)) :
  exists rest, fst (Api.entityCall missing requestFn) = Api.Sent 0 :: rest.
Proof.
  unfold Api.entityCall.
  destruct (retryLoop_schedule requestFn Client.API_CONFIG.RETRY_ATTEMPTS 2 0 eq_refl)
    as [_ [rest Hrest]].
  change (Api.retryLoop requestFn Client.API_CONFIG.RETRY_ATTEMPTS 3 0)
    with (Api.retryRequest requestFn Client.API_CONFIG.RETRY_ATTEMPTS) in Hrest.
  destruct (Api.retryRequest requestFn Client.API_CONFIG.RETRY_ATTEMPTS) as [ev r].
  cbn [fst] in Hrest. subst ev.
  destruct r as [e|resp]; [eexists; reflexivity|].
  destruct (Api.br_data resp); eexists; reflexivity.
Qed.

(** X25.  Submitting the form.  With a title or a content that is blank
    after trimming, nothing is sent, the cache is untouched and the form
    only gains the error text Title is required (also when it is the
    content that is blank).  Otherwise a request goes out: an update of
    the note being edited when there is one, a create when there is none.
    When the call succeeds, the form is reset to empty with no error and
    the cache takes the returned note (in front for a create, in place for
    an update); when it fails, the form keeps title, content and editing
    id, shows the non-empty error of the call, and the cache is unchanged.
    Either way isSubmitting ends false. *)
Theorem X25_handleSubmit
  (requestFn : nat -> Api.Attempt (Api.BackendResponse Client.Note))
  (f : NotesApp.Form) (st : UseNotes.State) :
  (JS.truthy (JS.trim (NotesApp.title f)) = false
   \/ JS.truthy (JS.trim (NotesApp.content f)) = false ->
   NotesApp.handleSubmit requestFn f st
   = (NotesApp.mkForm (NotesApp.title f) (NotesApp.content f) (NotesApp.editingId f)
        (Some "Title is required") (NotesApp.isSubmitting f), st, []))
  /\ (JS.truthy (JS.trim (NotesApp.title f)) = true ->
      JS.truthy (JS.trim (NotesApp.content f)) = true ->
      let call :=
        match NotesApp.editingTarget f with
        | Some _ => Api.updateNote requestFn
        | None => Api.createNote requestFn
        end in
      (exists rest, snd (NotesApp.handleSubmit requestFn f st) = Api.Sent 0 :: rest)
      /\ snd (NotesApp.handleSubmit requestFn f st) = fst call
      /\ (forall n, snd call = inr n ->
            fst (NotesApp.handleSubmit requestFn f st)
            = (NotesApp.emptyForm,
               UseNotes.mkState
                 (match NotesApp.editingTarget f with
                  | Some i => UseNotes.replaceById i n (UseNotes.notes st)
                  | None => n :: UseNotes.notes st
                  end)
                 (match NotesApp.editingTarget f with
                  | Some _ => UseNotes.pagination st
                  | None =>
                      UseNotes.withTotalCount
                        (Client.totalCount (UseNotes.pagination st) + 1)
                        (UseNotes.pagination st)
                  end)))
      /\ (forall a, snd call = inl a ->
            exists m,
              JS.truthy m = true
              /\ fst (NotesApp.handleSubmit requestFn f st)
                 = (NotesApp.mkForm (NotesApp.title f) (NotesApp.content f)
                      (NotesApp.editingId f) (Some m) false, st))).
Proof.
  unfold NotesApp.handleSubmit. split.
  - intros [H|H]; rewrite H; cbn [negb orb]; rewrite ?orb_true_r; reflexivity.
  - intros Ht Hc. rewrite Ht, Hc. cbn [negb orb]. cbv zeta.
    destruct (NotesApp.editingTarget f) as [i|].
    + unfold UseNotes.updateNote.
      destruct (entityCall_sends Client.ERROR_MESSAGES.UPDATE_NOTE_ERROR requestFn)
        as [rest Hrest].
      change (@Api.entityCall Client.Note Client.ERROR_MESSAGES.UPDATE_NOTE_ERROR
                requestFn)
        with (Api.updateNote requestFn) in Hrest.
      destruct (snd (Api.updateNote requestFn)) as [a|u]; cbn [fst snd].
      * split; [exists rest; exact Hrest|]. split; [reflexivity|].
        split; [intros n H; discriminate H|].
        intros a' _. eexists. split; [|reflexivity].
        apply rethrow_truthy. reflexivity.
      * split; [exists rest; exact Hrest|]. split; [reflexivity|].
        split; [|intros a H; discriminate H].
        intros n H. injection H as <-. reflexivity.
    + unfold UseNotes.createNote.
      destruct (entityCall_sends Client.ERROR_MESSAGES.CREATE_NOTE_ERROR requestFn)
        as [rest Hrest].
      change (@Api.entityCall Client.Note Client.ERROR_MESSAGES.CREATE_NOTE_ERROR
                requestFn)
        with (Api.createNote requestFn) in Hrest.
      destruct (snd (Api.createNote requestFn)) as [a|u]; cbn [fst snd].
      * split; [exists rest; exact Hrest|]. split; [reflexivity|].
        split; [intros n H; discriminate H|].
        intros a' _. eexists. split; [|reflexivity].
        apply rethrow_truthy. reflexivity.
      * split; [exists rest; exact Hrest|]. split; [reflexivity|].
        split; [|intros a H; discriminate H].
        intros n H. injection H as <-. reflexivity.
Qed.

(** A create that the server confirms, and one that it refuses. *)
Lemma X25_handleSubmit_witness :
  fst (NotesApp.handleSubmit (Samples.confirms (Some (Samples.clientNote "n")))
         (NotesApp.mkForm " Milk " "2 l" None None false) UseNotes.initialState)
  = (NotesApp.emptyForm,
     UseNotes.mkState [Samples.clientNote "n"]
       (Client.mkPagination 1 1 1 false false 20))
  /\ exists m,
       JS.truthy m = true
       /\ fst (NotesApp.handleSubmit (Samples.refuses 500)
                 (NotesApp.mkForm " Milk " "2 l" None None false)
                 UseNotes.initialState)
          = (NotesApp.mkForm " Milk " "2 l" None (Some m) false,
             UseNotes.initialState).
Proof.
  split.
  - apply (proj1 (proj2 (proj2 (proj2
             (X25_handleSubmit (Samples.confirms (Some (Samples.clientNote "n")))
                (NotesApp.mkForm " Milk " "2 l" None None false)
                UseNotes.initialState) eq_refl eq_refl)))
             (Samples.clientNote "n") eq_refl).
  - apply (proj2 (proj2 (proj2 (proj2
             (X25_handleSubmit (Samples.refuses 500)
                (NotesApp.mkForm " Milk " "2 l" None None false)
                UseNotes.initialState) eq_refl eq_refl)))
             (Api.handleError
                (Api.AxiosError
                   (Some (500, Api.mkBackendResponse false None None None None))))
             eq_refl).
Defined.

(** ** The form validators and truncateText (utils/index.ts) *)

Lemma utils_validateTitle_None (t : string) :
  Utils.validateTitle t = None
  <-> Observe.textOk VALIDATION.TITLE_MAX_LENGTH (Some t) = true.
Proof.
  rewrite textOk_spec. unfold Utils.validateTitle, Utils.MAX_TITLE_LENGTH,
    VALIDATION.TITLE_MAX_LENGTH.
  destruct (JS.truthy (JS.trim t)) eqn:Et; cbn [negb].
  - pose proof (proj1 (truthy_length _) Et) as Hl.
    destruct (Z.ltb_spec (JS.length (JS.trim t)) 1); [lia|].
    destruct (Z.ltb_spec 200 (JS.length (JS.trim t))); split; intros H';
      try discriminate H'; try reflexivity; try (split; [reflexivity|lia]).
    destruct H'; lia.
  - split; [intros H; discriminate H | intros [H _]; discriminate H].
Qed.

Lemma utils_validateContent_None (c : string) :
  Utils.validateContent c = None
  <-> Observe.textOk VALIDATION.CONTENT_MAX_LENGTH (Some c) = true.
Proof.
  rewrite textOk_spec. unfold Utils.validateContent, Utils.MAX_CONTENT_LENGTH,
    VALIDATION.CONTENT_MAX_LENGTH.
  destruct (JS.truthy (JS.trim c)) eqn:Et; cbn [negb].
  - pose proof (proj1 (truthy_length _) Et) as Hl.
    destruct (Z.ltb_spec (JS.length (JS.trim c)) 1); [lia|].
    destruct (Z.ltb_spec 10000 (JS.length (JS.trim c))); split; intros H';
      try discriminate H'; try reflexivity; try (split; [reflexivity|lia]).
    destruct H'; lia.
  - split; [intros H; discriminate H | intros [H _]; discriminate H].
Qed.

(** X26.  The form validators of the client and the request validators of
    the server agree: validateNoteData reports no error for a title and a
    content exactly when the POST route lets a body with that title and
    content through to the handler, whatever its tags and isArchived.  The
    client's minimum-length message is never produced: an empty text is
    already reported as required.  Texts are sequences of single-unit
    characters here, for which the length the client reads off the string
    and the length the server's isLength counts are the same number. *)
Theorem X26_client_server_validation_agree
  (t c : string) (tags : option (list string)) (archived : option bool) :
  (Utils.validateNoteData t c = []
   <-> Invariant.createPasses (mkBody (Some t) (Some c) tags archived) = true)
  /\ (forall e, Utils.validateTitle t = Some e ->
        Utils.field e = "title"
        /\ (Utils.message e = "Title is required"
            \/ Utils.message e = "Title cannot exceed 200 characters"))
  /\ (forall e, Utils.validateContent c = Some e ->
        Utils.field e = "content"
        /\ (Utils.message e = "Content is required"
            \/ Utils.message e = "Content cannot exceed 10000 characters")).
Proof.
  split; [|split].
  - rewrite createPasses_eq. cbn [title content Observe.provided andb].
    rewrite ?andb_true_r, andb_true_iff.
    rewrite <- utils_validateTitle_None, <- utils_validateContent_None.
    unfold Utils.validateNoteData.
    destruct (Utils.validateTitle t), (Utils.validateContent c); cbn;
      split; intros H; try discriminate H; try reflexivity;
      try (split; reflexivity); destruct H as [H1 H2];
      try discriminate H1; try discriminate H2.
  - intros e. unfold Utils.validateTitle.
    destruct (JS.truthy (JS.trim t)) eqn:Et; cbn [negb].
    + pose proof (proj1 (truthy_length _) Et) as Hl.
      destruct (Z.ltb_spec (JS.length (JS.trim t)) 1); [lia|].
      destruct (Utils.MAX_TITLE_LENGTH <? JS.length (JS.trim t));
        intros H'; inversion H'; cbn; auto.
    + intros H'; inversion H'; cbn; auto.
  - intros e. unfold Utils.validateContent.
    destruct (JS.truthy (JS.trim c)) eqn:Et; cbn [negb].
    + pose proof (proj1 (truthy_length _) Et) as Hl.
      destruct (Z.ltb_spec (JS.length (JS.trim c)) 1); [lia|].
      destruct (Utils.MAX_CONTENT_LENGTH <? JS.length (JS.trim c));
        intros H'; inversion H'; cbn; auto.
    + intros H'; inversion H'; cbn; auto.
Qed.

Lemma X26_client_server_validation_agree_witness :
  Utils.field (Utils.mkValidationError "title" "Title is required") = "title"
  /\ (Utils.message (Utils.mkValidationError "title" "Title is required")
      = "Title is required"
      \/ Utils.message (Utils.mkValidationError "title" "Title is required")
         = "Title cannot exceed 200 characters").
Proof.
  apply (proj1 (proj2 (X26_client_server_validation_agree "  " "x" None None))).
  reflexivity.
Defined.

Lemma substring0_length (n : nat) (s : string) :
  (String.length (String.substring 0 n s) <= n)%nat.
Proof.
  revert s. induction n as [|k IH]; intros s.
  - destruct s; cbn; lia.
  - destruct s as [|c r]; cbn; [lia|]. specialize (IH r). lia.
Qed.

(** substring(0, n) of a text with at least n characters: its first n
    characters. *)
Lemma substring0_prefix (n : nat) (s : string) :
  (n <= String.length s)%nat ->
  exists rest,
    s = (String.substring 0 n s ++ rest)%string
    /\ String.length (String.substring 0 n s) = n.
Proof.
  revert s. induction n as [|k IH]; intros s Hn.
  - exists s. destruct s; cbn; split; reflexivity.
  - destruct s as [|c r]; cbn in Hn; [lia|].
    destruct (IH r ltac:(lia)) as [rest [E L]].
    exists rest. cbn. split; [f_equal; exact E | f_equal; exact L].
Qed.

(** X27.  truncateText returns a text of at most maxLength characters
    unchanged.  A longer one is cut after its first maxLength characters;
    the cut piece is trimmed of white space at both ends and followed by
    three dots.  So the result never has more than maxLength + 3
    characters. *)
Theorem X27_truncateText (text : string) (maxLength : Z) :
  0 <= maxLength ->
  (JS.length text <= maxLength -> Utils.truncateText text maxLength = text)
  /\ (maxLength < JS.length text ->
      exists cut rest,
        text = (cut ++ rest)%string
        /\ JS.length cut = maxLength
        /\ Utils.truncateText text maxLength = (JS.trim cut ++ "...")%string)
  /\ JS.length (Utils.truncateText text maxLength) <= maxLength + 3.
Proof.
  intros Hm. unfold Utils.truncateText.
  assert (Hp : JS.length (JS.trim (Utils.substring0 maxLength text)) <= maxLength).
  { pose proof (trim_length (Utils.substring0 maxLength text)) as H1.
    pose proof (substring0_length (Z.to_nat maxLength) text) as H2.
    unfold Utils.substring0, JS.length in *. lia. }
  destruct (Z.leb_spec (JS.length text) maxLength) as [Hle|Hgt].
  - split; [reflexivity|]. split; [lia|lia].
  - split; [lia|]. split.
    + intros _.
      destruct (substring0_prefix (Z.to_nat maxLength) text) as [rest [E L]].
      { unfold JS.length in Hgt. lia. }
      exists (Utils.substring0 maxLength text), rest.
      split; [exact E|]. split; [|reflexivity].
      unfold JS.length, Utils.substring0. rewrite L. lia.
    + unfold JS.length in *. rewrite length_append. cbn [String.length]. lia.
Qed.

Lemma X27_truncateText_witness :
  exists cut rest,
    "buy milk and bread" = (cut ++ rest)%string
    /\ JS.length cut = 9
    /\ Utils.truncateText "buy milk and bread" 9 = (JS.trim cut ++ "...")%string.
Proof.
  apply (proj1 (proj2 (X27_truncateText "buy milk and bread" 9 ltac:(lia)))).
  reflexivity.
Defined.

(** ** The pages of the list route, taken together *)

Lemma firstn_plus {A : Type} (a b : nat) (l : list A) :
  firstn (a + b) l = firstn a l ++ firstn b (skipn a l).
Proof.
  revert l. induction a as [|a IH]; intros l; [reflexivity|].
  destruct l as [|x l]; cbn; [destruct b; reflexivity|]. f_equal. apply IH.
Qed.

Lemma slices_concat {A : Type} (l : nat) (xs : list A) (k : nat) :
  flat_map (fun i => firstn l (skipn (i * l) xs)) (seq 0 k) = firstn (k * l) xs.
Proof.
  induction k as [|k IH]; [reflexivity|].
  rewrite seq_S, flat_map_app, IH. cbn [flat_map Nat.add].
  rewrite app_nil_r. replace (S k * l)%nat with (k * l + l)%nat by lia.
  symmetry. apply firstn_plus.
Qed.

Lemma flat_map_map {A B C : Type} (g : A -> B) (f : B -> list C) (l : list A) :
  flat_map f (map g l) = flat_map (fun x => f (g x)) l.
Proof. induction l as [|x l IH]; cbn; [reflexivity|]. rewrite IH. reflexivity. Qed.

Lemma NoDup_map_filter {A B : Type} (g : A -> B) (f : A -> bool) (l : list A) :
  NoDup (map g l) -> NoDup (map g (filter f l)).
Proof.
  induction l as [|x l IH]; cbn; intros H; [constructor|].
  inversion H as [|y ys Hnin Hnd]; subst.
  destruct (f x); cbn; [constructor|]; [|apply IH, Hnd | apply IH, Hnd].
  intros Hin. apply Hnin. apply in_map_iff in Hin. destruct Hin as [z [Hz Hin]].
  apply in_map_iff. exists z. split; [exact Hz|]. apply filter_In in Hin. apply Hin.
Qed.

(** X28.  The pages tile the result.  For a fixed filter, sort and limit,
    the pages 1, ..., totalPages of the list route, one after the other,
    are exactly the sorted list of the matching notes: no note is skipped
    and none is served twice by position.  When the stored ids are
    distinct, no id appears on two pages or twice on one. *)
Theorem X28_pages_tile
  (textMatch : string -> Note.t -> bool)
  (q : Controller.ListQuery) (s : Mongoose.Store) :
  let all := Mongoose.sort (Controller.sortBy q) (Controller.sortDir q)
               (Mongoose.find textMatch (Controller.listFilter q) s) in
  let totalPages :=
    Controller.ceilQuot (Mongoose.countDocuments textMatch (Controller.listFilter q) s)
      (Z.pos (Controller.limit q)) in
  let pageOf p :=
    Controller.listPage textMatch
      (Controller.mkListQuery p (Controller.limit q) (Controller.sortBy q)
         (Controller.sortOrder q) (Controller.archived q) (Controller.search q)) s in
  flat_map pageOf (Observe.pageNumbers totalPages) = all
  /\ (NoDup (Invariant.ids s) ->
      NoDup (map Note._id (flat_map pageOf (Observe.pageNumbers totalPages)))).
Proof.
  intros all totalPages pageOf.
  assert (Htile : flat_map pageOf (Observe.pageNumbers totalPages) = all).
  { unfold Observe.pageNumbers. rewrite <- seq_shift, map_map, flat_map_map.
    transitivity
      (flat_map (fun i => firstn (Pos.to_nat (Controller.limit q))
                            (skipn (i * Pos.to_nat (Controller.limit q)) all))
         (seq 0 (Z.to_nat totalPages))).
    - apply flat_map_ext. intros i. subst pageOf.
      unfold Controller.listPage, Mongoose.limit, Mongoose.skip.
      cbn [Controller.page Controller.limit Controller.sortBy Controller.sortOrder
           Controller.archived Controller.search Controller.listFilter
           Controller.sortDir].
      fold (Controller.listFilter q). fold (Controller.sortDir q). fold all.
      replace (Z.to_nat ((Z.pos (Pos.of_nat (S i)) - 1) * Z.pos (Controller.limit q)))
        with (i * Pos.to_nat (Controller.limit q))%nat by nia.
      replace (Z.to_nat (Z.pos (Controller.limit q)))
        with (Pos.to_nat (Controller.limit q)) by lia.
      reflexivity.
    - rewrite slices_concat. apply firstn_all2.
      subst all. rewrite sort_length.
      pose proof (ceilQuot_spec
                    (Mongoose.countDocuments textMatch (Controller.listFilter q) s)
                    (Z.pos (Controller.limit q)) ltac:(lia)) as Hc.
      fold totalPages in Hc. unfold Mongoose.countDocuments in Hc. nia. }
  split; [exact Htile|].
  intros Hnd. rewrite Htile. subst all.
  apply (Permutation_NoDup
           (l := map Note._id (Mongoose.find textMatch (Controller.listFilter q) s))).
  - apply Permutation_map, Permutation_sym, sort_perm.
  - unfold Mongoose.find. apply NoDup_map_filter. exact Hnd.
Qed.

Lemma X28_pages_tile_witness :
  NoDup
    (map Note._id
       (flat_map
          (fun p =>
             Controller.listPage Samples.textMatch
               (Controller.mkListQuery p 1 "createdAt" "desc" "false" EmptyString)
               Samples.store0)
          (Observe.pageNumbers
             (Controller.ceilQuot
                (Mongoose.countDocuments Samples.textMatch
                   (Controller.listFilter
                      (Controller.mkListQuery 1 1 "createdAt" "desc" "false"
                         EmptyString))
                   Samples.store0) 1)))).
Proof.
  apply (proj2 (X28_pages_tile Samples.textMatch
                  (Controller.mkListQuery 1 1 "createdAt" "desc" "false" EmptyString)
                  Samples.store0)).
  vm_compute. repeat constructor; cbn; intuition discriminate.
Defined.

(** ** The list call of the client and the view built from it *)

(** X29.  A list response that resolves is never an error for the client,
    whatever it lacks: missing data is the empty list, and a missing
    pagination is replaced by a single page (page 1 of 1, limit 20) whose
    totalCount is the number of notes received.  A fetch then ends in the
    state success with no error text, and with the substituted pagination
    nextPage and previousPage do nothing. *)
Theorem X29_list_fallback
  (listFn : nat -> Api.Attempt (Api.BackendResponse (list Client.Note)))
  (resp : Api.BackendResponse (list Client.Note)) (v : UseNotesView.View) :
  snd (Api.retryRequest listFn Client.API_CONFIG.RETRY_ATTEMPTS) = inr resp ->
  let v1 := UseNotesView.fetchNotes listFn v in
  UseNotes.notes (UseNotesView.data v1) = Mongoose.orElse (Api.br_data resp) []
  /\ UseNotesView.loadingState v1 = UseNotesView.Success
  /\ UseNotesView.error v1 = None
  /\ UseNotesView.filters v1 = UseNotesView.filters v
  /\ (forall p, Api.br_pagination resp = Some p ->
        UseNotes.pagination (UseNotesView.data v1) = p)
  /\ (Api.br_pagination resp = None ->
      UseNotes.pagination (UseNotesView.data v1)
      = Client.mkPagination 1 1
          (Z.of_nat (List.length (UseNotes.notes (UseNotesView.data v1))))
          false false 20
      /\ UseNotesView.nextPage v1 = v1
      /\ UseNotesView.previousPage v1 = v1).
Proof.
  intros Hr v1. subst v1. unfold UseNotesView.fetchNotes, Api.getNotes.
  destruct (Api.retryRequest listFn Client.API_CONFIG.RETRY_ATTEMPTS) as [ev r].
  cbn [snd] in Hr. subst r. cbn.
  do 4 (split; [reflexivity|]). split.
  - intros p Hp. rewrite Hp. reflexivity.
  - intros Hp. rewrite Hp. unfold UseNotesView.nextPage, UseNotesView.previousPage.
    cbn. destruct (Api.br_data resp); cbn; repeat split.
Qed.

Lemma X29_list_fallback_witness :
  UseNotes.notes
    (UseNotesView.data
       (UseNotesView.fetchNotes (Samples.confirms None)
          (UseNotesView.initialView UseNotesView.noFilters)))
  = [].
Proof.
  apply (X29_list_fallback (Samples.confirms None) (Samples.okResponse None)
           (UseNotesView.initialView UseNotesView.noFilters)).
  reflexivity.
Defined.

(** X30.  Deleting from the list of cards.  When the user declines the
    confirmation nothing is sent and nothing changes.  When they accept, a
    request is sent, and whatever its outcome the form keeps its title,
    content and editing id, also when the deleted note is the one being
    edited; on failure the cache is unchanged and the error text shown is
    not empty, on success the note is gone from the cache and the error
    text of the form is left as it was. *)
Theorem X30_handleDelete
  (requestFn : nat -> Api.Attempt (Api.BackendResponse unit))
  (noteId : string) (f : NotesApp.Form) (st : UseNotes.State) :
  NotesApp.handleDelete false requestFn noteId f st = (f, st, [])
  /\ (let '(f', st', events) := NotesApp.handleDelete true requestFn noteId f st in
      events = fst (Api.deleteNote requestFn)
      /\ NotesApp.title f' = NotesApp.title f
      /\ NotesApp.content f' = NotesApp.content f
      /\ NotesApp.editingId f' = NotesApp.editingId f
      /\ NotesApp.isSubmitting f' = NotesApp.isSubmitting f
      /\ (forall a, snd (Api.deleteNote requestFn) = inl a ->
            st' = st
            /\ exists m, NotesApp.submitError f' = Some m /\ JS.truthy m = true)
      /\ (snd (Api.deleteNote requestFn) = inr tt ->
            f' = f
            /\ forall n, In n (UseNotes.notes st') <->
                         In n (UseNotes.notes st) /\ Client.id n <> noteId)).
Proof.
  split; [reflexivity|].
  unfold NotesApp.handleDelete, UseNotes.deleteNote. cbn [negb].
  destruct (snd (Api.deleteNote requestFn)) as [a|[]]; cbn.
  - do 5 (split; [reflexivity|]). split.
    + intros a' _. split; [reflexivity|]. eexists. split; [reflexivity|].
      apply rethrow_truthy. reflexivity.
    + intros H; discriminate H.
  - do 5 (split; [reflexivity|]). split.
    + intros a H; discriminate H.
    + intros _. split; [reflexivity|]. intros n.
      fold (UseNotes.removeById noteId (UseNotes.notes st)).
      apply removeById_In.
Qed.

Lemma X30_handleDelete_witness :
  fst (fst (NotesApp.handleDelete true (Samples.confirms None) "a"
              (NotesApp.mkForm "t" "c" (Some "a") None false)
              (UseNotes.mkState [Samples.clientNote "a"]
                 (Client.mkPagination 1 1 1 false false 20))))
  = NotesApp.mkForm "t" "c" (Some "a") None false.
Proof.
  pose proof (X30_handleDelete (Samples.confirms None) "a"
                (NotesApp.mkForm "t" "c" (Some "a") None false)
                (UseNotes.mkState [Samples.clientNote "a"]
                   (Client.mkPagination 1 1 1 false false 20))) as [_ H].
  destruct (NotesApp.handleDelete true (Samples.confirms None) "a"
              (NotesApp.mkForm "t" "c" (Some "a") None false)
              (UseNotes.mkState [Samples.clientNote "a"]
                 (Client.mkPagination 1 1 1 false false 20)))
    as [[f' st'] ev].
  destruct H as (_ & _ & _ & _ & _ & _ & Hok).
  exact (proj1 (Hok eq_refl)).
Defined.
